(** * Payment reconciliation of the campus-management backend

    A shallow embedding of the Paystack payment routes
    ([Routes/PaymentRoute.js] and its second variant, the unnamed
    [routes/paymentRoutes.js]), of the Mongoose schemas they write to
    ([models/Payment.js] in its Paystack form, [Models/Students.js]) and of the
    JavaScript and Node primitives they call ([JSON.stringify],
    [crypto.createHmac('sha512', ...)], property access, truthiness).

    Handlers are functions from the database state to a handler result and
    a new database state.  Exceptions are explicit ([Throw]); when one
    escapes every [try] of a handler, no line of the handler has sent a
    response.  The store is reliable: an operation on it fails only for a
    reason that the data determines (a cast, a validator, a unique index). *)

From Stdlib Require Import ZArith List String Ascii Bool Lia DecimalString.
Import ListNotations.
Open Scope string_scope.
Set Warnings "-register-all".

(** ** JavaScript values *)

(** The values a parsed JSON body or a gateway response is made of.
    Numbers are integers: a fractional JSON number has no counterpart
    here, and the primitives that compute with a number or print it are
    embedded on the safe integers ([safe_integer] below). *)
Inductive jsval : Type :=
| JUndefined
| JNull
| JBool (b : bool)
| JNum (n : Z)
| JStr (s : string)
| JArr (elems : list jsval)
| JObj (fields : list (string * jsval)).   (* own properties, in enumeration order *)

(** [!v] is [negb (truthy v)]. *)
Definition truthy (v : jsval) : bool :=
  match v with
  | JUndefined | JNull => false
  | JBool b => b
  | JNum n => negb (Z.eqb n 0)
  | JStr s => negb (String.eqb s "")
  | JArr _ | JObj _ => true
  end.

(** [a || b] on values. *)
Definition js_or (a b : jsval) : jsval := if truthy a then a else b.

(** [v === 'lit'] against a string literal. *)
Definition strict_eq_str (v : jsval) (lit : string) : bool :=
  match v with
  | JStr s => String.eqb s lit
  | _ => false
  end.

Fixpoint lookup_field (k : string) (fields : list (string * jsval)) : jsval :=
  match fields with
  | [] => JUndefined
  | (k', v) :: rest => if String.eqb k k' then v else lookup_field k rest
  end.

(** The exceptions the routes can meet. *)
Inductive exn : Type :=
| TypeError (what : string)
| ReferenceError (name : string)
| CastError (path : string)
| ValidationError (path : string)
| DuplicateKey (path : string)            (* MongoDB error code 11000 *)
| AxiosError (response : option jsval) (message : string).
                                          (* [response]: [error.response], the answer
                                             of the gateway when it sent one *)

(** The result of one step of a handler.  [Unmodelled] marks an input on
    which the libraries' behaviour is not embedded (a cross-type Mongoose
    coercion, a query operator in a filter, ...): no [catch] sees it and no
    theorem speaks about it. *)
Inductive outcome (A : Type) : Type :=
| Ok (a : A)
| Throw (e : exn)
| Unmodelled.
Arguments Ok {A} a.
Arguments Throw {A} e.
Arguments Unmodelled {A}.

Definition obind {A B : Type} (o : outcome A) (k : A -> outcome B) : outcome B :=
  match o with
  | Ok a => k a
  | Throw e => Throw e
  | Unmodelled => Unmodelled
  end.

(** The integers that a JavaScript number holds exactly
    ([Number.isSafeInteger]).  Beyond them arithmetic rounds and printing
    changes its form, so the embedding stops there. *)
Definition safe_integer (n : Z) : bool :=
  Z.leb (-9007199254740991) n && Z.leb n 9007199254740991.

(** [v.k] for a key that no built-in prototype defines: a [TypeError] on
    [undefined] and [null], the own property on an object, [undefined]
    elsewhere. *)
Definition get (v : jsval) (k : string) : outcome jsval :=
  match v with
  | JUndefined => Throw (TypeError ("Cannot read properties of undefined (reading '" ++ k ++ "')"))
  | JNull => Throw (TypeError ("Cannot read properties of null (reading '" ++ k ++ "')"))
  | JObj fields => Ok (lookup_field k fields)
  | _ => Ok JUndefined
  end.

(** [v?.k]. *)
Definition get_opt (v : jsval) (k : string) : jsval :=
  match v with
  | JObj fields => lookup_field k fields
  | _ => JUndefined
  end.

Definition decimal (n : Z) : string := NilZero.string_of_int (Z.to_int n).

(** [String(v)], as a template literal applies it. *)
Fixpoint to_string (v : jsval) : string :=
  match v with
  | JUndefined => "undefined"
  | JNull => "null"
  | JBool true => "true"
  | JBool false => "false"
  | JNum n => decimal n
  | JStr s => s
  | JArr elems =>
      String.concat ","
        (map (fun e => match e with
                       | JUndefined | JNull => ""
                       | _ => to_string e
                       end) elems)
  | JObj _ => "[object Object]"
  end.

(** ** JSON.stringify *)

Definition hex_digit (n : N) : ascii :=
  if N.ltb n 10 then ascii_of_N (48 + n) else ascii_of_N (87 + n).

Definition dquote : string := String (ascii_of_N 34) "".

Definition escape_char (c : ascii) : string :=
  let n := N_of_ascii c in
  if N.eqb n 34 then "\" ++ dquote
  else if N.eqb n 92 then "\\"
  else if N.eqb n 8 then "\b"
  else if N.eqb n 9 then "\t"
  else if N.eqb n 10 then "\n"
  else if N.eqb n 12 then "\f"
  else if N.eqb n 13 then "\r"
  else if N.ltb n 32 then
    "\u00" ++ String (hex_digit (N.div n 16)) (String (hex_digit (N.modulo n 16)) "")
  else String c "".

Fixpoint escape (s : string) : string :=
  match s with
  | EmptyString => ""
  | String c rest => escape_char c ++ escape rest
  end.

Definition quote (s : string) : string := dquote ++ escape s ++ dquote.

(** [JSON.stringify v].  [Ok None] is the JavaScript [undefined] it
    returns for [undefined]; an array prints [undefined] as [null] and an
    object leaves the key out.  A number is printed in decimal digits when
    it is a safe integer; the other numbers (which JavaScript rounds, or
    prints with an exponent from 1e21 on) are outside the embedding. *)
Fixpoint JSON_stringify (v : jsval) : outcome (option string) :=
  match v with
  | JUndefined => Ok None
  | JNull => Ok (Some "null")
  | JBool true => Ok (Some "true")
  | JBool false => Ok (Some "false")
  | JNum n => if safe_integer n then Ok (Some (decimal n)) else Unmodelled
  | JStr s => Ok (Some (quote s))
  | JArr elems =>
      obind ((fix items (l : list jsval) : outcome (list string) :=
                match l with
                | [] => Ok []
                | e :: rest =>
                    obind (JSON_stringify e) (fun t =>
                    obind (items rest) (fun ts =>
                    Ok (match t with Some text => text | None => "null" end :: ts)))
                end) elems)
            (fun ts => Ok (Some ("[" ++ String.concat "," ts ++ "]")))
  | JObj fields =>
      obind ((fix members (l : list (string * jsval)) : outcome (list string) :=
                match l with
                | [] => Ok []
                | (k, x) :: rest =>
                    obind (JSON_stringify x) (fun t =>
                    obind (members rest) (fun ts =>
                    Ok (match t with
                        | Some text => (quote k ++ ":" ++ text) :: ts
                        | None => ts
                        end)))
                end) fields)
            (fun ts => Ok (Some ("{" ++ String.concat "," ts ++ "}")))
  end.

(** ** JSON.parse, as the body parser applies it

    A recursive-descent reader of the JSON grammar over the bytes of the
    body, with three results.  [Parsed v]: the text is JSON and denotes
    [v].  [Refused]: the text is not JSON (or the parser's own checks fail)
    and the parser answers the request itself, so that the route is never
    entered.  [Unsupported]: the text leaves the embedded fragment at this
    point (a number with a fraction or an exponent or beyond the safe
    integers, a [\u] escape, a byte of a multi-byte character, a key that
    is an array index, which JavaScript orders first) and the embedding
    says nothing about it. *)

Inductive parsed (A : Type) : Type :=
| Parsed (a : A)
| Refused
| Unsupported.
Arguments Parsed {A} a.
Arguments Refused {A}.
Arguments Unsupported {A}.

Definition pbind {A B : Type} (x : parsed A) (k : A -> parsed B) : parsed B :=
  match x with
  | Parsed a => k a
  | Refused => Refused
  | Unsupported => Unsupported
  end.

Definition is_ws (c : ascii) : bool :=
  let n := N_of_ascii c in
  N.eqb n 32 || N.eqb n 9 || N.eqb n 10 || N.eqb n 13.

Fixpoint skip_ws (s : list ascii) : list ascii :=
  match s with
  | c :: rest => if is_ws c then skip_ws rest else s
  | [] => []
  end.

Definition is_digit (c : ascii) : bool :=
  let n := N_of_ascii c in N.leb 48 n && N.leb n 57.

Definition digit_val (c : ascii) : Z := Z.of_N (N_of_ascii c) - 48.

Fixpoint read_digits (acc : Z) (s : list ascii) : Z * list ascii :=
  match s with
  | c :: rest => if is_digit c then read_digits (10 * acc + digit_val c) rest else (acc, s)
  | [] => (acc, [])
  end.

Definition starts_fraction (s : list ascii) : bool :=
  match s with
  | c :: _ => let n := N_of_ascii c in N.eqb n 46 || N.eqb n 101 || N.eqb n 69
  | [] => false
  end.

(** After an optional minus: [0] or a digit sequence with no leading zero. *)
Definition read_nat (s : list ascii) : parsed (Z * list ascii) :=
  match s with
  | c :: rest =>
      if N.eqb (N_of_ascii c) 48 then
        if starts_fraction rest then Unsupported else Parsed (0%Z, rest)
      else if is_digit c then
        let '(n, rest') := read_digits 0 s in
        if starts_fraction rest' then Unsupported
        else if safe_integer n then Parsed (n, rest')
        else Unsupported
      else Refused
  | [] => Refused
  end.

Definition unescape (c : ascii) : option ascii :=
  let n := N_of_ascii c in
  if N.eqb n 34 || N.eqb n 92 || N.eqb n 47 then Some c
  else if N.eqb n 98 then Some (ascii_of_N 8)
  else if N.eqb n 102 then Some (ascii_of_N 12)
  else if N.eqb n 110 then Some (ascii_of_N 10)
  else if N.eqb n 114 then Some (ascii_of_N 13)
  else if N.eqb n 116 then Some (ascii_of_N 9)
  else None.

(** The characters of a string literal, after its opening quote. *)
Fixpoint read_string (s : list ascii) : parsed (string * list ascii) :=
  match s with
  | [] => Refused
  | c :: rest =>
      let n := N_of_ascii c in
      if N.eqb n 34 then Parsed ("", rest)
      else if N.eqb n 92 then
        match rest with
        | e :: rest' =>
            if N.eqb (N_of_ascii e) 117 then Unsupported
            else match unescape e with
                 | Some c' => pbind (read_string rest')
                                (fun '(str, out) => Parsed (String c' str, out))
                 | None => Refused
                 end
        | [] => Refused
        end
      else if N.ltb n 32 then Refused
      else if N.leb 128 n then Unsupported
      else pbind (read_string rest) (fun '(str, out) => Parsed (String c str, out))
  end.

Fixpoint all_digits (s : string) : bool :=
  match s with
  | EmptyString => true
  | String c rest => is_digit c && all_digits rest
  end.

(** A key that JavaScript treats as an array index. *)
Definition index_key (k : string) : bool :=
  match k with
  | EmptyString => false
  | String c rest =>
      all_digits k && (negb (N.eqb (N_of_ascii c) 48) || String.eqb rest "")
  end.

(** Defining property [k] of an object under construction: a repeated key
    keeps its first position and takes the last value. *)
Fixpoint obj_set (fields : list (string * jsval)) (k : string) (v : jsval)
  : list (string * jsval) :=
  match fields with
  | [] => [(k, v)]
  | (k', v') :: rest =>
      if String.eqb k k' then (k, v) :: rest else (k', v') :: obj_set rest k v
  end.

Definition expect (n : N) (s : list ascii) : parsed (list ascii) :=
  match s with
  | c :: rest => if N.eqb (N_of_ascii c) n then Parsed rest else Refused
  | [] => Refused
  end.

Fixpoint expect_word (w : string) (s : list ascii) : parsed (list ascii) :=
  match w with
  | EmptyString => Parsed s
  | String c w' =>
      match s with
      | c' :: rest => if Ascii.eqb c c' then expect_word w' rest else Refused
      | [] => Refused
      end
  end.

(** [fuel] bounds the depth of the recursion; the length of the text is
    enough. *)
Fixpoint parse_value (fuel : nat) (s : list ascii) : parsed (jsval * list ascii) :=
  match fuel with
  | O => Unsupported
  | S fuel' =>
      match skip_ws s with
      | [] => Refused
      | c :: rest =>
          let n := N_of_ascii c in
          if N.eqb n 123 then                               (* an object *)
            match skip_ws rest with
            | c' :: rest' =>
                if N.eqb (N_of_ascii c') 125 then Parsed (JObj [], rest')
                else parse_members fuel' [] (c' :: rest')
            | [] => Refused
            end
          else if N.eqb n 91 then                           (* an array *)
            match skip_ws rest with
            | c' :: rest' =>
                if N.eqb (N_of_ascii c') 93 then Parsed (JArr [], rest')
                else parse_elements fuel' [] (c' :: rest')
            | [] => Refused
            end
          else if N.eqb n 34 then
            pbind (read_string rest) (fun '(str, out) => Parsed (JStr str, out))
          else if N.eqb n 45 then
            pbind (read_nat rest) (fun '(m, out) => Parsed (JNum (- m), out))
          else if is_digit c then
            pbind (read_nat (c :: rest)) (fun '(m, out) => Parsed (JNum m, out))
          else if N.eqb n 116 then
            pbind (expect_word "rue" rest) (fun out => Parsed (JBool true, out))
          else if N.eqb n 102 then
            pbind (expect_word "alse" rest) (fun out => Parsed (JBool false, out))
          else if N.eqb n 110 then
            pbind (expect_word "ull" rest) (fun out => Parsed (JNull, out))
          else Refused
      end
  end

with parse_members (fuel : nat) (acc : list (string * jsval)) (s : list ascii)
  : parsed (jsval * list ascii) :=
  match fuel with
  | O => Unsupported
  | S fuel' =>
      pbind (expect 34 (skip_ws s)) (fun s1 =>
      pbind (read_string s1) (fun '(k, s2) =>
      if index_key k then Unsupported else
      pbind (expect 58 (skip_ws s2)) (fun s3 =>
      pbind (parse_value fuel' s3) (fun '(v, s4) =>
      let acc' := obj_set acc k v in
      match skip_ws s4 with
      | c :: rest =>
          if N.eqb (N_of_ascii c) 44 then parse_members fuel' acc' rest
          else if N.eqb (N_of_ascii c) 125 then Parsed (JObj acc', rest)
          else Refused
      | [] => Refused
      end))))
  end

with parse_elements (fuel : nat) (acc : list jsval) (s : list ascii)
  : parsed (jsval * list ascii) :=
  match fuel with
  | O => Unsupported
  | S fuel' =>
      pbind (parse_value fuel' s) (fun '(v, s1) =>
      match skip_ws s1 with
      | c :: rest =>
          if N.eqb (N_of_ascii c) 44 then parse_elements fuel' (acc ++ [v]) rest
          else if N.eqb (N_of_ascii c) 93 then Parsed (JArr (acc ++ [v]), rest)
          else Refused
      | [] => Refused
      end)
  end.

Definition JSON_parse (text : string) : parsed jsval :=
  let s := list_ascii_of_string text in
  pbind (parse_value (S (List.length s)) s) (fun '(v, rest) =>
  match skip_ws rest with [] => Parsed v | _ => Refused end).

Fixpoint ascii_only (s : string) : bool :=
  match s with
  | EmptyString => true
  | String c rest => N.ltb (N_of_ascii c) 128 && ascii_only rest
  end.

(** The JSON body parser in front of the routes ([bodyParser.json()] in the
    application, [express.json()] on the webhook route), for a request whose
    content type is JSON and whose body is not compressed, with its
    defaults: a body of more than 100kb is refused, an empty body is the
    empty object, and in strict mode the text must begin with an object or
    an array.  The decoding of the bytes into characters is embedded for
    ASCII only. *)
Definition express_json (raw : string) : parsed jsval :=
  if N.ltb 102400 (N.of_nat (String.length raw)) then Refused
  else if negb (ascii_only raw) then Unsupported
  else
    match raw with
    | EmptyString => Parsed (JObj [])
    | _ =>
        match skip_ws (list_ascii_of_string raw) with
        | c :: _ =>
            if N.eqb (N_of_ascii c) 123 || N.eqb (N_of_ascii c) 91
            then JSON_parse raw else Refused
        | [] => Refused
        end
    end.

(** ** crypto.createHmac('sha512', key).update(text).digest('hex')

    SHA-512 (FIPS 180-4) on 64-bit words kept in [Z] with the wrap-around
    written out, and HMAC (RFC 2104) over it.  A string stands for its
    bytes. *)

Module Sha512.
Local Open Scope Z_scope.

Definition w64 (x : Z) : Z := Z.land x 0xffffffffffffffff.
Definition add64 (x y : Z) : Z := w64 (x + y).
Definition rotr (n x : Z) : Z := Z.lor (Z.shiftr x n) (w64 (Z.shiftl x (64 - n))).
Definition Ch (x y z : Z) : Z := Z.lxor (Z.land x y) (Z.land (w64 (Z.lnot x)) z).
Definition Maj (x y z : Z) : Z :=
  Z.lxor (Z.lxor (Z.land x y) (Z.land x z)) (Z.land y z).
Definition Sigma0 (x : Z) : Z := Z.lxor (Z.lxor (rotr 28 x) (rotr 34 x)) (rotr 39 x).
Definition Sigma1 (x : Z) : Z := Z.lxor (Z.lxor (rotr 14 x) (rotr 18 x)) (rotr 41 x).
Definition sigma0 (x : Z) : Z := Z.lxor (Z.lxor (rotr 1 x) (rotr 8 x)) (Z.shiftr x 7).
Definition sigma1 (x : Z) : Z := Z.lxor (Z.lxor (rotr 19 x) (rotr 61 x)) (Z.shiftr x 6).

Definition K : list Z :=
  [ 0x428a2f98d728ae22 ; 0x7137449123ef65cd ; 0xb5c0fbcfec4d3b2f ; 0xe9b5dba58189dbbc ;
    0x3956c25bf348b538 ; 0x59f111f1b605d019 ; 0x923f82a4af194f9b ; 0xab1c5ed5da6d8118 ;
    0xd807aa98a3030242 ; 0x12835b0145706fbe ; 0x243185be4ee4b28c ; 0x550c7dc3d5ffb4e2 ;
    0x72be5d74f27b896f ; 0x80deb1fe3b1696b1 ; 0x9bdc06a725c71235 ; 0xc19bf174cf692694 ;
    0xe49b69c19ef14ad2 ; 0xefbe4786384f25e3 ; 0x0fc19dc68b8cd5b5 ; 0x240ca1cc77ac9c65 ;
    0x2de92c6f592b0275 ; 0x4a7484aa6ea6e483 ; 0x5cb0a9dcbd41fbd4 ; 0x76f988da831153b5 ;
    0x983e5152ee66dfab ; 0xa831c66d2db43210 ; 0xb00327c898fb213f ; 0xbf597fc7beef0ee4 ;
    0xc6e00bf33da88fc2 ; 0xd5a79147930aa725 ; 0x06ca6351e003826f ; 0x142929670a0e6e70 ;
    0x27b70a8546d22ffc ; 0x2e1b21385c26c926 ; 0x4d2c6dfc5ac42aed ; 0x53380d139d95b3df ;
    0x650a73548baf63de ; 0x766a0abb3c77b2a8 ; 0x81c2c92e47edaee6 ; 0x92722c851482353b ;
    0xa2bfe8a14cf10364 ; 0xa81a664bbc423001 ; 0xc24b8b70d0f89791 ; 0xc76c51a30654be30 ;
    0xd192e819d6ef5218 ; 0xd69906245565a910 ; 0xf40e35855771202a ; 0x106aa07032bbd1b8 ;
    0x19a4c116b8d2d0c8 ; 0x1e376c085141ab53 ; 0x2748774cdf8eeb99 ; 0x34b0bcb5e19b48a8 ;
    0x391c0cb3c5c95a63 ; 0x4ed8aa4ae3418acb ; 0x5b9cca4f7763e373 ; 0x682e6ff3d6b2b8a3 ;
    0x748f82ee5defb2fc ; 0x78a5636f43172f60 ; 0x84c87814a1f0ab72 ; 0x8cc702081a6439ec ;
    0x90befffa23631e28 ; 0xa4506cebde82bde9 ; 0xbef9a3f7b2c67915 ; 0xc67178f2e372532b ;
    0xca273eceea26619c ; 0xd186b8c721c0c207 ; 0xeada7dd6cde0eb1e ; 0xf57d4f7fee6ed178 ;
    0x06f067aa72176fba ; 0x0a637dc5a2c898a6 ; 0x113f9804bef90dae ; 0x1b710b35131c471b ;
    0x28db77f523047d84 ; 0x32caab7b40c72493 ; 0x3c9ebe0a15c9bebc ; 0x431d67c49c100d4c ;
    0x4cc5d4becb3e42b6 ; 0x597f299cfc657e2a ; 0x5fcb6fab3ad6faec ; 0x6c44198c4a475817 ].

Definition H0 : list Z :=
  [ 0x6a09e667f3bcc908 ; 0xbb67ae8584caa73b ; 0x3c6ef372fe94f82b ; 0xa54ff53a5f1d36f1 ;
    0x510e527fade682d1 ; 0x9b05688c2b3e6c1f ; 0x1f83d9abfb41bd6b ; 0x5be0cd19137e2179 ].

Definition bytes_of_string (s : string) : list Z :=
  map (fun c => Z.of_N (N_of_ascii c)) (list_ascii_of_string s).

(** Big-endian bytes of [x], [n] of them. *)
Fixpoint be_bytes (n : nat) (x : Z) : list Z :=
  match n with
  | O => []
  | S n' => (be_bytes n' (Z.shiftr x 8) ++ [Z.land x 255])%list
  end.

Definition be_word (bytes : list Z) : Z :=
  fold_left (fun acc b => Z.lor (Z.shiftl acc 8) b) bytes 0.

(** The message, a one bit, zeros up to 112 modulo 128 bytes, and the bit
    length on 128 bits. *)
Definition pad (msg : list Z) : list Z :=
  let len := Z.of_nat (List.length msg) in
  let zeros := Z.to_nat ((111 - len) mod 128) in
  (msg ++ [128] ++ repeat 0 zeros ++ be_bytes 16 (8 * len))%list.

Fixpoint chunks (count size : nat) (l : list Z) : list (list Z) :=
  match count with
  | O => []
  | S count' => firstn size l :: chunks count' size (skipn size l)
  end.

Definition words_of_block (block : list Z) : list Z :=
  map be_word (chunks 16 8 block).

(** One round on the working variables [a..h] with the schedule window
    [w] (the sixteen most recent schedule words, oldest first). *)
Definition round (st : list Z * list Z) (k : Z) : list Z * list Z :=
  match st with
  | ([a; b; c; d; e; f; g; h], w) =>
      let wt := nth 0 w 0 in
      let t1 := add64 (add64 (add64 (add64 h (Sigma1 e)) (Ch e f g)) k) wt in
      let t2 := add64 (Sigma0 a) (Maj a b c) in
      let next :=
        add64 (add64 (add64 (sigma1 (nth 14 w 0)) (nth 9 w 0)) (sigma0 (nth 1 w 0)))
              (nth 0 w 0) in
      ([add64 t1 t2; a; b; c; add64 d t1; e; f; g], (tl w ++ [next])%list)
  | _ => st
  end.

Definition compress (h : list Z) (block : list Z) : list Z :=
  let '(v, _) := fold_left round K (h, words_of_block block) in
  map (fun p => add64 (fst p) (snd p)) (combine h v).

Definition sha512 (msg : list Z) : list Z :=
  let padded := pad msg in
  let blocks := chunks (Nat.div (List.length padded) 128) 128 padded in
  flat_map (be_bytes 8) (fold_left compress blocks H0).

Definition block_size : nat := 128.

Definition hmac (key msg : list Z) : list Z :=
  let key0 := if Nat.ltb block_size (List.length key) then sha512 key else key in
  let key1 := (key0 ++ repeat 0 (block_size - List.length key0))%list in
  let ipad := map (fun b => Z.lxor b 0x36) key1 in
  let opad := map (fun b => Z.lxor b 0x5c) key1 in
  sha512 (opad ++ sha512 (ipad ++ msg))%list.

Definition hex_of_bytes (bytes : list Z) : string :=
  string_of_list_ascii
    (flat_map (fun b => [hex_digit (Z.to_N (Z.shiftr b 4));
                         hex_digit (Z.to_N (Z.land b 15))]) bytes).

End Sha512.

Definition createHmac_sha512_hex (key text : string) : string :=
  Sha512.hex_of_bytes (Sha512.hmac (Sha512.bytes_of_string key) (Sha512.bytes_of_string text)).

(** ** Mongoose: schema casting *)

(** An ObjectId in its canonical text: 24 lower-case hexadecimal digits. *)
Definition ObjectId : Type := string.

(** A [Date]: what [new Date(x)] denotes for a millisecond count or for a
    timestamp text.  Equal terms are equal dates; two different terms may
    denote the same instant, and no statement rests on two dates being
    different. *)
Inductive JsDate : Type :=
| DateOfMs (ms : Z)
| DateOfString (iso : string).

(** What casting a value to a schema type gives.  [Invalid] is a value
    that the cast refuses; [Unknown] marks the coercions of Mongoose that
    are not embedded (a number given for a String path, a 12-character
    ObjectId text, a date text in another layout, ...). *)
Inductive casted (A : Type) : Type :=
| Value (a : A)
| Undef
| Null
| Invalid
| Unknown.
Arguments Value {A} a.
Arguments Undef {A}.
Arguments Null {A}.
Arguments Invalid {A}.
Arguments Unknown {A}.

Definition cast_String (v : jsval) : casted string :=
  match v with
  | JStr s => Value s
  | JUndefined => Undef
  | JNull => Null
  | _ => Unknown
  end.

Definition cast_Number (v : jsval) : casted Z :=
  match v with
  | JNum n => Value n
  | JUndefined => Undef
  | JNull => Null
  | _ => Unknown
  end.

Definition is_hex (c : ascii) : bool :=
  let n := N_of_ascii c in
  (N.leb 48 n && N.leb n 57) || (N.leb 97 n && N.leb n 102) || (N.leb 65 n && N.leb n 70).

Definition lower (c : ascii) : ascii :=
  let n := N_of_ascii c in
  if N.leb 65 n && N.leb n 90 then ascii_of_N (n + 32) else c.

Fixpoint all_hex (s : string) : bool :=
  match s with
  | EmptyString => true
  | String c rest => is_hex c && all_hex rest
  end.

Fixpoint lowercase (s : string) : string :=
  match s with
  | EmptyString => EmptyString
  | String c rest => String (lower c) (lowercase rest)
  end.

Definition cast_ObjectId (v : jsval) : casted ObjectId :=
  match v with
  | JStr s =>
      if Nat.eqb (String.length s) 24 && all_hex s then Value (lowercase s)
      else if Nat.eqb (String.length s) 12 then Unknown
      else Invalid
  | JUndefined => Undef
  | JNull => Null
  | _ => Unknown
  end.

Definition two_digits (c1 c2 : ascii) (lo hi : Z) : bool :=
  is_digit c1 && is_digit c2
  && Z.leb lo (10 * digit_val c1 + digit_val c2)
  && Z.leb (10 * digit_val c1 + digit_val c2) hi.

(** The gateway's timestamp layout, [YYYY-MM-DDTHH:MM:SS.sssZ], as the
    date parser of Node reads it: a month from 01 to 12, a day from 01 to
    31 whatever the month (a day that the month does not have counts on
    into the next month), a time up to 23:59:59.999, or 24:00:00.000. *)
Definition iso_timestamp (s : string) : bool :=
  match list_ascii_of_string s with
  | [y1; y2; y3; y4; h1; m1; m2; h2; d1; d2; t; hh1; hh2; c1; mi1; mi2; c2;
     s1; s2; dot; f1; f2; f3; z] =>
      is_digit y1 && is_digit y2 && is_digit y3 && is_digit y4
      && N.eqb (N_of_ascii h1) 45 && two_digits m1 m2 1 12
      && N.eqb (N_of_ascii h2) 45 && two_digits d1 d2 1 31
      && N.eqb (N_of_ascii t) 84
      && N.eqb (N_of_ascii c1) 58
      && N.eqb (N_of_ascii c2) 58
      && N.eqb (N_of_ascii dot) 46 && is_digit f1 && is_digit f2 && is_digit f3
      && ((two_digits hh1 hh2 0 23 && two_digits mi1 mi2 0 59 && two_digits s1 s2 0 59)
          || (two_digits hh1 hh2 24 24 && two_digits mi1 mi2 0 0 && two_digits s1 s2 0 0
              && two_digits f1 f2 0 0 && two_digits f3 f3 0 0))
      && N.eqb (N_of_ascii z) 90
  | _ => false
  end.

(** The time values: milliseconds since the epoch that a [Date] can hold
    (at most 8.64e15 on either side).  [new Date(n)] is an invalid date
    for any other number. *)
Definition time_value (n : Z) : bool :=
  Z.leb (-8640000000000000) n && Z.leb n 8640000000000000.

(** Casting to a Date: a number is a millisecond count, which must be a
    time value; a string is parsed as a date, which is embedded for the
    timestamp layout above. *)
Definition cast_Date (v : jsval) : casted JsDate :=
  match v with
  | JNum n => if time_value n then Value (DateOfMs n) else Invalid
  | JStr s => if iso_timestamp s then Value (DateOfString s) else Unknown
  | JUndefined => Undef
  | JNull => Null
  | _ => Unknown
  end.

(** A [required: true] path of a document under validation. *)
Definition required {A : Type} (path : string) (c : casted A) : outcome A :=
  match c with
  | Value a => Ok a
  | Undef | Null | Invalid => Throw (ValidationError path)
  | Unknown => Unmodelled
  end.

(** The same for a String path, where the empty string fails too. *)
Definition required_string (path : string) (c : casted string) : outcome string :=
  match required path c with
  | Ok s => if String.eqb s "" then Throw (ValidationError path) else Ok s
  | other => other
  end.

Definition optional {A : Type} (path : string) (c : casted A) : outcome (option A) :=
  match c with
  | Value a => Ok (Some a)
  | Undef | Null => Ok None
  | Invalid => Throw (ValidationError path)
  | Unknown => Unmodelled
  end.

(** A path of an update document: [null] unsets, a value sets; what an
    [undefined] does depends on the Mongoose version and is not embedded. *)
Definition update_path {A : Type} (path : string) (c : casted A) : outcome (option A) :=
  match c with
  | Value a => Ok (Some a)
  | Null => Ok None
  | Invalid => Throw (CastError path)
  | Undef | Unknown => Unmodelled
  end.

(** An [_id] or a String path of a filter. *)
Definition filter_path {A : Type} (path : string) (c : casted A) : outcome A :=
  match c with
  | Value a => Ok a
  | Invalid => Throw (CastError path)
  | Undef | Null | Unknown => Unmodelled
  end.

(** ** models/Payment.js (the Paystack schema) *)

Module Payment.

Record doc : Type := mk {
  _id : ObjectId;
  studentId : ObjectId;
  paystackReference : string;
  amount : Z;
  currency : string;
  status : string;
  semester : string;
  academicYear : string;
  description : option string;
  paidAt : option JsDate;
  createdAt : JsDate;
  updatedAt : JsDate
}.

(** The object literal given to [new Payment({...})]; a key that the
    literal does not have is [JUndefined]. *)
Record fields : Type := {
  f_studentId : jsval;
  f_paystackReference : jsval;
  f_amount : jsval;
  f_currency : jsval;
  f_status : jsval;
  f_semester : jsval;
  f_academicYear : jsval;
  f_description : jsval;
  f_paidAt : jsval;
  f_createdAt : jsval;
  f_updatedAt : jsval
}.

(** [default: ...] of the schema: used when the key is [undefined]. *)
Definition with_default (v default : jsval) : jsval :=
  match v with
  | JUndefined => default
  | _ => v
  end.

(** [new Payment(f)]: the document before validation, with its fresh
    [_id] and the schema defaults.  The two [default: Date.now] are two
    calls, [createdAt] before [updatedAt], each made only when its key is
    [undefined]: [now k] is what the call number [k] of them reads. *)
Record draft : Type := {
  draft_id : ObjectId;
  draft_fields : fields
}.

Definition new_ (id : ObjectId) (now : nat -> Z) (f : fields) : draft :=
  {| draft_id := id;
     draft_fields :=
       {| f_studentId := f_studentId f;
          f_paystackReference := f_paystackReference f;
          f_amount := f_amount f;
          f_currency := with_default (f_currency f) (JStr "NGN");
          f_status := with_default (f_status f) (JStr "pending");
          f_semester := f_semester f;
          f_academicYear := f_academicYear f;
          f_description := f_description f;
          f_paidAt := f_paidAt f;
          f_createdAt := with_default (f_createdAt f) (JNum (now 0%nat));
          f_updatedAt :=
            with_default (f_updatedAt f)
              (JNum (now (match f_createdAt f with
                          | JUndefined => 1%nat
                          | _ => 0%nat
                          end))) |} |}.

(** Casting and the [required] validators, path by path. *)
Definition validate (d : draft) : outcome doc :=
  let f := draft_fields d in
  obind (required "studentId" (cast_ObjectId (f_studentId f))) (fun sid =>
  obind (required_string "paystackReference" (cast_String (f_paystackReference f))) (fun ref =>
  obind (required "amount" (cast_Number (f_amount f))) (fun amt =>
  obind (required_string "currency" (cast_String (f_currency f))) (fun cur =>
  obind (required_string "status" (cast_String (f_status f))) (fun st =>
  obind (required_string "semester" (cast_String (f_semester f))) (fun sem =>
  obind (required_string "academicYear" (cast_String (f_academicYear f))) (fun yr =>
  obind (optional "description" (cast_String (f_description f))) (fun desc =>
  obind (optional "paidAt" (cast_Date (f_paidAt f))) (fun paid =>
  obind (required "createdAt" (cast_Date (f_createdAt f))) (fun created =>
  obind (required "updatedAt" (cast_Date (f_updatedAt f))) (fun updated =>
  Ok (mk (draft_id d) sid ref amt cur st sem yr desc paid created updated)))))))))))).

Definition has_reference (ref : string) (p : doc) : bool :=
  String.eqb (paystackReference p) ref.

Definition has_id (id : ObjectId) (p : doc) : bool := String.eqb (_id p) id.

(** [await d.save()] of a new document: validation, then the insert, which
    the unique indexes on [_id] and [paystackReference] can refuse. *)
Definition save (d : draft) (coll : list doc) : outcome doc * list doc :=
  match validate d with
  | Ok p =>
      if existsb (has_id (_id p)) coll then (Throw (DuplicateKey "_id"), coll)
      else if existsb (has_reference (paystackReference p)) coll
      then (Throw (DuplicateKey "paystackReference"), coll)
      else (Ok p, (coll ++ [p])%list)
  | Throw e => (Throw e, coll)
  | Unmodelled => (Unmodelled, coll)
  end.

(** The update documents the routes pass: [status] is a literal,
    [updatedAt] is [Date.now()], and [paidAt] is present on the success
    paths only. *)
Record update : Type := {
  u_status : string;
  u_paidAt : option jsval;
  u_updatedAt : Z
}.

Definition apply_update (st : string) (paid : option (option JsDate)) (now : Z) (p : doc) : doc :=
  mk (_id p) (studentId p) (paystackReference p) (amount p) (currency p)
     st (semester p) (academicYear p) (description p)
     (match paid with Some d => d | None => paidAt p end)
     (createdAt p) (DateOfMs now).

Fixpoint update_first (ref : string) (f : doc -> doc) (coll : list doc)
  : option doc * list doc :=
  match coll with
  | [] => (None, [])
  | p :: rest =>
      if has_reference ref p then (Some (f p), f p :: rest)
      else let '(found, rest') := update_first ref f rest in (found, p :: rest')
  end.

(** [Payment.findOneAndUpdate({ paystackReference: ref }, u, { new: true })]:
    the first document with that reference is updated, whatever its
    status, and returned as updated; [null] and no write when there is
    none (no upsert). *)
Definition findOneAndUpdate (ref : jsval) (u : update) (coll : list doc)
  : outcome (option doc) * list doc :=
  match filter_path "paystackReference" (cast_String ref),
        match u_paidAt u with
        | Some v => obind (update_path "paidAt" (cast_Date v)) (fun d => Ok (Some d))
        | None => Ok None
        end with
  | Ok r, Ok paid =>
      let '(found, coll') := update_first r (apply_update (u_status u) paid (u_updatedAt u)) coll in
      (Ok found, coll')
  | Throw e, Ok _ | Throw e, Throw _ | Ok _, Throw e => (Throw e, coll)
  | _, _ => (Unmodelled, coll)
  end.

End Payment.

(** ** Models/Students.js: the payment projection *)

Module Student.

(** The fields the payment routes read or write, [updatedAt], which the
    [timestamps: true] of the schema makes every update set, and [profile],
    which stands for the others (name, department, ..., [createdAt]). *)
Record doc : Type := mk {
  _id : ObjectId;
  profile : jsval;
  currentSemesterPaymentStatus : string;
  lastPaidSemester : option string;
  lastPaidAcademicYear : option string;
  paymentHistory : list (option ObjectId);
  updatedAt : JsDate
}.

Definition has_id (id : ObjectId) (s : doc) : bool := String.eqb (_id s) id.

(** [Student.findById(id)]. *)
Definition findById (id : jsval) (coll : list doc) : outcome (option doc) :=
  obind (filter_path "_id" (cast_ObjectId id)) (fun i => Ok (find (has_id i) coll)).

Definition same_entry (a b : option ObjectId) : bool :=
  match a, b with
  | Some x, Some y => String.eqb x y
  | None, None => true
  | _, _ => false
  end.

(** [$addToSet]: appended unless already present. *)
Definition addToSet (x : option ObjectId) (l : list (option ObjectId)) : list (option ObjectId) :=
  if existsb (same_entry x) l then l else (l ++ [x])%list.

(** The update document of the routes:
    [{ currentSemesterPaymentStatus: 'paid', lastPaidSemester: semester,
       lastPaidAcademicYear: academic_year, $addToSet: { paymentHistory: id } }],
    where [id] may be [null]. *)
Record update : Type := {
  u_currentSemesterPaymentStatus : string;
  u_lastPaidSemester : jsval;
  u_lastPaidAcademicYear : jsval;
  u_addToSet_paymentHistory : option ObjectId
}.

Definition apply_update (st : string) (sem yr : option string) (entry : option ObjectId)
  (now : Z) (s : doc) : doc :=
  mk (_id s) (profile s) st sem yr (addToSet entry (paymentHistory s)) (DateOfMs now).

Fixpoint update_first (id : ObjectId) (f : doc -> doc) (coll : list doc) : list doc :=
  match coll with
  | [] => []
  | s :: rest => if has_id id s then f s :: rest else s :: update_first id f rest
  end.

(** [Student.findByIdAndUpdate(id, u)]: no write when no student has that
    id; with [timestamps: true] the update also sets [updatedAt] to the
    time [now] at which it is run.  The routes ignore what it returns. *)
Definition findByIdAndUpdate (now : Z) (id : jsval) (u : update) (coll : list doc)
  : outcome unit * list doc :=
  match filter_path "_id" (cast_ObjectId id),
        update_path "lastPaidSemester" (cast_String (u_lastPaidSemester u)),
        update_path "lastPaidAcademicYear" (cast_String (u_lastPaidAcademicYear u)) with
  | Ok i, Ok sem, Ok yr =>
      (Ok tt,
       update_first i
         (apply_update (u_currentSemesterPaymentStatus u) sem yr (u_addToSet_paymentHistory u)
            now)
         coll)
  | Throw e, Ok _, Ok _ => (Throw e, coll)
  | _, _, _ => (Unmodelled, coll)
  end.

End Student.

(** ** The database and the handler monad *)

Record Db : Type := {
  payments : list Payment.doc;
  students : list Student.doc
}.

(** A computation of a handler: it reads and writes the database and
    ends in a value, in an exception or outside the embedding. *)
Definition M (A : Type) : Type := Db -> outcome A * Db.

Definition ret {A : Type} (a : A) : M A := fun db => (Ok a, db).

Definition bind {A B : Type} (m : M A) (k : A -> M B) : M B :=
  fun db =>
    match m db with
    | (Ok a, db') => k a db'
    | (Throw e, db') => (Throw e, db')
    | (Unmodelled, db') => (Unmodelled, db')
    end.

Definition throw {A : Type} (e : exn) : M A := fun db => (Throw e, db).

(** A pure step that may throw. *)
Definition lift {A : Type} (o : outcome A) : M A := fun db => (o, db).

(** [try { body } catch (error) { handler }]: the writes made before the
    exception stay. *)
Definition try_catch {A : Type} (body : M A) (handler : exn -> M A) : M A :=
  fun db =>
    match body db with
    | (Throw e, db') => handler e db'
    | other => other
    end.

(** A read of the students collection. *)
Definition lift_students {A : Type} (op : list Student.doc -> outcome A) : M A :=
  fun db => (op (students db), db).

Definition on_payments {A : Type} (op : list Payment.doc -> outcome A * list Payment.doc) : M A :=
  fun db =>
    let '(o, coll) := op (payments db) in
    (o, {| payments := coll; students := students db |}).

Definition on_students {A : Type} (op : list Student.doc -> outcome A * list Student.doc) : M A :=
  fun db =>
    let '(o, coll) := op (students db) in
    (o, {| payments := payments db; students := coll |}).

Notation "x <- m ;; k" := (bind m (fun x => k))
  (at level 61, m at next level, right associativity).
Notation "m ;;; k" := (bind m (fun _ => k))
  (at level 61, right associativity).

(** ** Requests, responses and the environment of a request *)

Inductive Body : Type :=
| Message (message : string)
| MessageDetails (message : string) (details : jsval)
| MessageError (message : string) (error : exn)     (* error: error.message *)
| MessageErrorOf (message : string) (error : jsval) (* error: error.response.data.message *)
| Initiated (authorization_url access_code reference : jsval) (paymentId : ObjectId)
| Verified (message : string) (payment : option Payment.doc)
| Received                                   (* { received: true } *)
| ReceivedMessage (message : string)         (* { received: true, message } *)
| Text (text : string).

Record Response : Type := {
  res_status : nat;
  res_body : Body
}.

Definition respond (code : nat) (b : Body) : Response :=
  {| res_status := code; res_body := b |}.

(** What a run of a handler ends in: the response it sent, or an
    exception that escaped it (the promise of the [async] handler is
    rejected and the handler has sent nothing), or an input outside the
    embedding. *)
Inductive HandlerResult : Type :=
| Responded (r : Response)
| Unhandled (e : exn)
| OutsideModel.

Definition run (m : M Response) (db : Db) : HandlerResult * Db :=
  match m db with
  | (Ok r, db') => (Responded r, db')
  | (Throw e, db') => (Unhandled e, db')
  | (Unmodelled, db') => (OutsideModel, db')
  end.

(** What a request reads from outside: the successive readings of the
    clock while it is handled ([Date.now()] in the routes and in the
    defaults of the Payment schema, the time at which a student is
    updated), which are time values, and the [_id] that [new Payment]
    draws. *)
Record Env : Type := {
  Date_now : nat -> Z;
  Date_now_time : forall k, time_value (Date_now k) = true;
  new_ObjectId : ObjectId
}.

(** [amount <= 0] and [Math.round(amount * 100)] on a number; the
    coercions of other values to numbers are not embedded, and the product
    is the exact one as long as it is a safe integer. *)
Definition js_le (v : jsval) (bound : Z) : outcome bool :=
  match v with
  | JNum n => Ok (Z.leb n bound)
  | _ => Unmodelled
  end.

Definition Math_round_times (v : jsval) (factor : Z) : outcome Z :=
  match v with
  | JNum n =>
      if safe_integer n && safe_integer (n * factor) then Ok (n * factor)%Z
      else Unmodelled
  | _ => Unmodelled
  end.

(** [hash == req.headers[...]]: a string against a string or [undefined]. *)
Definition loose_eq_header (hash : string) (header : option string) : bool :=
  match header with
  | Some h => String.eqb hash h
  | None => false
  end.

(** [crypto.createHmac('sha512', secret).update(JSON.stringify(req.body)).digest('hex')];
    [update] throws on the [undefined] that [JSON.stringify] can return. *)
Definition body_hash (secret : string) (body : jsval) : outcome string :=
  match JSON_stringify body with
  | Ok (Some text) => Ok (createHmac_sha512_hex secret text)
  | Ok None =>
      Throw (TypeError "The data argument must be of type string or Buffer. Received undefined")
  | Throw e => Throw e
  | Unmodelled => Unmodelled
  end.

(** The middleware in front of the two private routes. *)
Definition protect (authorization : option string) (next : M Response) : M Response :=
  match authorization with
  | Some a =>
      if negb (String.eqb a "") && String.prefix "Bearer" a then next
      else ret (respond 401 (Message "Not authorized, no token"))
  | None => ret (respond 401 (Message "Not authorized, no token"))
  end.

(** The end of the [catch] of the two private routes: status 500 and
    [error: error.response ? error.response.data.message : error.message].
    Only an error of axios has a [response]; reading [message] of a
    response without a body throws again, out of the handler. *)
Definition failure (message : string) (error : exn) : M Response :=
  match error with
  | AxiosError (Some response) _ =>
      if truthy response then
        data <- lift (get response "data") ;;
        detail <- lift (get data "message") ;;
        ret (respond 500 (MessageErrorOf message detail))
      else ret (respond 500 (MessageError message error))
  | _ => ret (respond 500 (MessageError message error))
  end.

Definition fee_payment_for (semester academicYear : jsval) : jsval :=
  JStr ("Fee payment for " ++ to_string semester ++ " " ++ to_string academicYear).

Definition mark_paid (semester academic_year : jsval) (entry : option ObjectId)
  : Student.update :=
  {| Student.u_currentSemesterPaymentStatus := "paid";
     Student.u_lastPaidSemester := semester;
     Student.u_lastPaidAcademicYear := academic_year;
     Student.u_addToSet_paymentHistory := entry |}.

Definition initialize_payload (email : jsval) (amountInKobo : Z) (student : Student.doc)
  (semester academicYear description : jsval) (extra : list (string * jsval)) : jsval :=
  JObj ([("email", email);
         ("amount", JNum amountInKobo);
         ("currency", JStr "NGN");
         ("metadata",
          JObj [("student_id", JStr (Student._id student));
                ("semester", semester);
                ("academic_year", academicYear);
                ("description", js_or description (fee_payment_for semester academicYear))])]
        ++ extra)%list.

Definition pending_payment (student : Student.doc) (reference : jsval) (amountInKobo : Z)
  (semester academicYear description : jsval) : Payment.fields :=
  {| Payment.f_studentId := JStr (Student._id student);
     Payment.f_paystackReference := reference;
     Payment.f_amount := JNum amountInKobo;
     Payment.f_currency := JStr "NGN";
     Payment.f_status := JStr "pending";
     Payment.f_semester := semester;
     Payment.f_academicYear := academicYear;
     Payment.f_description := js_or description (fee_payment_for semester academicYear);
     Payment.f_paidAt := JUndefined;
     Payment.f_createdAt := JUndefined;
     Payment.f_updatedAt := JUndefined |}.

Definition success_update (paid_at : jsval) (now : Z) : Payment.update :=
  {| Payment.u_status := "success"; Payment.u_paidAt := Some paid_at; Payment.u_updatedAt := now |}.

Definition failed_update (now : Z) : Payment.update :=
  {| Payment.u_status := "failed"; Payment.u_paidAt := None; Payment.u_updatedAt := now |}.

Definition reconstructed_payment (student_id reference : jsval) (paystackData : jsval)
  (semester academic_year description : jsval) (created updated : Z) : Payment.fields :=
  {| Payment.f_studentId := student_id;
     Payment.f_paystackReference := reference;
     Payment.f_amount := get_opt paystackData "amount";
     Payment.f_currency := get_opt paystackData "currency";
     Payment.f_status := JStr "success";
     Payment.f_semester := semester;
     Payment.f_academicYear := academic_year;
     Payment.f_description := description;
     Payment.f_paidAt := get_opt paystackData "paid_at";
     Payment.f_createdAt := JNum created;
     Payment.f_updatedAt := JNum updated |}.

(** ** Routes/PaymentRoute.js *)

Module PaymentRoute.

(** [POST /initiate-payment].  [axios_post] is the gateway: from the
    payload of [transaction/initialize] to the body of its response, or the
    error axios throws. *)
Definition initiate_payment (env : Env) (axios_post : jsval -> outcome jsval)
  (authorization : option string) (body : jsval) : M Response :=
  protect authorization (
    amount <- lift (get body "amount") ;;
    studentId <- lift (get body "studentId") ;;
    semester <- lift (get body "semester") ;;
    academicYear <- lift (get body "academicYear") ;;
    description <- lift (get body "description") ;;
    email <- lift (get body "email") ;;
    if negb (truthy amount) || negb (truthy studentId) || negb (truthy semester)
       || negb (truthy academicYear) || negb (truthy email)
    then ret (respond 400 (Message
      "Missing required payment details (amount, studentId, semester, academicYear, email)."))
    else
      nonpositive <- lift (js_le amount 0) ;;
      if nonpositive then ret (respond 400 (Message "Amount must be positive."))
      else
        try_catch (
          found <- lift_students (Student.findById studentId) ;;
          match found with
          | None => ret (respond 404 (Message "Student not found."))
          | Some student =>
              amountInKobo <- lift (Math_round_times amount 100) ;;
              data <- lift (axios_post
                        (initialize_payload email amountInKobo student semester academicYear
                           description [])) ;;
              accepted <- (if truthy data then lift (get data "status") else ret data) ;;
              if truthy accepted then
                paystackData <- lift (get data "data") ;;
                reference <- lift (get paystackData "reference") ;;
                newPayment <- on_payments (Payment.save
                  (Payment.new_ (new_ObjectId env) (Date_now env)
                     (pending_payment student reference amountInKobo semester academicYear
                        description))) ;;
                ret (respond 200
                       (Initiated (get_opt paystackData "authorization_url")
                                  (get_opt paystackData "access_code")
                                  (get_opt paystackData "reference")
                                  (Payment._id newPayment)))
              else
                details <- lift (get data "message") ;;
                ret (respond 500 (MessageDetails "Failed to initiate payment with Paystack." details))
          end)
          (failure "Failed to initiate payment.")).

(** [GET /verify-payment/:reference].  [axios_get] is the gateway's
    [transaction/verify/<reference>]. *)
Definition verify_payment (env : Env) (axios_get : string -> outcome jsval)
  (authorization : option string) (reference : string) : M Response :=
  protect authorization (
    try_catch (
      data <- lift (axios_get reference) ;;
      paystackData <- lift (get data "data") ;;
      provider_status <- (if truthy paystackData then lift (get paystackData "status")
                          else ret paystackData) ;;
      if truthy paystackData && strict_eq_str provider_status "success" then
        metadata <- lift (get paystackData "metadata") ;;
        student_id <- lift (get metadata "student_id") ;;
        semester <- lift (get metadata "semester") ;;
        academic_year <- lift (get metadata "academic_year") ;;
        updatedPayment <- on_payments (Payment.findOneAndUpdate (JStr reference)
                            (success_update (get_opt paystackData "paid_at") (Date_now env 0))) ;;
        id <- match updatedPayment with
              | Some p => ret (Payment._id p)
              | None => throw (TypeError "Cannot read properties of null (reading '_id')")
              end ;;
        on_students (Student.findByIdAndUpdate (Date_now env 1) student_id
                       (mark_paid semester academic_year (Some id))) ;;;
        ret (respond 200 (Verified "Payment verified successfully." updatedPayment))
      else
        gateway_response <- lift (get paystackData "gateway_response") ;;
        ret (respond 400 (MessageDetails "Payment verification failed."
                            (js_or gateway_response (JStr "Unknown status")))))
      (failure "Failed to verify payment.")).

(** The body of the [try] of the [charge.success] branch; it ends without
    an early [return]. *)
Definition record_success (env : Env)
  (reference paystackData metadata student_id semester academic_year : jsval)
  : M (option Response) :=
  updatedPayment <- on_payments (Payment.findOneAndUpdate reference
                      (success_update (get_opt paystackData "paid_at") (Date_now env 0))) ;;
  match updatedPayment with
  | Some p =>
      on_students (Student.findByIdAndUpdate (Date_now env 1) student_id
                     (mark_paid semester academic_year (Some (Payment._id p)))) ;;;
      ret None
  | None =>
      (* the template of the fallback description names [academicYear],
         which this scope does not bind *)
      description <- (if truthy (get_opt metadata "description")
                      then ret (get_opt metadata "description")
                      else throw (ReferenceError "academicYear is not defined")) ;;
      newPayment <- on_payments (Payment.save
        (Payment.new_ (new_ObjectId env) (fun k => Date_now env (3 + k))
           (reconstructed_payment student_id reference paystackData semester
              academic_year description (Date_now env 1) (Date_now env 2)))) ;;
      on_students (Student.findByIdAndUpdate (Date_now env 3) student_id
                     (mark_paid semester academic_year (Some (Payment._id newPayment)))) ;;;
      ret None
  end.

(** The body of the [try] of the [charge.failed] branch. *)
Definition record_failed (env : Env) (reference : jsval) : M (option Response) :=
  on_payments (Payment.findOneAndUpdate reference (failed_update (Date_now env 0))) ;;;
  ret None.

(** [POST /webhook].  [signature] is the [x-paystack-signature] header and
    [body] the parsed request body; the inner computations return the
    response of an early [return], if any. *)
Definition webhook (secret : string) (env : Env) (signature : option string) (body : jsval)
  : M Response :=
  hash <- lift (body_hash secret body) ;;
  if loose_eq_header hash signature then
    let event := body in
    event_type <- lift (get event "event") ;;
    early <-
      (if strict_eq_str event_type "charge.success" then
         paystackData <- lift (get event "data") ;;
         reference <- lift (get paystackData "reference") ;;
         metadata <- lift (get paystackData "metadata") ;;
         student_id <- lift (get metadata "student_id") ;;
         semester <- lift (get metadata "semester") ;;
         academic_year <- lift (get metadata "academic_year") ;;
         try_catch
           (record_success env reference paystackData metadata student_id semester
              academic_year)
           (fun dbError => ret (Some (respond 500 (ReceivedMessage "Database update failed"))))
       else if strict_eq_str event_type "charge.failed" then
         paystackData <- lift (get event "data") ;;
         reference <- lift (get paystackData "reference") ;;
         try_catch (record_failed env reference)
           (fun dbError =>
              ret (Some (respond 500 (ReceivedMessage "Database update failed for failed payment"))))
       else ret None) ;;
    match early with
    | Some response => ret response
    | None => ret (respond 200 Received)
    end
  else ret (respond 400 (Text "Invalid signature")).

End PaymentRoute.

(** ** The second variant of routes/paymentRoutes.js

    It imports the same model as [Transaction], passes a [callback_url] to
    the gateway, refuses a gateway answer without a reference, answers 409
    on a duplicate key, lets [verify-payment] go on without a stored
    record, and guards the webhook against missing metadata. *)

Module PaymentRouteV2.

Definition is_duplicate_key (error : exn) : bool :=
  match error with
  | DuplicateKey _ => true                     (* error.code === 11000 *)
  | _ => false
  end.

Definition initiate_payment (env : Env) (axios_post : jsval -> outcome jsval)
  (authorization : option string) (body : jsval) : M Response :=
  protect authorization (
    amount <- lift (get body "amount") ;;
    studentId <- lift (get body "studentId") ;;
    semester <- lift (get body "semester") ;;
    academicYear <- lift (get body "academicYear") ;;
    description <- lift (get body "description") ;;
    email <- lift (get body "email") ;;
    callback_url <- lift (get body "callback_url") ;;
    if negb (truthy amount) || negb (truthy studentId) || negb (truthy semester)
       || negb (truthy academicYear) || negb (truthy email)
    then ret (respond 400 (Message
      "Missing required payment details (amount, studentId, semester, academicYear, email)."))
    else
      nonpositive <- lift (js_le amount 0) ;;
      if nonpositive then ret (respond 400 (Message "Amount must be positive."))
      else
        try_catch (
          found <- lift_students (Student.findById studentId) ;;
          match found with
          | None => ret (respond 404 (Message "Student not found."))
          | Some student =>
              amountInKobo <- lift (Math_round_times amount 100) ;;
              data <- lift (axios_post
                        (initialize_payload email amountInKobo student semester academicYear
                           description [("callback_url", callback_url)])) ;;
              accepted <- (if truthy data then lift (get data "status") else ret data) ;;
              if truthy accepted then
                paystackData <- lift (get data "data") ;;
                reference <- lift (get paystackData "reference") ;;
                if negb (truthy reference) then
                  ret (respond 500
                         (Message "Failed to initiate payment: Paystack reference missing."))
                else
                  newTransaction <- on_payments (Payment.save
                    (Payment.new_ (new_ObjectId env) (Date_now env)
                       (pending_payment student reference amountInKobo semester academicYear
                          description))) ;;
                  ret (respond 200
                         (Initiated (get_opt paystackData "authorization_url")
                                    (get_opt paystackData "access_code")
                                    (get_opt paystackData "reference")
                                    (Payment._id newTransaction)))
              else
                details <- lift (get data "message") ;;
                ret (respond 500 (MessageDetails "Failed to initiate payment with Paystack." details))
          end)
          (fun error =>
             if is_duplicate_key error then
               ret (respond 409 (MessageError
                 "A payment for this reference already exists or a unique constraint was violated."
                 error))
             else failure "Failed to initiate payment." error)).

Definition verify_payment (env : Env) (axios_get : string -> outcome jsval)
  (authorization : option string) (reference : string) : M Response :=
  protect authorization (
    try_catch (
      data <- lift (axios_get reference) ;;
      paystackData <- lift (get data "data") ;;
      provider_status <- (if truthy paystackData then lift (get paystackData "status")
                          else ret paystackData) ;;
      if truthy paystackData && strict_eq_str provider_status "success" then
        metadata <- lift (get paystackData "metadata") ;;
        student_id <- lift (get metadata "student_id") ;;
        semester <- lift (get metadata "semester") ;;
        academic_year <- lift (get metadata "academic_year") ;;
        updatedTransaction <- on_payments (Payment.findOneAndUpdate (JStr reference)
                                (success_update (get_opt paystackData "paid_at") (Date_now env 0))) ;;
        (* updatedTransaction ? updatedTransaction._id : null *)
        on_students (Student.findByIdAndUpdate (Date_now env 1) student_id
                       (mark_paid semester academic_year
                          (option_map Payment._id updatedTransaction))) ;;;
        ret (respond 200 (Verified "Payment verified successfully." updatedTransaction))
      else
        gateway_response <- lift (get paystackData "gateway_response") ;;
        ret (respond 400 (MessageDetails "Payment verification failed."
                            (js_or gateway_response (JStr "Unknown status")))))
      (failure "Failed to verify payment.")).

(** The body of the [try] of the [charge.success] branch. *)
Definition record_success (env : Env)
  (reference paystackData student_id semester academic_year description : jsval)
  : M (option Response) :=
  updatedTransaction <- on_payments (Payment.findOneAndUpdate reference
                          (success_update (get_opt paystackData "paid_at")
                             (Date_now env 0))) ;;
  match updatedTransaction with
  | Some p =>
      on_students (Student.findByIdAndUpdate (Date_now env 1) student_id
                     (mark_paid semester academic_year (Some (Payment._id p)))) ;;;
      ret None
  | None =>
      newTransaction <- on_payments (Payment.save
        (Payment.new_ (new_ObjectId env) (fun k => Date_now env (3 + k))
           (reconstructed_payment student_id reference paystackData semester
              academic_year
              (js_or description (fee_payment_for semester academic_year))
              (Date_now env 1) (Date_now env 2)))) ;;
      on_students (Student.findByIdAndUpdate (Date_now env 3) student_id
                     (mark_paid semester academic_year
                        (Some (Payment._id newTransaction)))) ;;;
      ret None
  end.

(** The body of the [try] of the [charge.failed] branch. *)
Definition record_failed (env : Env) (reference : jsval) : M (option Response) :=
  on_payments (Payment.findOneAndUpdate reference (failed_update (Date_now env 0))) ;;;
  ret None.

Definition webhook (secret : string) (env : Env) (signature : option string) (body : jsval)
  : M Response :=
  hash <- lift (body_hash secret body) ;;
  if loose_eq_header hash signature then
    let event := body in
    event_type <- lift (get event "event") ;;
    early <-
      (if strict_eq_str event_type "charge.success" then
         paystackData <- lift (get event "data") ;;
         reference <- lift (get paystackData "reference") ;;
         metadata <- lift (get paystackData "metadata") ;;
         let student_id := get_opt metadata "student_id" in
         let semester := get_opt metadata "semester" in
         let academic_year := get_opt metadata "academic_year" in
         let description := get_opt metadata "description" in
         if negb (truthy student_id) || negb (truthy semester) || negb (truthy academic_year)
         then ret (Some (respond 400 (ReceivedMessage "Missing metadata")))
         else
           try_catch
             (record_success env reference paystackData student_id semester academic_year
                description)
             (fun dbError => ret (Some (respond 500 (ReceivedMessage "Database update failed"))))
       else if strict_eq_str event_type "charge.failed" then
         paystackData <- lift (get event "data") ;;
         reference <- lift (get paystackData "reference") ;;
         try_catch (record_failed env reference)
           (fun dbError =>
              ret (Some (respond 500 (ReceivedMessage "Database update failed for failed payment"))))
       else ret None) ;;
    match early with
    | Some response => ret response
    | None => ret (respond 200 Received)
    end
  else ret (respond 400 (Text "Invalid signature")).

End PaymentRouteV2.


(** The check of the webhook route, lines [const hash = ...] and
    [if (hash == req.headers['x-paystack-signature'])], as a predicate. *)
Definition signature_verifies (secret : string) (body : jsval) (signature : option string)
  : bool :=
  match body_hash secret body with
  | Ok hash => loose_eq_header hash signature
  | _ => false
  end.

(** ** Reconciliation triggers *)

Inductive variant : Type := V1 | V2.

(** The two sources of a terminal transition: the client's call of
    [verify-payment] and a delivery of the gateway's webhook. *)
Inductive trigger : Type :=
| ClientVerify (axios_get : string -> outcome jsval) (authorization : option string)
    (reference : string)
| WebhookDelivery (signature : option string) (body : jsval).

Definition verify_payment_of (v : variant) :=
  match v with
  | V1 => PaymentRoute.verify_payment
  | V2 => PaymentRouteV2.verify_payment
  end.

Definition webhook_of (v : variant) :=
  match v with
  | V1 => PaymentRoute.webhook
  | V2 => PaymentRouteV2.webhook
  end.

(** The bodies of the two [try] blocks of the webhook, in either
    variant, for the values the handler has read from the event. *)
Definition record_success_of (v : variant) (env : Env)
  (reference paystackData metadata student_id semester academic_year : jsval)
  : M (option Response) :=
  match v with
  | V1 => PaymentRoute.record_success env reference paystackData metadata student_id
            semester academic_year
  | V2 => PaymentRouteV2.record_success env reference paystackData student_id semester
            academic_year (get_opt metadata "description")
  end.

Definition record_failed_of (v : variant) (env : Env) (reference : jsval)
  : M (option Response) :=
  match v with
  | V1 => PaymentRoute.record_failed env reference
  | V2 => PaymentRouteV2.record_failed env reference
  end.

(** What the webhook makes of a [try] block. *)
Definition tried (message : string) (attempt : outcome (option Response) * Db)
  : HandlerResult * Db :=
  match attempt with
  | (Ok _, db') => (Responded (respond 200 Received), db')
  | (Throw _, db') => (Responded (respond 500 (ReceivedMessage message)), db')
  | (Unmodelled, db') => (OutsideModel, db')
  end.

Definition deliver (v : variant) (secret : string) (env : Env) (t : trigger)
  : Db -> HandlerResult * Db :=
  match t with
  | ClientVerify axios_get authorization reference =>
      run (verify_payment_of v env axios_get authorization reference)
  | WebhookDelivery signature body => run (webhook_of v secret env signature body)
  end.

(** The triggers of a list, one after the other, each in its own
    environment. *)
Fixpoint deliver_all (v : variant) (secret : string) (ts : list (Env * trigger)) (db : Db) : Db :=
  match ts with
  | [] => db
  | (env, t) :: rest => deliver_all v secret rest (snd (deliver v secret env t db))
  end.

(** The Transaction stored under a reference. *)
Definition stored (reference : string) (db : Db) : option Payment.doc :=
  find (Payment.has_reference reference) (payments db).

Definition student (id : ObjectId) (db : Db) : option Student.doc :=
  find (Student.has_id id) (students db).

(** How often an entry occurs in a payment history. *)
Definition occurrences (x : option ObjectId) (l : list (option ObjectId)) : nat :=
  List.length (filter (Student.same_entry x) l).

(** The charge data of a success report, from the webhook event or from
    the gateway's answer to [verify]: metadata naming the student [sid],
    the term [sem], [yr], and a [paid_at] that casts to [paid]. *)
Definition success_data (sid : ObjectId) (sem yr : string) (paid : option JsDate)
  (data : jsval) : Prop :=
  exists metadata student_id,
    get data "metadata" = Ok metadata
    /\ get metadata "student_id" = Ok student_id
    /\ cast_ObjectId student_id = Value sid
    /\ get metadata "semester" = Ok (JStr sem) /\ sem <> ""
    /\ get metadata "academic_year" = Ok (JStr yr) /\ yr <> ""
    /\ update_path "paidAt" (cast_Date (get_opt data "paid_at")) = Ok paid.

Definition success_event (r : string) (sid : ObjectId) (sem yr : string)
  (paid : option JsDate) (body : jsval) : Prop :=
  exists data,
    get body "event" = Ok (JStr "charge.success")
    /\ get body "data" = Ok data
    /\ get data "reference" = Ok (JStr r)
    /\ success_data sid sem yr paid data.

Definition failed_event (r : string) (body : jsval) : Prop :=
  exists data,
    get body "event" = Ok (JStr "charge.failed")
    /\ get body "data" = Ok data
    /\ get data "reference" = Ok (JStr r).

Definition provider_success (sid : ObjectId) (sem yr : string) (paid : option JsDate)
  (answer : outcome jsval) : Prop :=
  exists response data,
    answer = Ok response
    /\ get response "data" = Ok data
    /\ get data "status" = Ok (JStr "success")
    /\ success_data sid sem yr paid data.

Definition authorized (authorization : option string) : Prop :=
  exists a, authorization = Some a /\ a <> "" /\ String.prefix "Bearer" a = true.

(** A well-formed report of success for reference [r]. *)
Definition success_trigger (secret r : string) (sid : ObjectId) (sem yr : string)
  (paid : option JsDate) (t : trigger) : Prop :=
  match t with
  | ClientVerify axios_get authorization reference =>
      reference = r /\ authorized authorization
      /\ provider_success sid sem yr paid (axios_get reference)
  | WebhookDelivery signature body =>
      signature_verifies secret body signature = true
      /\ success_event r sid sem yr paid body
  end.

(** A well-formed report of failure for reference [r]; only the webhook
    records one. *)
Definition failed_trigger (secret r : string) (t : trigger) : Prop :=
  match t with
  | ClientVerify _ _ _ => False
  | WebhookDelivery signature body =>
      signature_verifies secret body signature = true /\ failed_event r body
  end.

(** What a report of success writes when [p] is stored under [r]: the
    Transaction at the first reading of the clock, the student at the
    second. *)
Definition settled (r : string) (sid : ObjectId) (sem yr : string) (paid : option JsDate)
  (env : Env) (p : Payment.doc) (db : Db) : Db :=
  {| payments := snd (Payment.update_first r
                        (Payment.apply_update "success" (Some paid) (Date_now env 0))
                        (payments db));
     students := Student.update_first sid
                   (Student.apply_update "paid" (Some sem) (Some yr) (Some (Payment._id p))
                      (Date_now env 1))
                   (students db) |}.

(** What a report of failure writes when a Transaction is stored under [r]. *)
Definition marked_failed (r : string) (now : Z) (db : Db) : Db :=
  {| payments := snd (Payment.update_first r (Payment.apply_update "failed" None now)
                        (payments db));
     students := students db |}.

(** The condition of [verify-payment]:
    [paystackData && paystackData.status === 'success']. *)
Definition provider_reports_success (answer : outcome jsval) : bool :=
  match answer with
  | Ok response =>
      match get response "data" with
      | Ok data => truthy data && strict_eq_str (get_opt data "status") "success"
      | _ => false
      end
  | _ => false
  end.

(** The answers a webhook variant gives once the signature has verified:
    all carry [received: true]. *)
Definition acknowledgment (v : variant) (response : Response) : Prop :=
  response = respond 200 Received
  \/ (exists message, response = respond 500 (ReceivedMessage message))
  \/ (v = V2 /\ response = respond 400 (ReceivedMessage "Missing metadata")).

(** A result of the webhook after a verified signature: an acknowledgment
    when a response is sent.  An exception that escapes the handler (an
    event without [data], say) sends none. *)
Definition acknowledged (v : variant) (result : HandlerResult) : Prop :=
  match result with
  | Responded response => acknowledgment v response
  | Unhandled (TypeError _) => True
  | Unhandled _ => False
  | OutsideModel => True
  end.

(** The same for the part of the webhook that may return early: [None]
    goes on to the final 200. *)
Definition early_ok (v : variant) (o : outcome (option Response)) : Prop :=
  match o with
  | Ok None => True
  | Ok (Some response) => acknowledgment v response
  | Throw (TypeError _) => True
  | Throw _ => False
  | Unmodelled => True
  end.

Definition early_acknowledged (v : variant) (m : M (option Response)) : Prop :=
  forall db, early_ok v (fst (m db)).

(** A body of a [try] that ends in no early response. *)
Definition returns_none (m : M (option Response)) : Prop :=
  forall db, match fst (m db) with Ok (Some _) => False | _ => True end.

Definition initiate_payment_of (v : variant) :=
  match v with
  | V1 => PaymentRoute.initiate_payment
  | V2 => PaymentRouteV2.initiate_payment
  end.


(** The webhook route behind the JSON body parser: what a request with
    the raw body [raw] meets.  [Refused]: the parser refuses the body and
    the route is not entered. *)
Definition post_webhook (v : variant) (secret : string) (env : Env)
  (signature : option string) (raw : string) (db : Db) : parsed (HandlerResult * Db) :=
  pbind (express_json raw) (fun body =>
  Parsed (run (webhook_of v secret env signature body) db)).

(** The Transaction that the webhook creates for a reference it does not
    find. *)
Definition reconstructed (env : Env) (sid : ObjectId) (reference : string) (amount : Z)
  (currency sem yr description : string) (paid : option JsDate) : Payment.doc :=
  Payment.mk (new_ObjectId env) sid reference amount currency "success" sem yr
    (Some description) paid (DateOfMs (Date_now env 1)) (DateOfMs (Date_now env 2)).

(** The state a series of duplicate reports keeps: the Transaction is
    stored with the same [_id], the student exists and holds that [_id] in
    [paymentHistory] at most [bound] times. *)
Definition reconciled (r : string) (sid id : ObjectId) (bound : nat) (db : Db) : Prop :=
  exists p s,
    stored r db = Some p /\ Payment._id p = id
    /\ student sid db = Some s
    /\ occurrences (Some id) (Student.paymentHistory s) <= bound.

Definition once (r : string) (sid id : ObjectId) (db : Db) : Prop :=
  exists p s,
    stored r db = Some p /\ Payment._id p = id
    /\ student sid db = Some s
    /\ Student.currentSemesterPaymentStatus s = "paid"
    /\ occurrences (Some id) (Student.paymentHistory s) = 1.

Definition reports_success (secret r : string) (sid : ObjectId) (et : Env * trigger) : Prop :=
  exists sem yr paid, success_trigger secret r sid sem yr paid (snd et).

(** ** Requests of the payment routes *)

(** A request to one of the three routes of a variant. *)
Inductive request : Type :=
| Initiate (axios_post : jsval -> outcome jsval) (authorization : option string)
    (body : jsval)
| Notify (t : trigger).

Definition serve (v : variant) (secret : string) (env : Env) (q : request)
  : Db -> HandlerResult * Db :=
  match q with
  | Initiate axios_post authorization body =>
      run (initiate_payment_of v env axios_post authorization body)
  | Notify t => deliver v secret env t
  end.

(** The requests of a list, one after the other. *)
Fixpoint serve_all (v : variant) (secret : string) (qs : list (Env * request)) (db : Db) : Db :=
  match qs with
  | [] => db
  | (env, q) :: rest => serve_all v secret rest (snd (serve v secret env q db))
  end.

(** A computation whose every run relates the database before to the
    database after. *)
Definition respects (R : Db -> Db -> Prop) {A : Type} (m : M A) : Prop :=
  forall db, R db (snd (m db)).

(** The update documents and the new documents that the routes issue:
    [status] is [success] or [failed] in an update of a Transaction and
    [paid] in an update of a student; a new document is [pending] without
    [paidAt], or [success]. *)
Definition route_update (u : Payment.update) : Prop :=
  Payment.u_status u = "success" \/ Payment.u_status u = "failed".

Definition route_mark (u : Student.update) : Prop :=
  Student.u_currentSemesterPaymentStatus u = "paid".

Definition route_draft (d : Payment.draft) : Prop :=
  (Payment.f_status (Payment.draft_fields d) = JStr "pending"
   /\ Payment.f_paidAt (Payment.draft_fields d) = JUndefined)
  \/ Payment.f_status (Payment.draft_fields d) = JStr "success".

(** The fields of a Transaction that no route rewrites. *)
Definition frozen (p : Payment.doc)
  : ObjectId * ObjectId * string * Z * string * string * string * option string * JsDate :=
  (Payment._id p, Payment.studentId p, Payment.paystackReference p, Payment.amount p,
   Payment.currency p, Payment.semester p, Payment.academicYear p, Payment.description p,
   Payment.createdAt p).

(** The fields of a student outside the payment projection, [updatedAt]
    apart. *)
Definition outside_projection (s : Student.doc) : ObjectId * jsval :=
  (Student._id s, Student.profile s).

(** Transactions are only appended, and keep their frozen fields. *)
Definition only_appends (db db' : Db) : Prop :=
  exists added,
    map frozen (payments db') = (map frozen (payments db) ++ map frozen added)%list.

(** The students are the same ones, in the same order, and differ at most
    in their payment projection and in [updatedAt]. *)
Definition same_students (db db' : Db) : Prop :=
  map outside_projection (students db') = map outside_projection (students db).

(** No two Transactions share a reference or an [_id]. *)
Definition unique_keys (db : Db) : Prop :=
  NoDup (map Payment.paystackReference (payments db))
  /\ NoDup (map Payment._id (payments db)).

(** The states of the reconciliation: [pending] without a payment date,
    [success], [failed]. *)
Definition in_state (p : Payment.doc) : Prop :=
  (Payment.status p = "pending" /\ Payment.paidAt p = None)
  \/ Payment.status p = "success" \/ Payment.status p = "failed".

Definition terminal (p : Payment.doc) : Prop :=
  Payment.status p = "success" \/ Payment.status p = "failed".

Definition all_in_state (db : Db) : Prop := Forall in_state (payments db).

(** A stored reference stays stored under the same [_id], and a terminal
    Transaction stays terminal. *)
Definition stays_terminal (db db' : Db) : Prop :=
  forall r p,
    stored r db = Some p ->
    exists p', stored r db' = Some p'
               /\ Payment._id p' = Payment._id p
               /\ (terminal p -> terminal p').

Definition keeps (I : Db -> Prop) (db db' : Db) : Prop := I db -> I db'.

(** A student after, against the same student before: the same [_id], a
    payment history that extends the former one, and [paid] if [paid]
    before. *)
Definition advanced (s s' : Student.doc) : Prop :=
  Student._id s' = Student._id s
  /\ (exists added,
        Student.paymentHistory s' = (Student.paymentHistory s ++ added)%list)
  /\ (Student.currentSemesterPaymentStatus s = "paid" ->
      Student.currentSemesterPaymentStatus s' = "paid").

Definition students_advance (db db' : Db) : Prop :=
  Forall2 advanced (students db) (students db').

(** ** Concrete data for the examples *)

Module Sample.

Definition secret : string := "sk_test_4f1c".

(** A clock that starts at [start] and advances by a millisecond at each
    reading. *)
Definition ticking (start : Z) (k : nat) : Z :=
  Z.max (-8640000000000000) (Z.min (start + Z.of_nat k) 8640000000000000).

Definition ticking_time (start : Z) (k : nat) : time_value (ticking start k) = true :=
  andb_true_intro
    (conj (proj2 (Z.leb_le _ _) (Z.le_max_l _ _))
          (proj2 (Z.leb_le _ _)
             (Z.max_lub _ _ _
                (proj1 (Z.leb_le (-8640000000000000) 8640000000000000) eq_refl)
                (Z.le_min_r _ _)))).

Definition env : Env := {| Date_now := ticking 1750000000000;
                           Date_now_time := ticking_time 1750000000000;
                           new_ObjectId := "65f000000000000000000009" |}.

Definition student_id : ObjectId := "64a1b2c3d4e5f60718293a4b".

Definition alice : Student.doc :=
  Student.mk student_id (JObj [("name", JStr "Alice")]) "unpaid" None None []
    (DateOfMs 1740000000000).

Definition pending : Payment.doc :=
  Payment.mk "65f000000000000000000001" student_id "ref_001" 50000000 "NGN" "pending"
    "Fall" "2025/2026" (Some "Tuition") None (DateOfMs 1749000000000) (DateOfMs 1749000000000).

Definition db0 : Db := {| payments := [pending]; students := [alice] |}.

Definition metadata_for (semester : string) (with_description : bool) : jsval :=
  JObj ([("student_id", JStr student_id); ("semester", JStr semester);
         ("academic_year", JStr "2025/2026")]
        ++ (if with_description then [("description", JStr "Tuition")] else []))%list.

Definition metadata (with_description : bool) : jsval := metadata_for "Fall" with_description.

Definition charge_at (event reference paid_at : string) (meta : jsval) : jsval :=
  JObj [("event", JStr event);
        ("data", JObj [("reference", JStr reference); ("amount", JNum 50000000);
                       ("currency", JStr "NGN"); ("paid_at", JStr paid_at);
                       ("metadata", meta)])].

Definition charge (event reference : string) (meta : jsval) : jsval :=
  charge_at event reference "2025-06-15T12:00:00.000Z" meta.

(** The header a sender computes over the serialised event. *)
Definition sign (body : jsval) : option string :=
  match JSON_stringify body with
  | Ok (Some text) => Some (createHmac_sha512_hex secret text)
  | _ => None
  end.

Definition signed (body : jsval) : trigger := WebhookDelivery (sign body) body.

(** The body of an initiation request, for an amount in naira. *)
Definition request (naira : Z) : list (string * jsval) :=
  [("amount", JNum naira); ("studentId", JStr student_id); ("semester", JStr "Fall");
   ("academicYear", JStr "2025/2026"); ("email", JStr "alice@campus.example")].

Definition initialized : jsval :=
  JObj [("authorization_url", JStr "https://checkout.paystack.com/0peioxfhpn");
        ("access_code", JStr "0peioxfhpn"); ("reference", JStr "ref_777")].

Definition gateway_accepts : jsval -> outcome jsval :=
  fun _ => Ok (JObj [("status", JBool true); ("message", JStr "Authorization URL created");
                     ("data", initialized)]).

(** A failed charge as the gateway may send it, with blanks after the
    colons and commas, and the same event as [JSON.stringify] writes it. *)
Definition q (text : string) : string := dquote ++ text ++ dquote.

Definition raw_sent : string :=
  "{" ++ q "event" ++ ": " ++ q "charge.failed" ++ ", " ++ q "data" ++ ": {"
      ++ q "reference" ++ ": " ++ q "ref_001" ++ "}}".

Definition raw_compact : string :=
  "{" ++ q "event" ++ ":" ++ q "charge.failed" ++ "," ++ q "data" ++ ":{"
      ++ q "reference" ++ ":" ++ q "ref_001" ++ "}}".

Definition failed_charge : jsval :=
  JObj [("event", JStr "charge.failed"); ("data", JObj [("reference", JStr "ref_001")])].


End Sample.

(** An initiation request that passes the validation of the route: the
    five required fields are present and the amount is the positive
    number [n], small enough for the amount in kobo, [n * 100], to be a
    safe integer (beyond that [Math.round(amount * 100)] rounds). *)
Definition valid_initiation (fields : list (string * jsval)) (n : Z) : Prop :=
  truthy (lookup_field "amount" fields) && truthy (lookup_field "studentId" fields)
  && truthy (lookup_field "semester" fields) && truthy (lookup_field "academicYear" fields)
  && truthy (lookup_field "email" fields) = true
  /\ lookup_field "amount" fields = JNum n
  /\ (0 < n)%Z
  /\ safe_integer (n * 100) = true.

(** What the route sends to [transaction/initialize] for such a request
    of the student [s]. *)
Definition initialize_request (v : variant) (fields : list (string * jsval)) (n : Z)
  (s : Student.doc) : jsval :=
  initialize_payload (lookup_field "email" fields) (n * 100) s
    (lookup_field "semester" fields) (lookup_field "academicYear" fields)
    (lookup_field "description" fields)
    (match v with
     | V1 => []
     | V2 => [("callback_url", lookup_field "callback_url" fields)]
     end).

(** More data for the examples. *)
Module Scenario.

Definition other_id : ObjectId := "64a1b2c3d4e5f60718293a4c".

Definition bob : Student.doc :=
  Student.mk other_id (JObj [("name", JStr "Bob")]) "unpaid" None None []
    (DateOfMs 1740000000000).

Definition paid : Payment.doc :=
  Payment.mk "65f000000000000000000002" other_id "ref_002" 50000000 "NGN" "success"
    "Fall" "2025/2026" (Some "Tuition") (Some (DateOfString "2025-06-01T09:00:00.000Z"))
    (DateOfMs 1748000000000) (DateOfMs 1748770000000).

Definition db : Db :=
  {| payments := [Sample.pending; paid]; students := [Sample.alice; bob] |}.

Definition later : Env := {| Date_now := Sample.ticking 1760000000000;
                             Date_now_time := Sample.ticking_time 1760000000000;
                             new_ObjectId := "65f00000000000000000000a" |}.







Definition gateway_repeats : jsval -> outcome jsval :=
  fun _ => Ok (JObj [("status", JBool true);
                     ("data", JObj [("reference", JStr "ref_001")])]).

End Scenario.

(** ** Events for a reference that is not stored, or for no student *)

(** What the reconstruction of a Transaction reads from a
    [charge.success] event beyond [success_event]: the amount, the
    currency, and the description it stores, which is the one of the
    metadata or else the text made from the term. *)
Definition priced (amount : Z) (currency description sem yr : string) (body : jsval) : Prop :=
  exists data metadata,
    get body "data" = Ok data
    /\ get data "amount" = Ok (JNum amount)
    /\ get data "currency" = Ok (JStr currency) /\ currency <> ""
    /\ get data "metadata" = Ok metadata
    /\ js_or (get_opt metadata "description") (fee_payment_for (JStr sem) (JStr yr))
       = JStr description.

(** The metadata of the event carries a description. *)
Definition described (body : jsval) : bool :=
  truthy (get_opt (get_opt (get_opt body "data") "metadata") "description").

(** A [charge.success] event for [r] whose metadata names the student by
    a text that is not an ObjectId. *)
Definition misaddressed_event (r : string) (paid : option JsDate) (body : jsval) : Prop :=
  exists data metadata student_id sem yr,
    get body "event" = Ok (JStr "charge.success")
    /\ get body "data" = Ok data
    /\ get data "reference" = Ok (JStr r)
    /\ get data "metadata" = Ok metadata
    /\ get metadata "student_id" = Ok student_id
    /\ truthy student_id = true
    /\ cast_ObjectId student_id = Invalid
    /\ get metadata "semester" = Ok (JStr sem) /\ sem <> ""
    /\ get metadata "academic_year" = Ok (JStr yr) /\ yr <> ""
    /\ update_path "paidAt" (cast_Date (get_opt data "paid_at")) = Ok paid.

(** The Transactions with the fields no route rewrites, and the whole
    collections, before and after. *)
Definition same_transactions (db db' : Db) : Prop :=
  map frozen (payments db') = map frozen (payments db).

Definition settles_only (db db' : Db) : Prop :=
  students db' = students db /\ same_transactions db db'.

Definition rewrites_nothing (db db' : Db) : Prop :=
  students db' = students db /\ exists added, payments db' = (payments db ++ added)%list.

(** * Properties *)

(** ** Test vectors of the primitives *)

Example sha512_abc :
  Sha512.hex_of_bytes (Sha512.sha512 (Sha512.bytes_of_string "abc"))
  = "ddaf35a193617abacc417349ae20413112e6fa4e89a97ea20a9eeee64b55d39a2192992a274fc1a836ba3c23a3feebbd454d4423643ce80e2a9ac94fa54ca49f".
Proof. vm_compute. reflexivity. Qed.

(** RFC 4231, test case 2. *)
Example hmac_sha512_rfc4231 :
  createHmac_sha512_hex "Jefe" "what do ya want for nothing?"
  = "164b7a7bfcf819e2e395fbe73b56e0a387bd64222e831fd610270cd7ea2505549758bf75c05a994a6d034f65f8f0e6fdcaeab1a34d4a6b4b636e070a38bce737".
Proof. vm_compute. reflexivity. Qed.

(** Dates: the last days of a month are timestamps like the others, and a
    millisecond count beyond the time values is refused. *)
Example cast_Date_end_of_month :
  cast_Date (JStr "2025-01-31T23:59:59.999Z")
  = Value (DateOfString "2025-01-31T23:59:59.999Z")
  /\ cast_Date (JStr "2025-04-30T00:00:00.000Z")
     = Value (DateOfString "2025-04-30T00:00:00.000Z")
  /\ cast_Date (JStr "2025-06-32T00:00:00.000Z") = Unknown.
Proof. repeat split; reflexivity. Qed.

Example cast_Date_time_values :
  cast_Date (JNum 8640000000000000) = Value (DateOfMs 8640000000000000)
  /\ cast_Date (JNum 8640000000000001) = Invalid
  /\ update_path "paidAt" (cast_Date (JNum 10000000000000000)) = Throw (CastError "paidAt").
Proof. repeat split; reflexivity. Qed.

(** Numbers: printing and multiplying stop at the safe integers, and the
    parser tells a text it refuses from one outside the embedding. *)
Example numbers_beyond_the_safe_integers :
  JSON_stringify (JObj [("amount", JNum 9007199254740991)])
  = Ok (Some ("{" ++ dquote ++ "amount" ++ dquote ++ ":9007199254740991}"))
  /\ JSON_stringify (JObj [("amount", JNum 1000000000000000000000)]) = Unmodelled
  /\ Math_round_times (JNum 90071992547409) 100 = Ok 9007199254740900%Z
  /\ Math_round_times (JNum 90071992547410) 100 = Unmodelled.
Proof. vm_compute. repeat split; reflexivity. Qed.

Example parser_results :
  express_json ("{" ++ dquote ++ "a" ++ dquote ++ ": [1, true, null]}")
  = Parsed (JObj [("a", JArr [JNum 1; JBool true; JNull])])
  /\ express_json ("{" ++ dquote ++ "a" ++ dquote ++ ": 1.5}") = Unsupported
  /\ express_json ("{" ++ dquote ++ "a" ++ dquote ++ ": 9007199254740993}") = Unsupported
  /\ express_json ("{" ++ dquote ++ "a" ++ dquote ++ ": 01}") = Refused
  /\ express_json ("{" ++ dquote ++ "a" ++ dquote ++ ": }") = Refused
  /\ express_json "7" = Refused.
Proof. vm_compute. repeat split; reflexivity. Qed.

(** A report of success dated the 31st settles the Transaction like any
    other. *)
Example report_dated_the_31st :
  let report := Sample.signed (Sample.charge_at "charge.success" "ref_001"
                                 "2025-05-31T23:59:59.000Z" (Sample.metadata true)) in
  let db := snd (deliver V1 Sample.secret Sample.env report Sample.db0) in
  option_map Payment.status (stored "ref_001" db) = Some "success"
  /\ option_map Payment.paidAt (stored "ref_001" db)
     = Some (Some (DateOfString "2025-05-31T23:59:59.000Z"))
  /\ option_map Student.currentSemesterPaymentStatus (student Sample.student_id db)
     = Some "paid"
  /\ option_map Student.updatedAt (student Sample.student_id db)
     = Some (DateOfMs (Date_now Sample.env 1)).
Proof. vm_compute. repeat split; reflexivity. Qed.

(** ** The monad *)

Lemma bind_lift_Ok {A B : Type} (o : outcome A) (a : A) (k : A -> M B) (db : Db) :
  o = Ok a -> bind (lift o) k db = k a db.
Proof. intros ->. reflexivity. Qed.

Lemma db_eta (db : Db) : {| payments := payments db; students := students db |} = db.
Proof. destruct db; reflexivity. Qed.

(** The end of a [catch] writes nothing. *)
Lemma failure_frame (message : string) (error : exn) (db : Db) :
  snd (failure message error db) = db.
Proof.
  unfold failure. destruct error as [| | | | |[response|] text]; try reflexivity.
  destruct (truthy response); [|reflexivity].
  unfold bind, lift, ret. destruct (get response "data") as [data| |]; try reflexivity.
  destruct (get data "message"); reflexivity.
Qed.

Lemma run_failure_frame (message : string) (error : exn) (db : Db) :
  snd (match failure message error db with
       | (Ok r, db') => (Responded r, db')
       | (Throw e, db') => (Unhandled e, db')
       | (Unmodelled, db') => (OutsideModel, db')
       end) = db.
Proof.
  pose proof (failure_frame message error db) as H.
  destruct (failure message error db) as [[r|e|] db']; exact H.
Qed.

(** An error without a [response]: the answer carries its message. *)
Lemma failure_message (message : string) (error : exn) (db : Db) :
  (forall response text, error <> AxiosError (Some response) text) ->
  failure message error db = (Ok (respond 500 (MessageError message error)), db).
Proof.
  intros H. unfold failure. destruct error as [| | | | |[response|] text]; try reflexivity.
  exfalso. exact (H response text eq_refl).
Qed.

Lemma signature_verifies_hash (secret : string) (body : jsval) (signature : option string) :
  signature_verifies secret body signature = true ->
  exists hash, body_hash secret body = Ok hash /\ loose_eq_header hash signature = true.
Proof.
  unfold signature_verifies. destruct (body_hash secret body) as [h| |]; try discriminate.
  intros E. exists h. split; [reflexivity | exact E].
Qed.

Lemma get_Ok_get_opt (v : jsval) (k : string) (x : jsval) :
  get v k = Ok x -> get_opt v k = x.
Proof. destruct v; simpl; intros E; inversion E; reflexivity. Qed.

(** ** The store *)

Lemma payment_update_first_absent (ref : string) (f : Payment.doc -> Payment.doc)
  (coll : list Payment.doc) :
  existsb (Payment.has_reference ref) coll = false ->
  Payment.update_first ref f coll = (None, coll).
Proof.
  induction coll as [|p rest IH]; simpl; [reflexivity|].
  destruct (Payment.has_reference ref p); simpl; [discriminate|].
  intros E. rewrite (IH E). reflexivity.
Qed.

Lemma findOneAndUpdate_failed_absent (ref : string) (now : Z) (coll : list Payment.doc) :
  existsb (Payment.has_reference ref) coll = false ->
  Payment.findOneAndUpdate (JStr ref) (failed_update now) coll = (Ok None, coll).
Proof.
  intros E. unfold Payment.findOneAndUpdate. simpl.
  rewrite (payment_update_first_absent _ _ _ E). reflexivity.
Qed.

(** ** Events the webhook ignores *)

Section Ignored.

Variables (secret : string) (env : Env) (signature : option string) (body : jsval) (db : Db).
Variable event_type : jsval.
Hypothesis Hsig : signature_verifies secret body signature = true.
Hypothesis Hevent : get body "event" = Ok event_type.
Hypothesis Hsuccess : strict_eq_str event_type "charge.success" = false.
Hypothesis Hfailed : strict_eq_str event_type "charge.failed" = false.

Lemma ignored_v1 :
  run (PaymentRoute.webhook secret env signature body) db
  = (Responded (respond 200 Received), db).
Proof.
  destruct (signature_verifies_hash _ _ _ Hsig) as (h & Hh & Heq).
  unfold run, PaymentRoute.webhook.
  rewrite (bind_lift_Ok _ _ _ _ Hh), Heq.
  rewrite (bind_lift_Ok _ _ _ _ Hevent), Hsuccess, Hfailed.
  reflexivity.
Qed.

Lemma ignored_v2 :
  run (PaymentRouteV2.webhook secret env signature body) db
  = (Responded (respond 200 Received), db).
Proof.
  destruct (signature_verifies_hash _ _ _ Hsig) as (h & Hh & Heq).
  unfold run, PaymentRouteV2.webhook.
  rewrite (bind_lift_Ok _ _ _ _ Hh), Heq.
  rewrite (bind_lift_Ok _ _ _ _ Hevent), Hsuccess, Hfailed.
  reflexivity.
Qed.

End Ignored.

(** C8: a signature-valid webhook whose event type is neither
    [charge.success] nor [charge.failed] leaves every Transaction and every
    student as they were and is acknowledged with 200 [{received: true}],
    in both variants of the route. *)
Theorem C8_unrecognised_event_acknowledged_without_change
  (secret : string) (env : Env) (signature : option string) (body event_type : jsval) (db : Db) :
  signature_verifies secret body signature = true ->
  get body "event" = Ok event_type ->
  strict_eq_str event_type "charge.success" = false ->
  strict_eq_str event_type "charge.failed" = false ->
  run (PaymentRoute.webhook secret env signature body) db
    = (Responded (respond 200 Received), db)
  /\ run (PaymentRouteV2.webhook secret env signature body) db
    = (Responded (respond 200 Received), db).
Proof.
  intros Hsig Hev Hs Hf. split.
  - exact (ignored_v1 secret env signature body db event_type Hsig Hev Hs Hf).
  - exact (ignored_v2 secret env signature body db event_type Hsig Hev Hs Hf).
Qed.

Lemma C8_witness :
  let body := Sample.charge "transfer.success" "ref_001" (Sample.metadata true) in
  run (PaymentRoute.webhook Sample.secret Sample.env (Sample.sign body) body) Sample.db0
    = (Responded (respond 200 Received), Sample.db0)
  /\ run (PaymentRouteV2.webhook Sample.secret Sample.env (Sample.sign body) body) Sample.db0
    = (Responded (respond 200 Received), Sample.db0).
Proof.
  intros body.
  apply (C8_unrecognised_event_acknowledged_without_change
           Sample.secret Sample.env (Sample.sign body) body (JStr "transfer.success") Sample.db0);
    vm_compute; reflexivity.
Defined.

(** ** A failed charge for an unknown reference *)

Section FailedUnknown.

Variables (secret : string) (env : Env) (signature : option string) (body data : jsval).
Variables (reference : string) (db : Db).
Hypothesis Hsig : signature_verifies secret body signature = true.
Hypothesis Hevent : get body "event" = Ok (JStr "charge.failed").
Hypothesis Hdata : get body "data" = Ok data.
Hypothesis Href : get data "reference" = Ok (JStr reference).
Hypothesis Habsent : existsb (Payment.has_reference reference) (payments db) = false.

Lemma failed_unknown_v1 :
  run (PaymentRoute.webhook secret env signature body) db
  = (Responded (respond 200 Received), db).
Proof.
  destruct (signature_verifies_hash _ _ _ Hsig) as (h & Hh & Heq).
  unfold run, PaymentRoute.webhook.
  rewrite (bind_lift_Ok _ _ _ _ Hh), Heq.
  rewrite (bind_lift_Ok _ _ _ _ Hevent). simpl strict_eq_str. cbv iota.
  unfold bind at 1. rewrite (bind_lift_Ok _ _ _ _ Hdata).
  rewrite (bind_lift_Ok _ _ _ _ Href).
  unfold try_catch, PaymentRoute.record_success, PaymentRouteV2.record_success,
    PaymentRoute.record_failed, PaymentRouteV2.record_failed, bind, on_payments.
  rewrite (findOneAndUpdate_failed_absent _ _ _ Habsent).
  simpl. rewrite db_eta. reflexivity.
Qed.

Lemma failed_unknown_v2 :
  run (PaymentRouteV2.webhook secret env signature body) db
  = (Responded (respond 200 Received), db).
Proof.
  destruct (signature_verifies_hash _ _ _ Hsig) as (h & Hh & Heq).
  unfold run, PaymentRouteV2.webhook.
  rewrite (bind_lift_Ok _ _ _ _ Hh), Heq.
  rewrite (bind_lift_Ok _ _ _ _ Hevent). simpl strict_eq_str. cbv iota.
  unfold bind at 1. rewrite (bind_lift_Ok _ _ _ _ Hdata).
  rewrite (bind_lift_Ok _ _ _ _ Href).
  unfold try_catch, PaymentRoute.record_success, PaymentRouteV2.record_success,
    PaymentRoute.record_failed, PaymentRouteV2.record_failed, bind, on_payments.
  rewrite (findOneAndUpdate_failed_absent _ _ _ Habsent).
  simpl. rewrite db_eta. reflexivity.
Qed.

End FailedUnknown.

(** C9: a signature-valid [charge.failed] webhook whose reference has no
    stored Transaction creates no record and changes nothing (the failed
    branch has no reconstruction path), and is answered 200
    [{received: true}], in both variants. *)
Theorem C9_failed_charge_for_unknown_reference_changes_nothing
  (secret : string) (env : Env) (signature : option string) (body data : jsval)
  (reference : string) (db : Db) :
  signature_verifies secret body signature = true ->
  get body "event" = Ok (JStr "charge.failed") ->
  get body "data" = Ok data ->
  get data "reference" = Ok (JStr reference) ->
  existsb (Payment.has_reference reference) (payments db) = false ->
  run (PaymentRoute.webhook secret env signature body) db
    = (Responded (respond 200 Received), db)
  /\ run (PaymentRouteV2.webhook secret env signature body) db
    = (Responded (respond 200 Received), db).
Proof.
  intros Hsig Hev Hd Hr Ha. split.
  - exact (failed_unknown_v1 secret env signature body data reference db Hsig Hev Hd Hr Ha).
  - exact (failed_unknown_v2 secret env signature body data reference db Hsig Hev Hd Hr Ha).
Qed.

Lemma C9_witness :
  let body := Sample.charge "charge.failed" "ref_404" (Sample.metadata true) in
  run (PaymentRoute.webhook Sample.secret Sample.env (Sample.sign body) body) Sample.db0
    = (Responded (respond 200 Received), Sample.db0)
  /\ run (PaymentRouteV2.webhook Sample.secret Sample.env (Sample.sign body) body) Sample.db0
    = (Responded (respond 200 Received), Sample.db0).
Proof.
  intros body.
  apply (C9_failed_charge_for_unknown_reference_changes_nothing
           Sample.secret Sample.env (Sample.sign body) body
           (get_opt body "data") "ref_404" Sample.db0);
    vm_compute; reflexivity.
Defined.

(** ** A report for a stored Transaction *)

Lemma payment_update_first_found (ref : string) (f : Payment.doc -> Payment.doc)
  (coll : list Payment.doc) (p : Payment.doc) :
  find (Payment.has_reference ref) coll = Some p ->
  fst (Payment.update_first ref f coll) = Some (f p).
Proof.
  induction coll as [|q rest IH]; simpl; [discriminate|].
  destruct (Payment.has_reference ref q).
  - intros E; inversion E; reflexivity.
  - intros E. specialize (IH E).
    destruct (Payment.update_first ref f rest); simpl in *. exact IH.
Qed.

Lemma payment_update_first_stored (ref : string) (f : Payment.doc -> Payment.doc)
  (coll : list Payment.doc) (p : Payment.doc) :
  (forall q, Payment.has_reference ref (f q) = Payment.has_reference ref q) ->
  find (Payment.has_reference ref) coll = Some p ->
  find (Payment.has_reference ref) (snd (Payment.update_first ref f coll)) = Some (f p).
Proof.
  intros Hf. induction coll as [|q rest IH]; simpl; [discriminate|].
  destruct (Payment.has_reference ref q) eqn:Hq.
  - intros E; inversion E; subst. simpl. rewrite Hf, Hq. reflexivity.
  - intros E. specialize (IH E).
    destruct (Payment.update_first ref f rest); simpl in *. rewrite Hq. exact IH.
Qed.

Lemma findOneAndUpdate_success_stored (ref : string) (paid_at : jsval) (paid : option JsDate)
  (now : Z) (coll : list Payment.doc) (p : Payment.doc) :
  update_path "paidAt" (cast_Date paid_at) = Ok paid ->
  find (Payment.has_reference ref) coll = Some p ->
  Payment.findOneAndUpdate (JStr ref) (success_update paid_at now) coll
  = (Ok (Some (Payment.apply_update "success" (Some paid) now p)),
     snd (Payment.update_first ref (Payment.apply_update "success" (Some paid) now) coll)).
Proof.
  intros Hpaid Hfind. unfold Payment.findOneAndUpdate. simpl. rewrite Hpaid. simpl.
  pose proof (payment_update_first_found ref
                (Payment.apply_update "success" (Some paid) now) coll p Hfind) as Hfst.
  destruct (Payment.update_first ref _ coll) as [found coll']. simpl in *.
  rewrite Hfst. reflexivity.
Qed.

Lemma findOneAndUpdate_failed_stored (ref : string) (now : Z) (coll : list Payment.doc)
  (p : Payment.doc) :
  find (Payment.has_reference ref) coll = Some p ->
  Payment.findOneAndUpdate (JStr ref) (failed_update now) coll
  = (Ok (Some (Payment.apply_update "failed" None now p)),
     snd (Payment.update_first ref (Payment.apply_update "failed" None now) coll)).
Proof.
  intros Hfind. unfold Payment.findOneAndUpdate. simpl.
  pose proof (payment_update_first_found ref
                (Payment.apply_update "failed" None now) coll p Hfind) as Hfst.
  destruct (Payment.update_first ref _ coll) as [found coll']. simpl in *.
  rewrite Hfst. reflexivity.
Qed.

Lemma findByIdAndUpdate_mark_paid (now : Z) (student_id : jsval) (sid : ObjectId)
  (sem yr : string) (entry : option ObjectId) (coll : list Student.doc) :
  cast_ObjectId student_id = Value sid ->
  Student.findByIdAndUpdate now student_id (mark_paid (JStr sem) (JStr yr) entry) coll
  = (Ok tt, Student.update_first sid
              (Student.apply_update "paid" (Some sem) (Some yr) entry now) coll).
Proof.
  intros Hcast. unfold Student.findByIdAndUpdate. rewrite Hcast. reflexivity.
Qed.

Lemma cast_ObjectId_truthy (v : jsval) (sid : ObjectId) :
  cast_ObjectId v = Value sid -> truthy v = true.
Proof.
  destruct v; simpl; try discriminate.
  destruct s as [|c rest]; simpl; [discriminate | reflexivity].
Qed.

Lemma nonempty_truthy (s : string) : s <> "" -> truthy (JStr s) = true.
Proof.
  intros Hne. simpl. destruct (String.eqb_spec s ""); [contradiction | reflexivity].
Qed.

Section SuccessStored.

Variables (secret : string) (env : Env) (r : string) (sid : ObjectId) (sem yr : string).
Variables (paid : option JsDate) (p : Payment.doc) (db : Db).
Hypothesis Hstored : stored r db = Some p.

Lemma success_webhook_v1_stored (signature : option string) (body : jsval) :
  signature_verifies secret body signature = true ->
  success_event r sid sem yr paid body ->
  run (PaymentRoute.webhook secret env signature body) db
  = (Responded (respond 200 Received), settled r sid sem yr paid env p db).
Proof.
  intros Hsig (data & Hev & Hdata & Href & metadata & student_id
               & Hmeta & Hsid & Hcast & Hsem & Hsem0 & Hyr & Hyr0 & Hpaid).
  destruct (signature_verifies_hash _ _ _ Hsig) as (h & Hh & Heq).
  unfold run, PaymentRoute.webhook.
  rewrite (bind_lift_Ok _ _ _ _ Hh), Heq.
  rewrite (bind_lift_Ok _ _ _ _ Hev). simpl strict_eq_str. cbv iota.
  unfold bind at 1. rewrite (bind_lift_Ok _ _ _ _ Hdata).
  rewrite (bind_lift_Ok _ _ _ _ Href), (bind_lift_Ok _ _ _ _ Hmeta).
  rewrite (bind_lift_Ok _ _ _ _ Hsid), (bind_lift_Ok _ _ _ _ Hsem).
  rewrite (bind_lift_Ok _ _ _ _ Hyr).
  unfold try_catch, PaymentRoute.record_success, PaymentRouteV2.record_success, bind,
    on_payments, on_students.
  rewrite (findOneAndUpdate_success_stored _ _ _ _ _ _ Hpaid Hstored).
  cbn [payments students].
  rewrite (findByIdAndUpdate_mark_paid _ _ _ _ _ _ _ Hcast).
  reflexivity.
Qed.

Lemma success_webhook_v2_stored (signature : option string) (body : jsval) :
  signature_verifies secret body signature = true ->
  success_event r sid sem yr paid body ->
  run (PaymentRouteV2.webhook secret env signature body) db
  = (Responded (respond 200 Received), settled r sid sem yr paid env p db).
Proof.
  intros Hsig (data & Hev & Hdata & Href & metadata & student_id
               & Hmeta & Hsid & Hcast & Hsem & Hsem0 & Hyr & Hyr0 & Hpaid).
  destruct (signature_verifies_hash _ _ _ Hsig) as (h & Hh & Heq).
  unfold run, PaymentRouteV2.webhook.
  rewrite (bind_lift_Ok _ _ _ _ Hh), Heq.
  rewrite (bind_lift_Ok _ _ _ _ Hev). simpl strict_eq_str. cbv iota.
  unfold bind at 1. rewrite (bind_lift_Ok _ _ _ _ Hdata).
  rewrite (bind_lift_Ok _ _ _ _ Href), (bind_lift_Ok _ _ _ _ Hmeta).
  cbv zeta.
  rewrite (get_Ok_get_opt _ _ _ Hsid), (get_Ok_get_opt _ _ _ Hsem), (get_Ok_get_opt _ _ _ Hyr).
  rewrite (cast_ObjectId_truthy _ _ Hcast), (nonempty_truthy _ Hsem0), (nonempty_truthy _ Hyr0).
  cbn [negb orb].
  unfold try_catch, PaymentRoute.record_success, PaymentRouteV2.record_success, bind,
    on_payments, on_students.
  rewrite (findOneAndUpdate_success_stored _ _ _ _ _ _ Hpaid Hstored).
  cbn [payments students].
  rewrite (findByIdAndUpdate_mark_paid _ _ _ _ _ _ _ Hcast).
  reflexivity.
Qed.

End SuccessStored.

Lemma protect_authorized (authorization : option string) (next : M Response) :
  authorized authorization -> protect authorization next = next.
Proof.
  intros (a & -> & Hne & Hprefix). unfold protect. rewrite Hprefix.
  destruct (String.eqb_spec a ""); [contradiction | reflexivity].
Qed.

Lemma status_success_truthy (data : jsval) :
  get data "status" = Ok (JStr "success") -> truthy data = true.
Proof. destruct data; simpl; intros E; try discriminate; reflexivity. Qed.

Section VerifyStored.

Variables (env : Env) (r : string) (sid : ObjectId) (sem yr : string).
Variables (paid : option JsDate) (p : Payment.doc) (db : Db).
Variables (axios_get : string -> outcome jsval) (authorization : option string).
Hypothesis Hstored : stored r db = Some p.
Hypothesis Hauth : authorized authorization.
Hypothesis Hanswer : provider_success sid sem yr paid (axios_get r).

Lemma success_verify_v1_stored :
  run (PaymentRoute.verify_payment env axios_get authorization r) db
  = (Responded (respond 200 (Verified "Payment verified successfully."
       (Some (Payment.apply_update "success" (Some paid) (Date_now env 0) p)))),
     settled r sid sem yr paid env p db).
Proof.
  destruct Hanswer as (response & data & Hget & Hdata & Hstatus & metadata & student_id
               & Hmeta & Hsid & Hcast & Hsem & Hsem0 & Hyr & Hyr0 & Hpaid).
  unfold run, PaymentRoute.verify_payment.
  rewrite (protect_authorized _ _ Hauth).
  unfold try_catch.
  rewrite (bind_lift_Ok _ _ _ _ Hget), (bind_lift_Ok _ _ _ _ Hdata).
  rewrite (status_success_truthy _ Hstatus).
  rewrite (bind_lift_Ok _ _ _ _ Hstatus).
  change (strict_eq_str (JStr "success") "success") with true. cbn [andb].
  rewrite (bind_lift_Ok _ _ _ _ Hmeta).
  rewrite (bind_lift_Ok _ _ _ _ Hsid), (bind_lift_Ok _ _ _ _ Hsem).
  rewrite (bind_lift_Ok _ _ _ _ Hyr).
  unfold bind, on_payments, on_students.
  rewrite (findOneAndUpdate_success_stored _ _ _ _ _ _ Hpaid Hstored).
  cbn [payments students ret].
  rewrite (findByIdAndUpdate_mark_paid _ _ _ _ _ _ _ Hcast).
  reflexivity.
Qed.

Lemma success_verify_v2_stored :
  run (PaymentRouteV2.verify_payment env axios_get authorization r) db
  = (Responded (respond 200 (Verified "Payment verified successfully."
       (Some (Payment.apply_update "success" (Some paid) (Date_now env 0) p)))),
     settled r sid sem yr paid env p db).
Proof.
  destruct Hanswer as (response & data & Hget & Hdata & Hstatus & metadata & student_id
               & Hmeta & Hsid & Hcast & Hsem & Hsem0 & Hyr & Hyr0 & Hpaid).
  unfold run, PaymentRouteV2.verify_payment.
  rewrite (protect_authorized _ _ Hauth).
  unfold try_catch.
  rewrite (bind_lift_Ok _ _ _ _ Hget), (bind_lift_Ok _ _ _ _ Hdata).
  rewrite (status_success_truthy _ Hstatus).
  rewrite (bind_lift_Ok _ _ _ _ Hstatus).
  change (strict_eq_str (JStr "success") "success") with true. cbn [andb].
  rewrite (bind_lift_Ok _ _ _ _ Hmeta).
  rewrite (bind_lift_Ok _ _ _ _ Hsid), (bind_lift_Ok _ _ _ _ Hsem).
  rewrite (bind_lift_Ok _ _ _ _ Hyr).
  unfold bind, on_payments, on_students.
  rewrite (findOneAndUpdate_success_stored _ _ _ _ _ _ Hpaid Hstored).
  cbn [payments students ret option_map].
  rewrite (findByIdAndUpdate_mark_paid _ _ _ _ _ _ _ Hcast).
  reflexivity.
Qed.

End VerifyStored.

Section FailedStored.

Variables (secret : string) (env : Env) (r : string) (p : Payment.doc) (db : Db).
Variables (signature : option string) (body : jsval).
Hypothesis Hstored : stored r db = Some p.
Hypothesis Hsig : signature_verifies secret body signature = true.
Hypothesis Hevent : failed_event r body.

Lemma failed_webhook_v1_stored :
  run (PaymentRoute.webhook secret env signature body) db
  = (Responded (respond 200 Received), marked_failed r (Date_now env 0) db).
Proof.
  destruct Hevent as (data & Hev & Hdata & Href).
  destruct (signature_verifies_hash _ _ _ Hsig) as (h & Hh & Heq).
  unfold run, PaymentRoute.webhook.
  rewrite (bind_lift_Ok _ _ _ _ Hh), Heq.
  rewrite (bind_lift_Ok _ _ _ _ Hev). simpl strict_eq_str. cbv iota.
  unfold bind at 1. rewrite (bind_lift_Ok _ _ _ _ Hdata).
  rewrite (bind_lift_Ok _ _ _ _ Href).
  unfold try_catch, PaymentRoute.record_success, PaymentRouteV2.record_success,
    PaymentRoute.record_failed, PaymentRouteV2.record_failed, bind, on_payments.
  rewrite (findOneAndUpdate_failed_stored _ _ _ _ Hstored).
  reflexivity.
Qed.

Lemma failed_webhook_v2_stored :
  run (PaymentRouteV2.webhook secret env signature body) db
  = (Responded (respond 200 Received), marked_failed r (Date_now env 0) db).
Proof.
  destruct Hevent as (data & Hev & Hdata & Href).
  destruct (signature_verifies_hash _ _ _ Hsig) as (h & Hh & Heq).
  unfold run, PaymentRouteV2.webhook.
  rewrite (bind_lift_Ok _ _ _ _ Hh), Heq.
  rewrite (bind_lift_Ok _ _ _ _ Hev). simpl strict_eq_str. cbv iota.
  unfold bind at 1. rewrite (bind_lift_Ok _ _ _ _ Hdata).
  rewrite (bind_lift_Ok _ _ _ _ Href).
  unfold try_catch, PaymentRoute.record_success, PaymentRouteV2.record_success,
    PaymentRoute.record_failed, PaymentRouteV2.record_failed, bind, on_payments.
  rewrite (findOneAndUpdate_failed_stored _ _ _ _ Hstored).
  reflexivity.
Qed.

End FailedStored.

(** ** Triggers on a stored Transaction, in either variant *)

Lemma deliver_success_stored (v : variant) (secret : string) (env : Env) (t : trigger)
  (r : string) (sid : ObjectId) (sem yr : string) (paid : option JsDate)
  (p : Payment.doc) (db : Db) :
  stored r db = Some p ->
  success_trigger secret r sid sem yr paid t ->
  snd (deliver v secret env t db) = settled r sid sem yr paid env p db.
Proof.
  intros Hstored Ht. destruct t as [axios_get authorization reference | signature body].
  - destruct Ht as (-> & Hauth & Hanswer). destruct v; simpl.
    + rewrite (success_verify_v1_stored env r sid sem yr paid p db axios_get authorization
                 Hstored Hauth Hanswer). reflexivity.
    + rewrite (success_verify_v2_stored env r sid sem yr paid p db axios_get authorization
                 Hstored Hauth Hanswer). reflexivity.
  - destruct Ht as (Hsig & Hevent). destruct v; simpl.
    + rewrite (success_webhook_v1_stored secret env r sid sem yr paid p db Hstored
                 signature body Hsig Hevent). reflexivity.
    + rewrite (success_webhook_v2_stored secret env r sid sem yr paid p db Hstored
                 signature body Hsig Hevent). reflexivity.
Qed.

Lemma deliver_failed_stored (v : variant) (secret : string) (env : Env) (t : trigger)
  (r : string) (p : Payment.doc) (db : Db) :
  stored r db = Some p ->
  failed_trigger secret r t ->
  snd (deliver v secret env t db) = marked_failed r (Date_now env 0) db.
Proof.
  intros Hstored Ht. destruct t as [axios_get authorization reference | signature body];
    [contradiction|].
  destruct Ht as (Hsig & Hevent). destruct v; simpl.
  - rewrite (failed_webhook_v1_stored secret env r p db signature body Hstored Hsig Hevent).
    reflexivity.
  - rewrite (failed_webhook_v2_stored secret env r p db signature body Hstored Hsig Hevent).
    reflexivity.
Qed.

Lemma stored_after_update (r st : string) (paid : option (option JsDate)) (now : Z)
  (p : Payment.doc) (coll : list Payment.doc) :
  find (Payment.has_reference r) coll = Some p ->
  find (Payment.has_reference r)
       (snd (Payment.update_first r (Payment.apply_update st paid now) coll))
  = Some (Payment.apply_update st paid now p).
Proof.
  apply payment_update_first_stored. intros q. reflexivity.
Qed.

(** C1 (amended): the routes put no guard on the stored status.  For a
    Transaction stored under the reference, whatever its status (a
    terminal one included), a well-formed [charge.failed] delivery leaves
    it with status [failed] and its former [paidAt], and a well-formed
    report of success (webhook or client verify) leaves it with status
    [success] and the reported [paidAt]; in both cases [updatedAt] is
    refreshed and nothing else of the record changes.  A terminal record
    therefore keeps its status and [paidAt] exactly when the trigger
    repeats them.  A report is well-formed when its metadata names the
    student, the semester and the academic year and its [paid_at] is a
    timestamp in the gateway's layout (any day from 01 to 31), a
    millisecond count within the time values, or null. *)
Theorem C1_trigger_overwrites_stored_status
  (v : variant) (secret : string) (env : Env) (t : trigger) (r : string)
  (p : Payment.doc) (db : Db) :
  stored r db = Some p ->
  (failed_trigger secret r t ->
     let p' := Payment.apply_update "failed" None (Date_now env 0) p in
     stored r (snd (deliver v secret env t db)) = Some p'
     /\ Payment.status p' = "failed" /\ Payment.paidAt p' = Payment.paidAt p)
  /\ (forall sid sem yr paid, success_trigger secret r sid sem yr paid t ->
     let p' := Payment.apply_update "success" (Some paid) (Date_now env 0) p in
     stored r (snd (deliver v secret env t db)) = Some p'
     /\ Payment.status p' = "success" /\ Payment.paidAt p' = paid).
Proof.
  intros Hstored. split.
  - intros Ht p'. rewrite (deliver_failed_stored v secret env t r p db Hstored Ht).
    split; [|split; reflexivity].
    unfold stored, marked_failed. cbn [payments]. apply stored_after_update. exact Hstored.
  - intros sid sem yr paid Ht p'.
    rewrite (deliver_success_stored v secret env t r sid sem yr paid p db Hstored Ht).
    split; [|split; reflexivity].
    unfold stored, settled. cbn [payments]. apply stored_after_update. exact Hstored.
Qed.

Lemma C1_witness :
  let failed := Sample.signed (Sample.charge "charge.failed" "ref_001" (Sample.metadata true)) in
  let paid := Sample.signed (Sample.charge "charge.success" "ref_001" (Sample.metadata true)) in
  let at_noon := Some (DateOfString "2025-06-15T12:00:00.000Z") in
  (let p' := Payment.apply_update "failed" None (Date_now Sample.env 0) Sample.pending in
   stored "ref_001" (snd (deliver V1 Sample.secret Sample.env failed Sample.db0)) = Some p'
   /\ Payment.status p' = "failed" /\ Payment.paidAt p' = Payment.paidAt Sample.pending)
  /\
  (let p' := Payment.apply_update "success" (Some at_noon) (Date_now Sample.env 0)
               Sample.pending in
   stored "ref_001" (snd (deliver V2 Sample.secret Sample.env paid Sample.db0)) = Some p'
   /\ Payment.status p' = "success" /\ Payment.paidAt p' = at_noon).
Proof.
  intros failed paid at_noon. split.
  - refine (proj1 (C1_trigger_overwrites_stored_status V1 Sample.secret Sample.env failed
                     "ref_001" Sample.pending Sample.db0 _) _).
    + reflexivity.
    + split; [vm_compute; reflexivity|].
      eexists. repeat split; reflexivity.
  - refine (proj2 (C1_trigger_overwrites_stored_status V2 Sample.secret Sample.env paid
                     "ref_001" Sample.pending Sample.db0 _)
                  Sample.student_id "Fall" "2025/2026" at_noon _).
    + reflexivity.
    + split; [vm_compute; reflexivity|].
      eexists. repeat split; try reflexivity.
      do 2 eexists. repeat split; try reflexivity; discriminate.
Defined.

(** The claim of C1 fails: a Transaction already in [success] is moved to
    [failed] by a later [charge.failed] delivery, and a later report of
    success with another [paid_at] replaces its [paidAt]. *)
Lemma C1_counterexample :
  let paid := Sample.signed (Sample.charge "charge.success" "ref_001" (Sample.metadata true)) in
  let failed := Sample.signed (Sample.charge "charge.failed" "ref_001" (Sample.metadata true)) in
  let again := Sample.signed (Sample.charge_at "charge.success" "ref_001"
                                "2025-07-01T08:30:00.000Z" (Sample.metadata true)) in
  let db1 := snd (deliver V1 Sample.secret Sample.env paid Sample.db0) in
  let db2 := snd (deliver V1 Sample.secret Sample.env failed db1) in
  let db3 := snd (deliver V1 Sample.secret Sample.env again db1) in
  option_map Payment.status (stored "ref_001" db1) = Some "success"
  /\ option_map Payment.status (stored "ref_001" db2) = Some "failed"
  /\ option_map Payment.paidAt (stored "ref_001" db1)
     = Some (Some (DateOfString "2025-06-15T12:00:00.000Z"))
  /\ option_map Payment.paidAt (stored "ref_001" db3)
     = Some (Some (DateOfString "2025-07-01T08:30:00.000Z")).
Proof. vm_compute. repeat split; reflexivity. Qed.

(** ** The payment history under duplicate reports of success *)

Lemma filter_none {A : Type} (f : A -> bool) (l : list A) :
  existsb f l = false -> filter f l = [].
Proof.
  induction l as [|a l IH]; simpl; [reflexivity|].
  destruct (f a); simpl; [discriminate | exact IH].
Qed.

Lemma filter_some {A : Type} (f : A -> bool) (l : list A) :
  existsb f l = true -> 1 <= List.length (filter f l).
Proof.
  induction l as [|a l IH]; simpl; [discriminate|].
  destruct (f a); simpl; [lia | exact IH].
Qed.

Lemma same_entry_refl (x : option ObjectId) : Student.same_entry x x = true.
Proof. destruct x as [i|]; simpl; [apply String.eqb_refl | reflexivity]. Qed.

(** [$addToSet] keeps an entry that occurs at most once at exactly one
    occurrence. *)
Lemma occurrences_addToSet (x : option ObjectId) (l : list (option ObjectId)) :
  occurrences x l <= 1 -> occurrences x (Student.addToSet x l) = 1.
Proof.
  unfold occurrences, Student.addToSet. intros Hle.
  destruct (existsb (Student.same_entry x) l) eqn:E.
  - pose proof (filter_some _ _ E). lia.
  - rewrite filter_app, (filter_none _ _ E). simpl. rewrite same_entry_refl. reflexivity.
Qed.

Lemma student_update_first_found (id : ObjectId) (f : Student.doc -> Student.doc)
  (coll : list Student.doc) (s : Student.doc) :
  (forall q, Student.has_id id (f q) = Student.has_id id q) ->
  find (Student.has_id id) coll = Some s ->
  find (Student.has_id id) (Student.update_first id f coll) = Some (f s).
Proof.
  intros Hf. induction coll as [|q rest IH]; simpl; [discriminate|].
  destruct (Student.has_id id q) eqn:Hq.
  - intros E; inversion E; subst. simpl. rewrite Hf, Hq. reflexivity.
  - intros E. simpl. rewrite Hq. exact (IH E).
Qed.


Lemma once_reconciled (r : string) (sid id : ObjectId) (db : Db) :
  once r sid id db -> reconciled r sid id 1 db.
Proof.
  intros (p & s & Hp & Hid & Hs & _ & Hocc). exists p, s.
  repeat split; try assumption. lia.
Qed.

Lemma success_step_once (v : variant) (secret : string) (env : Env) (t : trigger)
  (r : string) (sid id : ObjectId) (db : Db) :
  reconciled r sid id 1 db ->
  reports_success secret r sid (env, t) ->
  once r sid id (snd (deliver v secret env t db)).
Proof.
  intros (p & s & Hp & Hid & Hs & Hocc) (sem & yr & paid & Ht). simpl in Ht.
  rewrite (deliver_success_stored v secret env t r sid sem yr paid p db Hp Ht).
  exists (Payment.apply_update "success" (Some paid) (Date_now env 0) p),
         (Student.apply_update "paid" (Some sem) (Some yr) (Some (Payment._id p))
            (Date_now env 1) s).
  split; [|split; [|split; [|split]]].
  - unfold stored, settled. cbn [payments]. apply stored_after_update. exact Hp.
  - exact Hid.
  - unfold student, settled. cbn [students].
    apply student_update_first_found; [intros q; reflexivity | exact Hs].
  - reflexivity.
  - cbn [Student.apply_update Student.paymentHistory]. rewrite Hid.
    apply occurrences_addToSet. exact Hocc.
Qed.

Lemma success_steps_once (v : variant) (secret : string) (r : string) (sid id : ObjectId)
  (ts : list (Env * trigger)) :
  Forall (reports_success secret r sid) ts ->
  forall db, once r sid id db -> once r sid id (deliver_all v secret ts db).
Proof.
  induction 1 as [|[env t] rest Ht _ IH]; intros db Hdb; simpl; [exact Hdb|].
  apply IH. apply (success_step_once v secret env t r sid id db); [|exact Ht].
  apply once_reconciled. exact Hdb.
Qed.

(** C3 (amended): every well-formed report of success for a stored
    Transaction writes the student projection and, by the [timestamps] of
    the Student schema, the student's [updatedAt], the first one and every
    duplicate alike, whatever status the Transaction already has: the
    database after the report is [settled], whole.  Since
    [paymentHistory] is written with [$addToSet], after any N >= 1 such
    reports for the same reference and student (webhook deliveries and
    client verifications in any order) the student's [paymentHistory]
    holds the transaction id exactly once, provided it held it at most
    once before, and the student is marked [paid]. *)
Theorem C3_duplicate_reports_keep_one_history_entry
  (v : variant) (secret r : string) (sid : ObjectId) (p : Payment.doc) (s : Student.doc)
  (first : Env * trigger) (duplicates : list (Env * trigger)) (db : Db) :
  stored r db = Some p ->
  student sid db = Some s ->
  occurrences (Some (Payment._id p)) (Student.paymentHistory s) <= 1 ->
  Forall (reports_success secret r sid) (first :: duplicates) ->
  (forall env t sem yr paid,
      success_trigger secret r sid sem yr paid t ->
      snd (deliver v secret env t db) = settled r sid sem yr paid env p db)
  /\ exists s',
      student sid (deliver_all v secret (first :: duplicates) db) = Some s'
      /\ Student.currentSemesterPaymentStatus s' = "paid"
      /\ occurrences (Some (Payment._id p)) (Student.paymentHistory s') = 1.
Proof.
  intros Hp Hs Hocc Hall. split.
  - intros env t sem yr paid Ht.
    exact (deliver_success_stored v secret env t r sid sem yr paid p db Hp Ht).
  - destruct first as [env t].
    pose proof (Forall_inv Hall) as Hfirst. pose proof (Forall_inv_tail Hall) as Hrest.
    assert (Hstart : reconciled r sid (Payment._id p) 1 db).
    { exists p, s. repeat split; assumption. }
    pose proof (success_step_once v secret env t r sid (Payment._id p) db Hstart Hfirst)
      as Hone.
    pose proof (success_steps_once v secret r sid (Payment._id p) duplicates Hrest _ Hone)
      as (p' & s' & _ & _ & Hs' & Hpaid & Hocc').
    exists s'. repeat split; assumption.
Qed.

Lemma C3_witness :
  let report := (Sample.env,
                 Sample.signed (Sample.charge "charge.success" "ref_001"
                                  (Sample.metadata true))) in
  let check := (Sample.env,
                ClientVerify
                  (fun _ => Ok (JObj [("status", JBool true);
                                      ("data", JObj [("status", JStr "success");
                                                     ("paid_at", JNull);
                                                     ("metadata", Sample.metadata true)])]))
                  (Some "Bearer token") "ref_001") in
  exists s',
    student Sample.student_id
      (deliver_all V1 Sample.secret [report; check; report; report] Sample.db0) = Some s'
    /\ Student.currentSemesterPaymentStatus s' = "paid"
    /\ occurrences (Some (Payment._id Sample.pending)) (Student.paymentHistory s') = 1.
Proof.
  intros report check.
  refine (proj2 (C3_duplicate_reports_keep_one_history_entry V1 Sample.secret "ref_001"
                   Sample.student_id Sample.pending Sample.alice report
                   [check; report; report] Sample.db0 _ _ _ _)).
  - reflexivity.
  - reflexivity.
  - vm_compute. lia.
  - assert (Hreport : reports_success Sample.secret "ref_001" Sample.student_id report).
    { exists "Fall", "2025/2026", (Some (DateOfString "2025-06-15T12:00:00.000Z")).
      split; [vm_compute; reflexivity|].
      eexists. repeat split; try reflexivity.
      do 2 eexists. repeat split; try reflexivity; discriminate. }
    assert (Hcheck : reports_success Sample.secret "ref_001" Sample.student_id check).
    { exists "Fall", "2025/2026", None.
      split; [reflexivity|]. split.
      - exists "Bearer token". repeat split; try reflexivity; discriminate.
      - do 2 eexists. repeat split; try reflexivity.
        do 2 eexists. repeat split; try reflexivity; discriminate. }
    repeat constructor; assumption.
Defined.

(** The claim of C3 fails: the projection is also written by a duplicate.
    After a payment for Fall and a later one for Spring, a replay of the
    Fall event, whose Transaction is already in [success], sets the
    student back to Fall; the history still holds each id once. *)
Lemma C3_counterexample :
  let fall := Sample.signed (Sample.charge "charge.success" "ref_001"
                               (Sample.metadata_for "Fall" true)) in
  let spring := Sample.signed (Sample.charge "charge.success" "ref_002"
                                 (Sample.metadata_for "Spring" true)) in
  let db2 := deliver_all V2 Sample.secret [(Sample.env, fall); (Sample.env, spring)]
               Sample.db0 in
  let db3 := snd (deliver V2 Sample.secret Sample.env fall db2) in
  option_map Payment.status (stored "ref_001" db2) = Some "success"
  /\ option_map Student.lastPaidSemester (student Sample.student_id db2)
     = Some (Some "Spring")
  /\ option_map Student.lastPaidSemester (student Sample.student_id db3)
     = Some (Some "Fall")
  /\ option_map Student.paymentHistory (student Sample.student_id db3)
     = Some [Some "65f000000000000000000001"; Some "65f000000000000000000009"].
Proof. vm_compute. repeat split; reflexivity. Qed.

(** ** Client confirmation *)

Lemma protect_frame (authorization : option string) (next : M Response) (db : Db) :
  snd (run next db) = db -> snd (run (protect authorization next) db) = db.
Proof.
  intros Hnext. unfold protect. destruct authorization as [a|]; [|reflexivity].
  destruct (negb (String.eqb a "") && String.prefix "Bearer" a); [exact Hnext | reflexivity].
Qed.

Section VerifyNotSuccess.

Variables (env : Env) (axios_get : string -> outcome jsval).
Variables (authorization : option string) (r : string) (db : Db).
Hypothesis Hnot : provider_reports_success (axios_get r) = false.

Lemma verify_v1_not_success_frame :
  snd (run (PaymentRoute.verify_payment env axios_get authorization r) db) = db.
Proof.
  unfold PaymentRoute.verify_payment. apply protect_frame.
  unfold provider_reports_success in Hnot.
  unfold run, try_catch, bind, lift.
  destruct (axios_get r) as [response|e|]; try reflexivity; [|apply run_failure_frame].
  destruct (get response "data") as [data|e|]; try reflexivity; [|apply run_failure_frame].
  destruct data; simpl in Hnot |- *; try reflexivity; try apply run_failure_frame.
  - destruct b; try reflexivity; apply run_failure_frame.
  - destruct (Z.eqb n 0); try reflexivity; apply run_failure_frame.
  - destruct (String.eqb s ""); try reflexivity; apply run_failure_frame.
  - rewrite Hnot. reflexivity.
Qed.

Lemma verify_v2_not_success_frame :
  snd (run (PaymentRouteV2.verify_payment env axios_get authorization r) db) = db.
Proof.
  unfold PaymentRouteV2.verify_payment. apply protect_frame.
  unfold provider_reports_success in Hnot.
  unfold run, try_catch, bind, lift.
  destruct (axios_get r) as [response|e|]; try reflexivity; [|apply run_failure_frame].
  destruct (get response "data") as [data|e|]; try reflexivity; [|apply run_failure_frame].
  destruct data; simpl in Hnot |- *; try reflexivity; try apply run_failure_frame.
  - destruct b; try reflexivity; apply run_failure_frame.
  - destruct (Z.eqb n 0); try reflexivity; apply run_failure_frame.
  - destruct (String.eqb s ""); try reflexivity; apply run_failure_frame.
  - rewrite Hnot. reflexivity.
Qed.

Variables (response data gateway_response : jsval).
Hypothesis Hauth : authorized authorization.
Hypothesis Hanswer : axios_get r = Ok response.
Hypothesis Hdata : get response "data" = Ok data.
Hypothesis Hdetail : get data "gateway_response" = Ok gateway_response.

Lemma not_success_condition :
  truthy data && strict_eq_str (get_opt data "status") "success" = false.
Proof.
  unfold provider_reports_success in Hnot. rewrite Hanswer, Hdata in Hnot. exact Hnot.
Qed.

Lemma verify_v1_not_success_response :
  fst (run (PaymentRoute.verify_payment env axios_get authorization r) db)
  = Responded (respond 400 (MessageDetails "Payment verification failed."
                              (js_or gateway_response (JStr "Unknown status")))).
Proof.
  pose proof not_success_condition as Hcond.
  unfold PaymentRoute.verify_payment. rewrite (protect_authorized _ _ Hauth).
  unfold run, try_catch.
  rewrite (bind_lift_Ok _ _ _ _ Hanswer), (bind_lift_Ok _ _ _ _ Hdata).
  unfold bind at 1.
  destruct (truthy data) eqn:Htruthy.
  - unfold lift at 1.
    assert (Hstatus : get data "status" = Ok (get_opt data "status"))
      by (destruct data; try discriminate; reflexivity).
    rewrite Hstatus. cbn [andb] in Hcond |- *. rewrite Hcond.
    rewrite (bind_lift_Ok _ _ _ _ Hdetail). reflexivity.
  - unfold ret at 1. cbn [andb].
    rewrite (bind_lift_Ok _ _ _ _ Hdetail). reflexivity.
Qed.

Lemma verify_v2_not_success_response :
  fst (run (PaymentRouteV2.verify_payment env axios_get authorization r) db)
  = Responded (respond 400 (MessageDetails "Payment verification failed."
                              (js_or gateway_response (JStr "Unknown status")))).
Proof.
  pose proof not_success_condition as Hcond.
  unfold PaymentRouteV2.verify_payment. rewrite (protect_authorized _ _ Hauth).
  unfold run, try_catch.
  rewrite (bind_lift_Ok _ _ _ _ Hanswer), (bind_lift_Ok _ _ _ _ Hdata).
  unfold bind at 1.
  destruct (truthy data) eqn:Htruthy.
  - unfold lift at 1.
    assert (Hstatus : get data "status" = Ok (get_opt data "status"))
      by (destruct data; try discriminate; reflexivity).
    rewrite Hstatus. cbn [andb] in Hcond |- *. rewrite Hcond.
    rewrite (bind_lift_Ok _ _ _ _ Hdetail). reflexivity.
  - unfold ret at 1. cbn [andb].
    rewrite (bind_lift_Ok _ _ _ _ Hdetail). reflexivity.
Qed.

End VerifyNotSuccess.

(** C6: on the client-confirmation path, when the gateway reports
    [success] for a stored Transaction the record moves to [success] with
    the gateway's [paid_at] and the answer is 200 with the updated record;
    for any other answer of the gateway (a [pending] status, say) nothing
    stored changes, and the answer is 400 with the gateway's
    [gateway_response] (or [Unknown status]) as detail.  Both variants. *)
Theorem C6_client_confirmation_transitions_only_on_success
  (v : variant) (env : Env) (axios_get : string -> outcome jsval)
  (authorization : option string) (r : string) (db : Db) :
  (forall sid sem yr paid p,
      authorized authorization ->
      provider_success sid sem yr paid (axios_get r) ->
      stored r db = Some p ->
      let p' := Payment.apply_update "success" (Some paid) (Date_now env 0) p in
      fst (run (verify_payment_of v env axios_get authorization r) db)
        = Responded (respond 200 (Verified "Payment verified successfully." (Some p')))
      /\ stored r (snd (run (verify_payment_of v env axios_get authorization r) db)) = Some p'
      /\ Payment.status p' = "success" /\ Payment.paidAt p' = paid)
  /\ (provider_reports_success (axios_get r) = false ->
      snd (run (verify_payment_of v env axios_get authorization r) db) = db
      /\ forall response data gateway_response,
          authorized authorization ->
          axios_get r = Ok response ->
          get response "data" = Ok data ->
          get data "gateway_response" = Ok gateway_response ->
          fst (run (verify_payment_of v env axios_get authorization r) db)
          = Responded (respond 400 (MessageDetails "Payment verification failed."
                                      (js_or gateway_response (JStr "Unknown status"))))).
Proof.
  split.
  - intros sid sem yr paid p Hauth Hanswer Hstored p'.
    assert (Hrun : run (verify_payment_of v env axios_get authorization r) db
                   = (Responded (respond 200 (Verified "Payment verified successfully."
                                                (Some p'))),
                      settled r sid sem yr paid env p db)).
    { destruct v.
      - exact (success_verify_v1_stored env r sid sem yr paid p db axios_get authorization
                 Hstored Hauth Hanswer).
      - exact (success_verify_v2_stored env r sid sem yr paid p db axios_get authorization
                 Hstored Hauth Hanswer). }
    rewrite Hrun. split; [reflexivity|]. split; [|split; reflexivity].
    unfold stored, settled. cbn [snd payments]. apply stored_after_update. exact Hstored.
  - intros Hnot. split.
    + destruct v.
      * exact (verify_v1_not_success_frame env axios_get authorization r db Hnot).
      * exact (verify_v2_not_success_frame env axios_get authorization r db Hnot).
    + intros response data g Hauth Hanswer Hdata Hg. destruct v.
      * exact (verify_v1_not_success_response env axios_get authorization r db Hnot
                 response data g Hauth Hanswer Hdata Hg).
      * exact (verify_v2_not_success_response env axios_get authorization r db Hnot
                 response data g Hauth Hanswer Hdata Hg).
Qed.

Lemma C6_witness :
  let confirmed := fun _ : string =>
    Ok (JObj [("status", JBool true);
              ("data", JObj [("status", JStr "success");
                             ("paid_at", JStr "2025-06-15T12:00:00.000Z");
                             ("metadata", Sample.metadata true)])]) in
  let waiting := fun _ : string =>
    Ok (JObj [("status", JBool true);
              ("data", JObj [("status", JStr "pending");
                             ("gateway_response", JStr "Awaiting payment")])]) in
  let p' := Payment.apply_update "success"
              (Some (Some (DateOfString "2025-06-15T12:00:00.000Z")))
              (Date_now Sample.env 0) Sample.pending in
  (fst (run (verify_payment_of V1 Sample.env confirmed (Some "Bearer token") "ref_001")
          Sample.db0)
     = Responded (respond 200 (Verified "Payment verified successfully." (Some p')))
   /\ stored "ref_001"
        (snd (run (verify_payment_of V1 Sample.env confirmed (Some "Bearer token") "ref_001")
                Sample.db0)) = Some p'
   /\ Payment.status p' = "success"
   /\ Payment.paidAt p' = Some (DateOfString "2025-06-15T12:00:00.000Z"))
  /\ snd (run (verify_payment_of V1 Sample.env waiting (Some "Bearer token") "ref_001")
            Sample.db0) = Sample.db0
  /\ fst (run (verify_payment_of V1 Sample.env waiting (Some "Bearer token") "ref_001")
            Sample.db0)
     = Responded (respond 400 (MessageDetails "Payment verification failed."
                                 (JStr "Awaiting payment"))).
Proof.
  intros confirmed waiting p'.
  assert (Hauth : authorized (Some "Bearer token")).
  { exists "Bearer token". repeat split; try reflexivity; discriminate. }
  split; [|split].
  - refine (proj1 (C6_client_confirmation_transitions_only_on_success V1 Sample.env confirmed
                     (Some "Bearer token") "ref_001" Sample.db0)
                  Sample.student_id "Fall" "2025/2026"
                  (Some (DateOfString "2025-06-15T12:00:00.000Z")) Sample.pending
                  Hauth _ _).
    + do 2 eexists. repeat split; try reflexivity.
      do 2 eexists. repeat split; try reflexivity; discriminate.
    + reflexivity.
  - refine (proj1 (proj2 (C6_client_confirmation_transitions_only_on_success V1 Sample.env
                            waiting (Some "Bearer token") "ref_001" Sample.db0) _)).
    reflexivity.
  - refine (proj2 (proj2 (C6_client_confirmation_transitions_only_on_success V1 Sample.env
                            waiting (Some "Bearer token") "ref_001" Sample.db0) _)
                  _ _ (JStr "Awaiting payment") Hauth _ _ _); reflexivity.
Defined.

(** ** Client confirmation without a stored record, second variant *)

Lemma findOneAndUpdate_success_absent (ref : string) (paid_at : jsval) (paid : option JsDate)
  (now : Z) (coll : list Payment.doc) :
  update_path "paidAt" (cast_Date paid_at) = Ok paid ->
  existsb (Payment.has_reference ref) coll = false ->
  Payment.findOneAndUpdate (JStr ref) (success_update paid_at now) coll = (Ok None, coll).
Proof.
  intros Hpaid Habsent. unfold Payment.findOneAndUpdate. simpl. rewrite Hpaid. simpl.
  rewrite (payment_update_first_absent _ _ _ Habsent). reflexivity.
Qed.

Lemma addToSet_In (x : option ObjectId) (l : list (option ObjectId)) :
  In x (Student.addToSet x l).
Proof.
  unfold Student.addToSet. destruct (existsb (Student.same_entry x) l) eqn:E.
  - apply existsb_exists in E. destruct E as (y & Hin & Hsame).
    assert (y = x) as ->; [|exact Hin].
    destruct x as [a|], y as [b|]; simpl in Hsame; try discriminate; [|reflexivity].
    apply String.eqb_eq in Hsame. subst. reflexivity.
  - apply in_or_app. right. left. reflexivity.
Qed.

(** C10: in the second variant, when [verify-payment] finds the gateway
    reporting success and no Transaction is stored under the reference, the
    handler still answers 200 (with a [null] payment), marks the student
    paid with the semester and academic year of the gateway's metadata, and
    adds [null] to the student's [paymentHistory]; no Transaction is
    written. *)
Theorem C10_verify_without_record_marks_student_paid
  (env : Env) (axios_get : string -> outcome jsval) (authorization : option string)
  (r : string) (sid : ObjectId) (sem yr : string) (paid : option JsDate)
  (s : Student.doc) (db : Db) :
  authorized authorization ->
  provider_success sid sem yr paid (axios_get r) ->
  existsb (Payment.has_reference r) (payments db) = false ->
  student sid db = Some s ->
  let result := run (PaymentRouteV2.verify_payment env axios_get authorization r) db in
  fst result = Responded (respond 200 (Verified "Payment verified successfully." None))
  /\ payments (snd result) = payments db
  /\ exists s',
      student sid (snd result) = Some s'
      /\ Student.currentSemesterPaymentStatus s' = "paid"
      /\ Student.lastPaidSemester s' = Some sem
      /\ Student.lastPaidAcademicYear s' = Some yr
      /\ Student.paymentHistory s' = Student.addToSet None (Student.paymentHistory s)
      /\ In None (Student.paymentHistory s').
Proof.
  intros Hauth (response & data & Hget & Hdata & Hstatus & metadata & student_id
                & Hmeta & Hsid & Hcast & Hsem & Hsem0 & Hyr & Hyr0 & Hpaid) Habsent Hs result.
  assert (Hrun : result
                 = (Responded (respond 200 (Verified "Payment verified successfully." None)),
                    {| payments := payments db;
                       students := Student.update_first sid
                                     (Student.apply_update "paid" (Some sem) (Some yr) None
                                        (Date_now env 1))
                                     (students db) |})).
  { unfold result, run, PaymentRouteV2.verify_payment.
    rewrite (protect_authorized _ _ Hauth).
    unfold try_catch.
    rewrite (bind_lift_Ok _ _ _ _ Hget), (bind_lift_Ok _ _ _ _ Hdata).
    rewrite (status_success_truthy _ Hstatus).
    rewrite (bind_lift_Ok _ _ _ _ Hstatus).
    change (strict_eq_str (JStr "success") "success") with true. cbn [andb].
    rewrite (bind_lift_Ok _ _ _ _ Hmeta).
    rewrite (bind_lift_Ok _ _ _ _ Hsid), (bind_lift_Ok _ _ _ _ Hsem).
    rewrite (bind_lift_Ok _ _ _ _ Hyr).
    unfold bind, on_payments, on_students.
    rewrite (findOneAndUpdate_success_absent _ _ _ _ _ Hpaid Habsent).
    cbn [payments students ret option_map].
    rewrite (findByIdAndUpdate_mark_paid _ _ _ _ _ _ _ Hcast).
    reflexivity. }
  rewrite Hrun. cbn [fst snd payments]. split; [reflexivity|]. split; [reflexivity|].
  exists (Student.apply_update "paid" (Some sem) (Some yr) None (Date_now env 1) s).
  split; [|repeat split].
  - unfold student. cbn [students].
    apply student_update_first_found; [intros q; reflexivity | exact Hs].
  - apply addToSet_In.
Qed.

Lemma C10_witness :
  let confirmed := fun _ : string =>
    Ok (JObj [("status", JBool true);
              ("data", JObj [("status", JStr "success");
                             ("paid_at", JStr "2025-06-15T12:00:00.000Z");
                             ("metadata", Sample.metadata true)])]) in
  let result := run (PaymentRouteV2.verify_payment Sample.env confirmed
                       (Some "Bearer token") "ref_404") Sample.db0 in
  fst result = Responded (respond 200 (Verified "Payment verified successfully." None))
  /\ payments (snd result) = payments Sample.db0
  /\ exists s',
      student Sample.student_id (snd result) = Some s'
      /\ Student.currentSemesterPaymentStatus s' = "paid"
      /\ Student.lastPaidSemester s' = Some "Fall"
      /\ Student.lastPaidAcademicYear s' = Some "2025/2026"
      /\ Student.paymentHistory s'
         = Student.addToSet None (Student.paymentHistory Sample.alice)
      /\ In None (Student.paymentHistory s').
Proof.
  intros confirmed.
  apply (C10_verify_without_record_marks_student_paid Sample.env confirmed
           (Some "Bearer token") "ref_404" Sample.student_id "Fall" "2025/2026"
           (Some (DateOfString "2025-06-15T12:00:00.000Z")) Sample.alice Sample.db0).
  - exists "Bearer token". repeat split; try reflexivity; discriminate.
  - do 2 eexists. repeat split; try reflexivity.
    do 2 eexists. repeat split; try reflexivity; discriminate.
  - reflexivity.
  - reflexivity.
Defined.

(** ** A success event for a reference that is not stored *)

Section Reconstruction.

Variables (secret : string) (env : Env) (signature : option string) (body : jsval).
Variables (r : string) (data metadata student_id : jsval) (db : Db).
Variables (sid : ObjectId) (sem yr : string) (paid : option JsDate).
Hypothesis Hsig : signature_verifies secret body signature = true.
Hypothesis Hevent : get body "event" = Ok (JStr "charge.success").
Hypothesis Hdata : get body "data" = Ok data.
Hypothesis Href : get data "reference" = Ok (JStr r).
Hypothesis Hmeta : get data "metadata" = Ok metadata.
Hypothesis Hsid : get metadata "student_id" = Ok student_id.
Hypothesis Hcast : cast_ObjectId student_id = Value sid.
Hypothesis Hsem : get metadata "semester" = Ok (JStr sem).
Hypothesis Hsem0 : sem <> "".
Hypothesis Hyr : get metadata "academic_year" = Ok (JStr yr).
Hypothesis Hyr0 : yr <> "".
Hypothesis Hpaid : update_path "paidAt" (cast_Date (get_opt data "paid_at")) = Ok paid.
Hypothesis Habsent : existsb (Payment.has_reference r) (payments db) = false.

(** The first variant without a description in the metadata: the fallback
    template throws, the [catch] answers 500 and nothing is written. *)
Lemma reconstruction_v1_without_description :
  truthy (get_opt metadata "description") = false ->
  run (PaymentRoute.webhook secret env signature body) db
  = (Responded (respond 500 (ReceivedMessage "Database update failed")), db).
Proof.
  intros Hdesc.
  destruct (signature_verifies_hash _ _ _ Hsig) as (h & Hh & Heq).
  unfold run, PaymentRoute.webhook.
  rewrite (bind_lift_Ok _ _ _ _ Hh), Heq.
  rewrite (bind_lift_Ok _ _ _ _ Hevent).
  change (strict_eq_str (JStr "charge.success") "charge.success") with true. cbv iota.
  unfold bind at 1. rewrite (bind_lift_Ok _ _ _ _ Hdata).
  rewrite (bind_lift_Ok _ _ _ _ Href), (bind_lift_Ok _ _ _ _ Hmeta).
  rewrite (bind_lift_Ok _ _ _ _ Hsid), (bind_lift_Ok _ _ _ _ Hsem).
  rewrite (bind_lift_Ok _ _ _ _ Hyr).
  unfold try_catch, PaymentRoute.record_success, PaymentRouteV2.record_success,
    PaymentRoute.record_failed, PaymentRouteV2.record_failed, bind, on_payments.
  rewrite (findOneAndUpdate_success_absent _ _ _ _ _ Hpaid Habsent).
  rewrite Hdesc. cbn. rewrite db_eta. reflexivity.
Qed.

Variables (amount : Z) (currency description : string).
Hypothesis Hamount : get data "amount" = Ok (JNum amount).
Hypothesis Hcurrency : get data "currency" = Ok (JStr currency).
Hypothesis Hcurrency0 : currency <> "".
Hypothesis Hr0 : r <> "".
Hypothesis Hfresh : existsb (Payment.has_id (new_ObjectId env)) (payments db) = false.
Hypothesis Hdescription :
  js_or (get_opt metadata "description") (fee_payment_for (JStr sem) (JStr yr))
  = JStr description.

Local Abbreviation rebuilt :=
  (reconstructed env sid r amount currency sem yr description paid).

Lemma required_string_nonempty (path s : string) :
  s <> "" -> required_string path (Value s) = Ok s.
Proof.
  intros Hne. unfold required_string. simpl.
  destruct (String.eqb_spec s ""); [contradiction | reflexivity].
Qed.

Lemma save_reconstructed :
  Payment.save
    (Payment.new_ (new_ObjectId env) (fun k => Date_now env (3 + k))
       (reconstructed_payment student_id (JStr r) data (JStr sem) (JStr yr)
          (JStr description) (Date_now env 1) (Date_now env 2)))
    (payments db)
  = (Ok rebuilt, (payments db ++ [rebuilt])%list).
Proof.
  assert (Hpaid' : optional "paidAt" (cast_Date (get_opt data "paid_at")) = Ok paid).
  { destruct (cast_Date (get_opt data "paid_at")); simpl in Hpaid |- *;
      try discriminate; exact Hpaid. }
  unfold Payment.save, Payment.validate, Payment.new_, reconstructed_payment.
  cbn [Payment.draft_fields Payment.draft_id Payment.f_studentId Payment.f_paystackReference
       Payment.f_amount Payment.f_currency Payment.f_status Payment.f_semester
       Payment.f_academicYear Payment.f_description Payment.f_paidAt Payment.f_createdAt
       Payment.f_updatedAt Payment.with_default].
  rewrite Hcast, (get_Ok_get_opt _ _ _ Hamount), (get_Ok_get_opt _ _ _ Hcurrency), Hpaid'.
  cbn [cast_String cast_Number cast_Date required optional obind Payment.with_default].
  rewrite !Date_now_time.
  rewrite !required_string_nonempty by (assumption || discriminate).
  cbn [required obind Payment._id Payment.paystackReference]. fold rebuilt.
  cbn [Payment._id Payment.paystackReference reconstructed].
  rewrite Hfresh, Habsent. reflexivity.
Qed.

(** The second variant creates the Transaction in [success] from the
    event and writes the projection. *)
Lemma reconstruction_v2 :
  run (PaymentRouteV2.webhook secret env signature body) db
  = (Responded (respond 200 Received),
     {| payments := (payments db ++ [rebuilt])%list;
        students := Student.update_first sid
                      (Student.apply_update "paid" (Some sem) (Some yr)
                         (Some (new_ObjectId env)) (Date_now env 3))
                      (students db) |}).
Proof.
  destruct (signature_verifies_hash _ _ _ Hsig) as (h & Hh & Heq).
  unfold run, PaymentRouteV2.webhook.
  rewrite (bind_lift_Ok _ _ _ _ Hh), Heq.
  rewrite (bind_lift_Ok _ _ _ _ Hevent).
  change (strict_eq_str (JStr "charge.success") "charge.success") with true. cbv iota.
  unfold bind at 1. rewrite (bind_lift_Ok _ _ _ _ Hdata).
  rewrite (bind_lift_Ok _ _ _ _ Href), (bind_lift_Ok _ _ _ _ Hmeta).
  cbv zeta.
  rewrite (get_Ok_get_opt _ _ _ Hsid), (get_Ok_get_opt _ _ _ Hsem), (get_Ok_get_opt _ _ _ Hyr).
  rewrite (cast_ObjectId_truthy _ _ Hcast), (nonempty_truthy _ Hsem0), (nonempty_truthy _ Hyr0).
  cbn [negb orb].
  unfold try_catch, PaymentRoute.record_success, PaymentRouteV2.record_success, bind,
    on_payments, on_students.
  rewrite (findOneAndUpdate_success_absent _ _ _ _ _ Hpaid Habsent).
  cbn [payments students]. rewrite Hdescription, save_reconstructed.
  cbn [payments students].
  rewrite (findByIdAndUpdate_mark_paid _ _ _ _ _ _ _ Hcast).
  reflexivity.
Qed.

(** The first variant does the same when the metadata carries a
    description. *)
Lemma reconstruction_v1_with_description :
  get_opt metadata "description" = JStr description ->
  description <> "" ->
  run (PaymentRoute.webhook secret env signature body) db
  = (Responded (respond 200 Received),
     {| payments := (payments db ++ [rebuilt])%list;
        students := Student.update_first sid
                      (Student.apply_update "paid" (Some sem) (Some yr)
                         (Some (new_ObjectId env)) (Date_now env 3))
                      (students db) |}).
Proof.
  intros Hdesc Hdesc0.
  destruct (signature_verifies_hash _ _ _ Hsig) as (h & Hh & Heq).
  unfold run, PaymentRoute.webhook.
  rewrite (bind_lift_Ok _ _ _ _ Hh), Heq.
  rewrite (bind_lift_Ok _ _ _ _ Hevent).
  change (strict_eq_str (JStr "charge.success") "charge.success") with true. cbv iota.
  unfold bind at 1. rewrite (bind_lift_Ok _ _ _ _ Hdata).
  rewrite (bind_lift_Ok _ _ _ _ Href), (bind_lift_Ok _ _ _ _ Hmeta).
  rewrite (bind_lift_Ok _ _ _ _ Hsid), (bind_lift_Ok _ _ _ _ Hsem).
  rewrite (bind_lift_Ok _ _ _ _ Hyr).
  unfold try_catch, PaymentRoute.record_success, PaymentRouteV2.record_success, bind,
    on_payments, on_students.
  rewrite (findOneAndUpdate_success_absent _ _ _ _ _ Hpaid Habsent).
  cbn [payments students]. rewrite Hdesc, (nonempty_truthy _ Hdesc0).
  cbv beta iota delta [ret]. cbn [payments students]. rewrite save_reconstructed.
  cbn [payments students].
  rewrite (findByIdAndUpdate_mark_paid _ _ _ _ _ _ _ Hcast).
  reflexivity.
Qed.

End Reconstruction.

(** C5 fails in [Routes/PaymentRoute.js]: for a signature-valid
    [charge.success] event whose reference is not stored and whose metadata
    (student_id, semester, academic_year present) has no description, the
    first variant answers 500 and writes nothing, neither a Transaction nor
    the projection; the second variant, on the same event, creates the
    Transaction in [success] and marks the student paid. *)
Theorem C5_reconstruction_fails_without_description :
  let body := Sample.charge "charge.success" "ref_404" (Sample.metadata false) in
  let second := snd (run (PaymentRouteV2.webhook Sample.secret Sample.env (Sample.sign body)
                            body) Sample.db0) in
  signature_verifies Sample.secret body (Sample.sign body) = true
  /\ stored "ref_404" Sample.db0 = None
  /\ run (PaymentRoute.webhook Sample.secret Sample.env (Sample.sign body) body) Sample.db0
     = (Responded (respond 500 (ReceivedMessage "Database update failed")), Sample.db0)
  /\ option_map Payment.status (stored "ref_404" second) = Some "success"
  /\ option_map Student.paymentHistory (student Sample.student_id second)
     = Some [Some (new_ObjectId Sample.env)].
Proof. vm_compute. repeat split; reflexivity. Qed.

(** ** What the webhook answers *)

Lemma returns_none_ret : returns_none (ret None).
Proof. intros db. exact I. Qed.

Lemma returns_none_bind {A : Type} (m : M A) (k : A -> M (option Response)) :
  (forall a, returns_none (k a)) -> returns_none (bind m k).
Proof.
  intros Hk db. unfold bind. destruct (m db) as [[a|e|] db']; simpl; try exact I.
  apply Hk.
Qed.

Lemma early_try_catch (v : variant) (body : M (option Response)) (message : string) :
  returns_none body ->
  early_acknowledged v
    (try_catch body (fun _ => ret (Some (respond 500 (ReceivedMessage message))))).
Proof.
  intros Hbody db. unfold try_catch. specialize (Hbody db).
  destruct (body db) as [[[response|]|e|] db']; simpl in *; try exact I.
  - contradiction.
  - right. left. exists message. reflexivity.
Qed.

Lemma get_throws_TypeError (x : jsval) (k : string) (e : exn) :
  get x k = Throw e -> exists what, e = TypeError what.
Proof. destruct x; simpl; intros E; inversion E; eexists; reflexivity. Qed.

Lemma early_bind_get (v : variant) (x : jsval) (k : string)
  (rest : jsval -> M (option Response)) :
  (forall a, early_acknowledged v (rest a)) ->
  early_acknowledged v (bind (lift (get x k)) rest).
Proof.
  intros Hrest db. unfold bind, lift. destruct (get x k) as [a|e|] eqn:E; simpl.
  - apply Hrest.
  - destruct (get_throws_TypeError _ _ _ E) as (what & ->). exact I.
  - exact I.
Qed.

Lemma early_ret_none (v : variant) : early_acknowledged v (ret None).
Proof. intros db. exact I. Qed.

Lemma acknowledged_finish (v : variant) (m : M (option Response)) (db : Db) :
  early_acknowledged v m ->
  acknowledged v
    (fst (run (bind m (fun early => match early with
                                    | Some response => ret response
                                    | None => ret (respond 200 Received)
                                    end)) db)).
Proof.
  intros Hm. specialize (Hm db). unfold run, bind.
  destruct (m db) as [[[response|]|e|] db']; simpl in *.
  - exact Hm.
  - left. reflexivity.
  - destruct e; try contradiction; exact I.
  - exact I.
Qed.

Lemma acknowledged_bind_get (v : variant) (x : jsval) (k : string)
  (rest : jsval -> M Response) (db : Db) :
  (forall a, acknowledged v (fst (run (rest a) db))) ->
  acknowledged v (fst (run (bind (lift (get x k)) rest) db)).
Proof.
  intros Hrest. unfold run, bind, lift. destruct (get x k) as [a|e|] eqn:E.
  - apply Hrest.
  - destruct (get_throws_TypeError _ _ _ E) as (what & ->). exact I.
  - exact I.
Qed.

Ltac none_at_the_end :=
  repeat first
    [ apply returns_none_ret
    | apply returns_none_bind; intros
    | match goal with
      | |- returns_none (match ?x with _ => _ end) => destruct x
      end ].

Lemma run_bind_lift_Ok {A : Type} (o : outcome A) (a : A) (k : A -> M Response) (db : Db) :
  o = Ok a -> run (bind (lift o) k) db = run (k a) db.
Proof. intros ->. reflexivity. Qed.

Lemma webhook_v1_acknowledged (secret : string) (env : Env) (signature : option string)
  (body : jsval) (db : Db) :
  signature_verifies secret body signature = true ->
  acknowledged V1 (fst (run (PaymentRoute.webhook secret env signature body) db)).
Proof.
  intros Hsig. destruct (signature_verifies_hash _ _ _ Hsig) as (h & Hh & Heq).
  unfold PaymentRoute.webhook.
  rewrite (run_bind_lift_Ok _ _ _ _ Hh), Heq.
  apply acknowledged_bind_get; intros event_type.
  apply acknowledged_finish.
  destruct (strict_eq_str event_type "charge.success").
  - repeat (apply early_bind_get; intros).
    apply early_try_catch. none_at_the_end.
  - destruct (strict_eq_str event_type "charge.failed").
    + repeat (apply early_bind_get; intros).
      apply early_try_catch. none_at_the_end.
    + apply early_ret_none.
Qed.

Lemma webhook_v2_acknowledged (secret : string) (env : Env) (signature : option string)
  (body : jsval) (db : Db) :
  signature_verifies secret body signature = true ->
  acknowledged V2 (fst (run (PaymentRouteV2.webhook secret env signature body) db)).
Proof.
  intros Hsig. destruct (signature_verifies_hash _ _ _ Hsig) as (h & Hh & Heq).
  unfold PaymentRouteV2.webhook.
  rewrite (run_bind_lift_Ok _ _ _ _ Hh), Heq.
  apply acknowledged_bind_get; intros event_type.
  apply acknowledged_finish.
  destruct (strict_eq_str event_type "charge.success").
  - repeat (apply early_bind_get; intros). cbv zeta.
    match goal with |- early_acknowledged _ (if ?c then _ else _) => destruct c end.
    + intros db'. right. right. split; reflexivity.
    + apply early_try_catch. none_at_the_end.
  - destruct (strict_eq_str event_type "charge.failed").
    + repeat (apply early_bind_get; intros).
      apply early_try_catch. none_at_the_end.
    + apply early_ret_none.
Qed.

(** A signature that does not verify: 400 with the text
    [Invalid signature], and nothing is written. *)
Lemma webhook_rejects (v : variant) (secret : string) (env : Env)
  (signature : option string) (body : jsval) (text : string) (db : Db) :
  JSON_stringify body = Ok (Some text) ->
  signature_verifies secret body signature = false ->
  run (webhook_of v secret env signature body) db
  = (Responded (respond 400 (Text "Invalid signature")), db).
Proof.
  intros Htext Hsig. unfold signature_verifies, body_hash in Hsig.
  destruct v; unfold webhook_of, PaymentRoute.webhook, PaymentRouteV2.webhook, body_hash;
    rewrite Htext in Hsig |- *;
    rewrite (run_bind_lift_Ok _ _ _ _ eq_refl), Hsig; reflexivity.
Qed.

Section MissingMetadata.

Variables (secret : string) (env : Env) (signature : option string) (body : jsval).
Variables (data reference metadata : jsval) (db : Db).
Hypothesis Hsig : signature_verifies secret body signature = true.
Hypothesis Hevent : get body "event" = Ok (JStr "charge.success").
Hypothesis Hdata : get body "data" = Ok data.
Hypothesis Href : get data "reference" = Ok reference.
Hypothesis Hmeta : get data "metadata" = Ok metadata.
Hypothesis Hmissing :
  truthy (get_opt metadata "student_id") && truthy (get_opt metadata "semester")
  && truthy (get_opt metadata "academic_year") = false.

(** The guard of the second variant. *)
Lemma missing_metadata_v2 :
  run (PaymentRouteV2.webhook secret env signature body) db
  = (Responded (respond 400 (ReceivedMessage "Missing metadata")), db).
Proof.
  destruct (signature_verifies_hash _ _ _ Hsig) as (h & Hh & Heq).
  unfold PaymentRouteV2.webhook.
  rewrite (run_bind_lift_Ok _ _ _ _ Hh), Heq.
  rewrite (run_bind_lift_Ok _ _ _ _ Hevent).
  change (strict_eq_str (JStr "charge.success") "charge.success") with true. cbv iota.
  unfold run. unfold bind at 1. rewrite (bind_lift_Ok _ _ _ _ Hdata).
  rewrite (bind_lift_Ok _ _ _ _ Href), (bind_lift_Ok _ _ _ _ Hmeta).
  cbv zeta.
  assert (Hguard : negb (truthy (get_opt metadata "student_id"))
                   || negb (truthy (get_opt metadata "semester"))
                   || negb (truthy (get_opt metadata "academic_year")) = true).
  { destruct (truthy (get_opt metadata "student_id")),
             (truthy (get_opt metadata "semester")),
             (truthy (get_opt metadata "academic_year")); simpl in *; congruence. }
  rewrite Hguard. reflexivity.
Qed.

End MissingMetadata.

Lemma find_none_existsb {A : Type} (f : A -> bool) (l : list A) :
  find f l = None -> existsb f l = false.
Proof.
  induction l as [|a l IH]; simpl; [reflexivity|].
  destruct (f a); [discriminate | exact IH].
Qed.

(** An event that is ignored, a failed charge, or a success event for a
    stored Transaction: the answer is 200. *)
Lemma webhook_processed (v : variant) (secret : string) (env : Env)
  (signature : option string) (body : jsval) (db : Db)
  (r : string) (sid : ObjectId) (sem yr : string) (paid : option JsDate) (p : Payment.doc) :
  signature_verifies secret body signature = true ->
  (exists event_type,
      get body "event" = Ok event_type
      /\ strict_eq_str event_type "charge.success" = false
      /\ strict_eq_str event_type "charge.failed" = false)
  \/ failed_event r body
  \/ (success_event r sid sem yr paid body /\ stored r db = Some p) ->
  fst (run (webhook_of v secret env signature body) db) = Responded (respond 200 Received).
Proof.
  intros Hsig [(event_type & Hev & Hs & Hf) | [Hfailed | (Hsuccess & Hstored)]].
  - destruct v; simpl.
    + rewrite (ignored_v1 secret env signature body db event_type Hsig Hev Hs Hf).
      reflexivity.
    + rewrite (ignored_v2 secret env signature body db event_type Hsig Hev Hs Hf).
      reflexivity.
  - destruct (stored r db) as [q|] eqn:Hstored.
    + destruct v; simpl.
      * rewrite (failed_webhook_v1_stored secret env r q db signature body Hstored Hsig
                   Hfailed). reflexivity.
      * rewrite (failed_webhook_v2_stored secret env r q db signature body Hstored Hsig
                   Hfailed). reflexivity.
    + pose proof (find_none_existsb _ _ Hstored) as Habsent.
      destruct Hfailed as (data & Hev & Hdata & Href). destruct v; simpl.
      * rewrite (failed_unknown_v1 secret env signature body data r db Hsig Hev Hdata Href
                   Habsent). reflexivity.
      * rewrite (failed_unknown_v2 secret env signature body data r db Hsig Hev Hdata Href
                   Habsent). reflexivity.
  - destruct v; simpl.
    + rewrite (success_webhook_v1_stored secret env r sid sem yr paid p db Hstored
                 signature body Hsig Hsuccess). reflexivity.
    + rewrite (success_webhook_v2_stored secret env r sid sem yr paid p db Hstored
                 signature body Hsig Hsuccess). reflexivity.
Qed.

(** The bodies of the [try] blocks end without an early response. *)
Lemma record_success_returns_none (v : variant) (env : Env)
  (reference data metadata student_id semester academic_year : jsval) :
  returns_none (record_success_of v env reference data metadata student_id semester
                  academic_year).
Proof.
  destruct v; unfold record_success_of, PaymentRoute.record_success,
    PaymentRouteV2.record_success; none_at_the_end.
Qed.

Lemma record_failed_returns_none (v : variant) (env : Env) (reference : jsval) :
  returns_none (record_failed_of v env reference).
Proof.
  destruct v; unfold record_failed_of, PaymentRoute.record_failed,
    PaymentRouteV2.record_failed; none_at_the_end.
Qed.

Lemma run_tried (message : string) (body : M (option Response)) (db : Db) :
  returns_none body ->
  run (early <- try_catch body (fun _ => ret (Some (respond 500 (ReceivedMessage message)))) ;;
       match early with
       | Some response => ret response
       | None => ret (respond 200 Received)
       end) db
  = tried message (body db).
Proof.
  intros Hnone. specialize (Hnone db). unfold run, bind, try_catch, tried.
  destruct (body db) as [[[response|]|e|] db']; simpl in *;
    first [contradiction | reflexivity].
Qed.

Section WebhookTry.

Variables (v : variant) (secret : string) (env : Env) (signature : option string).
Variables (body : jsval) (db : Db).
Hypothesis Hsig : signature_verifies secret body signature = true.

Lemma webhook_success_tried
  (data reference metadata student_id semester academic_year : jsval) :
  get body "event" = Ok (JStr "charge.success") ->
  get body "data" = Ok data ->
  get data "reference" = Ok reference ->
  get data "metadata" = Ok metadata ->
  get metadata "student_id" = Ok student_id ->
  get metadata "semester" = Ok semester ->
  get metadata "academic_year" = Ok academic_year ->
  (v = V2 -> truthy student_id && truthy semester && truthy academic_year = true) ->
  run (webhook_of v secret env signature body) db
  = tried "Database update failed"
      (record_success_of v env reference data metadata student_id semester academic_year db).
Proof.
  intros Hev Hdata Href Hmeta Hsid Hsem Hyr Hguard.
  destruct (signature_verifies_hash _ _ _ Hsig) as (h & Hh & Heq).
  pose proof (record_success_returns_none v env reference data metadata student_id semester
                academic_year) as Hnone.
  destruct v; unfold webhook_of, PaymentRoute.webhook, PaymentRouteV2.webhook.
  - rewrite (run_bind_lift_Ok _ _ _ _ Hh), Heq.
    rewrite (run_bind_lift_Ok _ _ _ _ Hev).
    change (strict_eq_str (JStr "charge.success") "charge.success") with true. cbv iota.
    unfold run. unfold bind at 1. rewrite (bind_lift_Ok _ _ _ _ Hdata).
    rewrite (bind_lift_Ok _ _ _ _ Href), (bind_lift_Ok _ _ _ _ Hmeta).
    rewrite (bind_lift_Ok _ _ _ _ Hsid), (bind_lift_Ok _ _ _ _ Hsem).
    rewrite (bind_lift_Ok _ _ _ _ Hyr).
    exact (run_tried "Database update failed" _ db Hnone).
  - specialize (Hguard eq_refl).
    rewrite (run_bind_lift_Ok _ _ _ _ Hh), Heq.
    rewrite (run_bind_lift_Ok _ _ _ _ Hev).
    change (strict_eq_str (JStr "charge.success") "charge.success") with true. cbv iota.
    unfold run. unfold bind at 1. rewrite (bind_lift_Ok _ _ _ _ Hdata).
    rewrite (bind_lift_Ok _ _ _ _ Href), (bind_lift_Ok _ _ _ _ Hmeta).
    cbv zeta.
    rewrite (get_Ok_get_opt _ _ _ Hsid), (get_Ok_get_opt _ _ _ Hsem),
      (get_Ok_get_opt _ _ _ Hyr).
    apply andb_true_iff in Hguard. destruct Hguard as [Hguard Hyr1].
    apply andb_true_iff in Hguard. destruct Hguard as [Hsid1 Hsem1].
    rewrite Hsid1, Hsem1, Hyr1. cbn [negb orb].
    exact (run_tried "Database update failed" _ db Hnone).
Qed.

Lemma webhook_failed_tried (data reference : jsval) :
  get body "event" = Ok (JStr "charge.failed") ->
  get body "data" = Ok data ->
  get data "reference" = Ok reference ->
  run (webhook_of v secret env signature body) db
  = tried "Database update failed for failed payment" (record_failed_of v env reference db).
Proof.
  intros Hev Hdata Href.
  destruct (signature_verifies_hash _ _ _ Hsig) as (h & Hh & Heq).
  pose proof (record_failed_returns_none v env reference) as Hnone.
  destruct v; unfold webhook_of, PaymentRoute.webhook, PaymentRouteV2.webhook;
    rewrite (run_bind_lift_Ok _ _ _ _ Hh), Heq;
    rewrite (run_bind_lift_Ok _ _ _ _ Hev);
    change (strict_eq_str (JStr "charge.failed") "charge.success") with false;
    change (strict_eq_str (JStr "charge.failed") "charge.failed") with true; cbv iota;
    unfold run; unfold bind at 1; rewrite (bind_lift_Ok _ _ _ _ Hdata);
    rewrite (bind_lift_Ok _ _ _ _ Href);
    exact (run_tried "Database update failed for failed payment" _ db Hnone).
Qed.

(** An event of one of the two kinds without a [data] object: reading the
    reference throws before the [try], out of the handler. *)
Lemma webhook_without_data (event_type data : jsval) (e : exn) :
  get body "event" = Ok event_type ->
  strict_eq_str event_type "charge.success" || strict_eq_str event_type "charge.failed"
    = true ->
  get body "data" = Ok data ->
  get data "reference" = Throw e ->
  run (webhook_of v secret env signature body) db = (Unhandled e, db).
Proof.
  intros Hev Hkind Hdata Href.
  destruct (signature_verifies_hash _ _ _ Hsig) as (h & Hh & Heq).
  destruct v; unfold webhook_of, PaymentRoute.webhook, PaymentRouteV2.webhook;
    rewrite (run_bind_lift_Ok _ _ _ _ Hh), Heq;
    rewrite (run_bind_lift_Ok _ _ _ _ Hev);
    unfold run; unfold bind at 1;
    (destruct (strict_eq_str event_type "charge.success");
     [| destruct (strict_eq_str event_type "charge.failed"); [|discriminate Hkind]]);
    rewrite (bind_lift_Ok _ _ _ _ Hdata); unfold bind, lift; rewrite Href; reflexivity.
Qed.

End WebhookTry.

(** The answers with [received: true] are not the refusal of the
    signature. *)
Lemma acknowledgment_not_refusal (v : variant) (response : Response) :
  acknowledgment v response -> response <> respond 400 (Text "Invalid signature").
Proof.
  intros [-> | [(message & ->) | (_ & ->)]]; discriminate.
Qed.

(** C4 (amended): once the signature has verified, every response that
    the webhook sends carries [received: true].  It is 200
    [{received: true}] when the event is ignored or processed (an ignored
    event type, a failed charge, a success event for a stored
    Transaction) and whenever the [try] block of a [charge.success] or
    [charge.failed] event ends normally; it is 500
    [{received: true, message}] exactly when that [try] block (the
    database operations) throws, and the writes made before the exception
    stay; in the second variant it is 400
    [{received: true, message: 'Missing metadata'}] when a
    [charge.success] event lacks student_id, semester or academic_year,
    and nothing is written.  An event of the two kinds without a [data]
    object gets no response: the handler throws before the [try].  The
    text [Invalid signature] with status 400 (never 401) is the answer
    exactly when the signature does not verify, and nothing is written. *)
Theorem C4_verified_webhook_answers_received
  (v : variant) (secret : string) (env : Env) (signature : option string)
  (body : jsval) (db : Db) :
  let result := run (webhook_of v secret env signature body) db in
  (signature_verifies secret body signature = true ->
     forall response, fst result = Responded response -> acknowledgment v response)
  /\ (forall r sid sem yr paid p,
        signature_verifies secret body signature = true ->
        (exists event_type,
            get body "event" = Ok event_type
            /\ strict_eq_str event_type "charge.success" = false
            /\ strict_eq_str event_type "charge.failed" = false)
        \/ failed_event r body
        \/ (success_event r sid sem yr paid body /\ stored r db = Some p) ->
        fst result = Responded (respond 200 Received))
  /\ (forall data reference metadata student_id semester academic_year,
        signature_verifies secret body signature = true ->
        get body "event" = Ok (JStr "charge.success") ->
        get body "data" = Ok data ->
        get data "reference" = Ok reference ->
        get data "metadata" = Ok metadata ->
        get metadata "student_id" = Ok student_id ->
        get metadata "semester" = Ok semester ->
        get metadata "academic_year" = Ok academic_year ->
        (v = V2 -> truthy student_id && truthy semester && truthy academic_year = true) ->
        let attempt := record_success_of v env reference data metadata student_id semester
                         academic_year db in
        (forall e, fst attempt = Throw e ->
           result = (Responded (respond 500 (ReceivedMessage "Database update failed")),
                     snd attempt))
        /\ (forall o, fst attempt = Ok o ->
              result = (Responded (respond 200 Received), snd attempt)))
  /\ (forall data reference,
        signature_verifies secret body signature = true ->
        get body "event" = Ok (JStr "charge.failed") ->
        get body "data" = Ok data ->
        get data "reference" = Ok reference ->
        let attempt := record_failed_of v env reference db in
        (forall e, fst attempt = Throw e ->
           result = (Responded (respond 500
                       (ReceivedMessage "Database update failed for failed payment")),
                     snd attempt))
        /\ (forall o, fst attempt = Ok o ->
              result = (Responded (respond 200 Received), snd attempt)))
  /\ (forall data reference metadata,
        v = V2 ->
        signature_verifies secret body signature = true ->
        get body "event" = Ok (JStr "charge.success") ->
        get body "data" = Ok data ->
        get data "reference" = Ok reference ->
        get data "metadata" = Ok metadata ->
        truthy (get_opt metadata "student_id") && truthy (get_opt metadata "semester")
        && truthy (get_opt metadata "academic_year") = false ->
        result = (Responded (respond 400 (ReceivedMessage "Missing metadata")), db))
  /\ (forall event_type data e,
        signature_verifies secret body signature = true ->
        get body "event" = Ok event_type ->
        strict_eq_str event_type "charge.success" || strict_eq_str event_type "charge.failed"
          = true ->
        get body "data" = Ok data ->
        get data "reference" = Throw e ->
        result = (Unhandled e, db))
  /\ (forall text,
        JSON_stringify body = Ok (Some text) ->
        (signature_verifies secret body signature = false
         <-> result = (Responded (respond 400 (Text "Invalid signature")), db))).
Proof.
  intros result.
  assert (Hack : signature_verifies secret body signature = true ->
                 forall response, fst result = Responded response -> acknowledgment v response).
  { intros Hsig response Hresponse.
    assert (H : acknowledged v (fst result)).
    { unfold result. destruct v.
      - exact (webhook_v1_acknowledged secret env signature body db Hsig).
      - exact (webhook_v2_acknowledged secret env signature body db Hsig). }
    rewrite Hresponse in H. exact H. }
  split; [exact Hack|]. split; [|split; [|split; [|split; [|split]]]].
  - intros r sid sem yr paid p Hsig Hcases.
    exact (webhook_processed v secret env signature body db r sid sem yr paid p Hsig Hcases).
  - intros data reference metadata student_id semester academic_year Hsig Hev Hdata Href
      Hmeta Hsid Hsem Hyr Hguard attempt.
    pose proof (webhook_success_tried v secret env signature body db Hsig data reference
                  metadata student_id semester academic_year Hev Hdata Href Hmeta Hsid Hsem
                  Hyr Hguard) as Hrun.
    fold result attempt in Hrun. rewrite Hrun. unfold tried.
    destruct attempt as [[o|e|] db']; split; intros x Hx; simpl in Hx |- *;
      first [discriminate Hx | reflexivity].
  - intros data reference Hsig Hev Hdata Href attempt.
    pose proof (webhook_failed_tried v secret env signature body db Hsig data reference
                  Hev Hdata Href) as Hrun.
    fold result attempt in Hrun. rewrite Hrun. unfold tried.
    destruct attempt as [[o|e|] db']; split; intros x Hx; simpl in Hx |- *;
      first [discriminate Hx | reflexivity].
  - intros data reference metadata -> Hsig Hev Hdata Href Hmeta Hmissing.
    exact (missing_metadata_v2 secret env signature body data reference metadata db
             Hsig Hev Hdata Href Hmeta Hmissing).
  - intros event_type data e Hsig Hev Hkind Hdata Href.
    exact (webhook_without_data v secret env signature body db Hsig event_type data e Hev
             Hkind Hdata Href).
  - intros text Htext. split.
    + intros Hsig. exact (webhook_rejects v secret env signature body text db Htext Hsig).
    + intros Hrun. destruct (signature_verifies secret body signature) eqn:Hsig;
        [|reflexivity].
      exfalso. apply (acknowledgment_not_refusal v (respond 400 (Text "Invalid signature"))).
      * apply (Hack eq_refl). rewrite Hrun. reflexivity.
      * reflexivity.
Qed.

Lemma C4_witness :
  let paid := Sample.charge "charge.success" "ref_001" (Sample.metadata true) in
  let incomplete := Sample.charge "charge.success" "ref_001"
                      (JObj [("student_id", JStr Sample.student_id)]) in
  let misaddressed := Sample.charge "charge.success" "ref_001"
                        (JObj [("student_id", JStr "abc"); ("semester", JStr "Fall");
                               ("academic_year", JStr "2025/2026")]) in
  fst (run (webhook_of V1 Sample.secret Sample.env (Sample.sign paid) paid) Sample.db0)
    = Responded (respond 200 Received)
  /\ run (webhook_of V1 Sample.secret Sample.env (Sample.sign misaddressed) misaddressed)
         Sample.db0
     = (Responded (respond 500 (ReceivedMessage "Database update failed")),
        snd (record_success_of V1 Sample.env (JStr "ref_001") (get_opt misaddressed "data")
               (get_opt (get_opt misaddressed "data") "metadata") (JStr "abc") (JStr "Fall")
               (JStr "2025/2026") Sample.db0))
  /\ run (webhook_of V2 Sample.secret Sample.env (Sample.sign incomplete) incomplete)
         Sample.db0
     = (Responded (respond 400 (ReceivedMessage "Missing metadata")), Sample.db0)
  /\ run (webhook_of V1 Sample.secret Sample.env (Some "00ff") paid) Sample.db0
     = (Responded (respond 400 (Text "Invalid signature")), Sample.db0).
Proof.
  intros paid incomplete misaddressed. split; [|split; [|split]].
  - refine (proj1 (proj2 (C4_verified_webhook_answers_received V1 Sample.secret Sample.env
                            (Sample.sign paid) paid Sample.db0))
                  "ref_001" Sample.student_id "Fall" "2025/2026"
                  (Some (DateOfString "2025-06-15T12:00:00.000Z")) Sample.pending _ _).
    + vm_compute. reflexivity.
    + right. right. split; [|reflexivity].
      eexists. repeat split; try reflexivity.
      do 2 eexists. repeat split; try reflexivity; discriminate.
  - refine (proj1 (proj1 (proj2 (proj2 (C4_verified_webhook_answers_received V1
                                          Sample.secret Sample.env (Sample.sign misaddressed)
                                          misaddressed Sample.db0)))
                           (get_opt misaddressed "data") (JStr "ref_001")
                           (get_opt (get_opt misaddressed "data") "metadata") (JStr "abc")
                           (JStr "Fall") (JStr "2025/2026") _ _ _ _ _ _ _ _ _)
                  (CastError "_id") _);
      vm_compute; reflexivity.
  - refine (proj1 (proj2 (proj2 (proj2 (proj2 (C4_verified_webhook_answers_received V2
                                          Sample.secret Sample.env (Sample.sign incomplete)
                                          incomplete Sample.db0)))))
                  (get_opt incomplete "data") (JStr "ref_001")
                  (JObj [("student_id", JStr Sample.student_id)]) _ _ _ _ _ _ _);
      vm_compute; reflexivity.
  - refine (proj1 (proj2 (proj2 (proj2 (proj2 (proj2 (proj2
              (C4_verified_webhook_answers_received V1 Sample.secret Sample.env (Some "00ff")
                 paid Sample.db0))))))
              (match JSON_stringify paid with Ok (Some text) => text | _ => "" end) _) _);
      vm_compute; reflexivity.
Defined.

(** The claim of C4 fails: with a signature that verifies, the second
    variant answers 400 to a [charge.success] event without a semester, and
    the first answers 500 when the student id of the event does not cast to
    an ObjectId. *)
Lemma C4_counterexample :
  let incomplete := Sample.charge "charge.success" "ref_001"
                      (JObj [("student_id", JStr Sample.student_id)]) in
  let unknown := Sample.charge "charge.success" "ref_001"
                   (JObj [("student_id", JStr "abc"); ("semester", JStr "Fall");
                          ("academic_year", JStr "2025/2026")]) in
  signature_verifies Sample.secret incomplete (Sample.sign incomplete) = true
  /\ fst (run (PaymentRouteV2.webhook Sample.secret Sample.env (Sample.sign incomplete)
                 incomplete) Sample.db0)
     = Responded (respond 400 (ReceivedMessage "Missing metadata"))
  /\ signature_verifies Sample.secret unknown (Sample.sign unknown) = true
  /\ fst (run (PaymentRoute.webhook Sample.secret Sample.env (Sample.sign unknown) unknown)
            Sample.db0)
     = Responded (respond 500 (ReceivedMessage "Database update failed")).
Proof. vm_compute. repeat split; reflexivity. Qed.

(** ** Initiation *)

Lemma lower_hex (c : ascii) : is_hex c = true -> is_hex (lower c) = true.
Proof.
  destruct c as [[] [] [] [] [] [] [] []]; intros H; try discriminate H; reflexivity.
Qed.

Lemma lower_lower (c : ascii) : lower (lower c) = lower c.
Proof. destruct c as [[] [] [] [] [] [] [] []]; reflexivity. Qed.

Lemma lowercase_length (s : string) : String.length (lowercase s) = String.length s.
Proof. induction s as [|c s IH]; simpl; [reflexivity | rewrite IH; reflexivity]. Qed.

Lemma lowercase_hex (s : string) : all_hex s = true -> all_hex (lowercase s) = true.
Proof.
  induction s as [|c s IH]; simpl; [reflexivity|].
  intros H. apply andb_true_iff in H. destruct H as [Hc Hs].
  rewrite (lower_hex c Hc), (IH Hs). reflexivity.
Qed.

Lemma lowercase_lowercase (s : string) : lowercase (lowercase s) = lowercase s.
Proof.
  induction s as [|c s IH]; simpl; [reflexivity|]. rewrite lower_lower, IH. reflexivity.
Qed.

(** An id that a cast produced casts to itself. *)
Lemma cast_ObjectId_canonical (v : jsval) (sid : ObjectId) :
  cast_ObjectId v = Value sid -> cast_ObjectId (JStr sid) = Value sid.
Proof.
  destruct v; simpl; try discriminate.
  destruct (Nat.eqb (String.length s) 24 && all_hex s) eqn:E.
  - intros H. inversion H; subst. apply andb_true_iff in E. destruct E as [Hlen Hhex].
    rewrite lowercase_length, Hlen, (lowercase_hex _ Hhex), lowercase_lowercase. reflexivity.
  - destruct (Nat.eqb (String.length s) 12); discriminate.
Qed.

Lemma find_has_id (sid : ObjectId) (coll : list Student.doc) (s : Student.doc) :
  find (Student.has_id sid) coll = Some s -> Student._id s = sid.
Proof.
  intros H. apply find_some in H. destruct H as [_ H].
  apply String.eqb_eq in H. exact H.
Qed.

(** The amount in kobo of a positive amount, when it is a safe integer. *)
Lemma rounded (x : jsval) (n : Z) :
  x = JNum n -> (0 < n)%Z -> safe_integer (n * 100) = true ->
  Math_round_times x 100 = Ok (n * 100)%Z.
Proof.
  intros -> Hpositive Hsafe. unfold Math_round_times.
  assert (Hn : safe_integer n = true).
  { unfold safe_integer in *. apply andb_true_iff in Hsafe. destruct Hsafe as [_ Hhi].
    apply Z.leb_le in Hhi. apply andb_true_iff. split; apply Z.leb_le; lia. }
  rewrite Hn, Hsafe. reflexivity.
Qed.



Section Initiate.

Variables (env : Env) (axios_post : jsval -> outcome jsval).
Variables (authorization : option string) (fields : list (string * jsval)) (db : Db).
Hypothesis Hauth : authorized authorization.

Let amount := lookup_field "amount" fields.
Let studentId := lookup_field "studentId" fields.
Let semester := lookup_field "semester" fields.
Let academicYear := lookup_field "academicYear" fields.
Let description := lookup_field "description" fields.
Let email := lookup_field "email" fields.


Hypothesis Hpresent :
  truthy amount && truthy studentId && truthy semester && truthy academicYear
  && truthy email = true.

Lemma present_guard :
  negb (truthy amount) || negb (truthy studentId) || negb (truthy semester)
  || negb (truthy academicYear) || negb (truthy email) = false.
Proof.
  destruct (truthy amount), (truthy studentId), (truthy semester), (truthy academicYear),
    (truthy email); simpl in *; congruence.
Qed.

Variable n : Z.
Hypothesis Hamount : amount = JNum n.


Hypothesis Hpositive : (0 < n)%Z.

Lemma positive_amount : js_le amount 0 = Ok false.
Proof. rewrite Hamount. simpl. f_equal. apply Z.leb_gt. exact Hpositive. Qed.

Variable sid : ObjectId.
Hypothesis Hsid : cast_ObjectId studentId = Value sid.


Variable s : Student.doc.
Hypothesis Hstudent : student sid db = Some s.

Lemma found_student : Student.findById studentId (students db) = Ok (Some s).
Proof. unfold Student.findById. rewrite Hsid. simpl. f_equal. exact Hstudent. Qed.


End Initiate.

Lemma truthy_field_object (data : jsval) (k : string) (x : jsval) :
  get data k = Ok x -> truthy x = true -> truthy data = true.
Proof.
  destruct data; simpl; intros E; inversion E; subst; simpl; intros H;
    try discriminate; reflexivity.
Qed.

Lemma truthy_nonempty (str : string) : truthy (JStr str) = true -> str <> "".
Proof. simpl. intros H ->. discriminate. Qed.

Section Initiated.

Variables (v : variant) (env : Env) (axios_post : jsval -> outcome jsval).
Variables (authorization : option string) (fields : list (string * jsval)) (db : Db).
Variables (n : Z) (sid : ObjectId) (s : Student.doc) (sem yr d : string).
Variables (data accepted paystackData : jsval) (reference : string).

Let amount := lookup_field "amount" fields.
Let studentId := lookup_field "studentId" fields.
Let semester := lookup_field "semester" fields.
Let academicYear := lookup_field "academicYear" fields.
Let description := lookup_field "description" fields.
Let email := lookup_field "email" fields.
Let extra : list (string * jsval) :=
  match v with
  | V1 => []
  | V2 => [("callback_url", lookup_field "callback_url" fields)]
  end.

Hypothesis Hauth : authorized authorization.
Hypothesis Hpresent :
  truthy amount && truthy studentId && truthy semester && truthy academicYear
  && truthy email = true.
Hypothesis Hamount : amount = JNum n.
Hypothesis Hpositive : (0 < n)%Z.
Hypothesis Hsafe : safe_integer (n * 100) = true.
Hypothesis Hsid : cast_ObjectId studentId = Value sid.
Hypothesis Hstudent : student sid db = Some s.
Hypothesis Hsem : semester = JStr sem.
Hypothesis Hyr : academicYear = JStr yr.
Hypothesis Hdescription :
  js_or description (fee_payment_for semester academicYear) = JStr d.
Hypothesis Hgateway :
  axios_post (initialize_payload email (n * 100) s semester academicYear description extra)
  = Ok data.
Hypothesis Haccepted : get data "status" = Ok accepted.
Hypothesis Haccepted_true : truthy accepted = true.
Hypothesis Hdata : get data "data" = Ok paystackData.
Hypothesis Hreference : get paystackData "reference" = Ok (JStr reference).
Hypothesis Hreference0 : reference <> "".
Hypothesis Hfresh : existsb (Payment.has_id (new_ObjectId env)) (payments db) = false.
Hypothesis Habsent : existsb (Payment.has_reference reference) (payments db) = false.



End Initiated.


Lemma sample_authorized : authorized (Some "Bearer token").
Proof. exists "Bearer token". repeat split; try reflexivity; discriminate. Qed.



(** ** The signature check *)

Lemma signature_verifies_iff (secret : string) (body : jsval) (signature : option string) :
  signature_verifies secret body signature = true
  <-> exists text, JSON_stringify body = Ok (Some text)
                   /\ signature = Some (createHmac_sha512_hex secret text).
Proof.
  unfold signature_verifies, body_hash. destruct (JSON_stringify body) as [[text|]|e|].
  - destruct signature as [h|]; simpl.
    + rewrite String.eqb_eq. split.
      * intros <-. exists text. split; reflexivity.
      * intros (text' & Htext & Hh). inversion Htext; inversion Hh; subst. reflexivity.
    + split; [discriminate|]. intros (text' & _ & H). discriminate H.
  - split; [discriminate|]. intros (text' & H & _). discriminate H.
  - split; [discriminate|]. intros (text' & H & _). discriminate H.
  - split; [discriminate|]. intros (text' & H & _). discriminate H.
Qed.

(** With a signature that verifies, the webhook does not answer
    [Invalid signature]. *)
Lemma verified_not_refused (v : variant) (secret : string) (env : Env)
  (signature : option string) (body : jsval) (db db' : Db) :
  signature_verifies secret body signature = true ->
  run (webhook_of v secret env signature body) db
  <> (Responded (respond 400 (Text "Invalid signature")), db').
Proof.
  intros Hsig Hrun.
  assert (H : acknowledged v (fst (run (webhook_of v secret env signature body) db))).
  { destruct v.
    - exact (webhook_v1_acknowledged secret env signature body db Hsig).
    - exact (webhook_v2_acknowledged secret env signature body db Hsig). }
  rewrite Hrun in H. exact (acknowledgment_not_refusal v _ H eq_refl).
Qed.

(** C2 (amended): the webhook check takes the HMAC-SHA512 of
    [JSON.stringify] of the parsed body, a re-serialisation and not the raw
    bytes received, and compares its hex digest with the signature header
    by [==].  For a body that [JSON.stringify] prints as [text], the
    webhook answers 400 [Invalid signature], writing nothing, exactly when
    the header is not the HMAC of [text].  The raw bytes play no part: a
    request signed over its raw bytes under the right secret is refused
    whenever the HMAC of the bytes is not that of the re-serialisation,
    and a request whose bytes differ from the signed ones is taken as
    verified (every response then carries [received: true]) as long as it
    parses to a body with the same re-serialisation. *)
Theorem C2_signature_is_over_the_reserialised_body
  (v : variant) (secret : string) (env : Env) (db : Db) :
  (forall signature body text,
      JSON_stringify body = Ok (Some text) ->
      (run (webhook_of v secret env signature body) db
       = (Responded (respond 400 (Text "Invalid signature")), db)
       <-> signature <> Some (createHmac_sha512_hex secret text)))
  /\ (forall raw body text,
        express_json raw = Parsed body ->
        JSON_stringify body = Ok (Some text) ->
        createHmac_sha512_hex secret raw <> createHmac_sha512_hex secret text ->
        post_webhook v secret env (Some (createHmac_sha512_hex secret raw)) raw db
        = Parsed (Responded (respond 400 (Text "Invalid signature")), db))
  /\ (forall raw body text,
        express_json raw = Parsed body ->
        JSON_stringify body = Ok (Some text) ->
        exists result,
          post_webhook v secret env (Some (createHmac_sha512_hex secret text)) raw db
          = Parsed result
          /\ result <> (Responded (respond 400 (Text "Invalid signature")), db)
          /\ forall response, fst result = Responded response -> acknowledgment v response).
Proof.
  assert (Hrefuse : forall signature body text,
             JSON_stringify body = Ok (Some text) ->
             signature <> Some (createHmac_sha512_hex secret text) ->
             run (webhook_of v secret env signature body) db
             = (Responded (respond 400 (Text "Invalid signature")), db)).
  { intros signature body text Htext Hdiff.
    apply (webhook_rejects v secret env signature body text db Htext).
    destruct (signature_verifies secret body signature) eqn:Hsig; [|reflexivity].
    exfalso. apply signature_verifies_iff in Hsig. destruct Hsig as (text' & Htext' & Hsig).
    rewrite Htext in Htext'. inversion Htext'; subst text'. exact (Hdiff Hsig). }
  assert (Haccept : forall body text,
             JSON_stringify body = Ok (Some text) ->
             signature_verifies secret body (Some (createHmac_sha512_hex secret text)) = true).
  { intros body text Htext. apply signature_verifies_iff. exists text.
    split; [exact Htext | reflexivity]. }
  split; [|split].
  - intros signature body text Htext. split.
    + intros Hrun Hsig. subst signature.
      exact (verified_not_refused v secret env _ body db db (Haccept body text Htext) Hrun).
    + exact (Hrefuse signature body text Htext).
  - intros raw body text Hparse Htext Hdiff. unfold post_webhook. rewrite Hparse.
    cbn [pbind]. f_equal. apply (Hrefuse _ body text Htext).
    intros H. inversion H as [H']. exact (Hdiff H').
  - intros raw body text Hparse Htext.
    exists (run (webhook_of v secret env (Some (createHmac_sha512_hex secret text)) body) db).
    unfold post_webhook. rewrite Hparse. cbn [pbind]. split; [reflexivity|]. split.
    + exact (verified_not_refused v secret env _ body db db (Haccept body text Htext)).
    + intros response Hresponse.
      assert (H : acknowledged v
                    (fst (run (webhook_of v secret env
                                 (Some (createHmac_sha512_hex secret text)) body) db))).
      { destruct v.
        - exact (webhook_v1_acknowledged secret env _ body db (Haccept body text Htext)).
        - exact (webhook_v2_acknowledged secret env _ body db (Haccept body text Htext)). }
      rewrite Hresponse in H. exact H.
Qed.

Lemma C2_witness :
  post_webhook V1 Sample.secret Sample.env
    (Some (createHmac_sha512_hex Sample.secret Sample.raw_sent)) Sample.raw_sent Sample.db0
  = Parsed (Responded (respond 400 (Text "Invalid signature")), Sample.db0).
Proof.
  apply (proj1 (proj2 (C2_signature_is_over_the_reserialised_body V1 Sample.secret Sample.env
                         Sample.db0))
               Sample.raw_sent Sample.failed_charge Sample.raw_compact).
  - vm_compute. reflexivity.
  - vm_compute. reflexivity.
  - vm_compute. discriminate.
Defined.

(** The claim of C2 fails both ways.  The body [raw_sent] has blanks that
    its re-serialisation [raw_compact] does not have.  Sent unmodified with
    the HMAC of its own bytes under the right secret, it is refused; and
    when [raw_compact] was signed and its bytes were then changed into
    [raw_sent] with the header left as it was, it is accepted and
    processed. *)
Lemma C2_counterexample :
  let over_raw := Some (createHmac_sha512_hex Sample.secret Sample.raw_sent) in
  let over_compact := Some (createHmac_sha512_hex Sample.secret Sample.raw_compact) in
  express_json Sample.raw_sent = Parsed Sample.failed_charge
  /\ JSON_stringify Sample.failed_charge = Ok (Some Sample.raw_compact)
  /\ String.eqb Sample.raw_sent Sample.raw_compact = false
  /\ post_webhook V1 Sample.secret Sample.env over_raw Sample.raw_sent Sample.db0
     = Parsed (Responded (respond 400 (Text "Invalid signature")), Sample.db0)
  /\ match post_webhook V1 Sample.secret Sample.env over_compact Sample.raw_sent Sample.db0
     with
     | Parsed result =>
         fst result = Responded (respond 200 Received)
         /\ option_map Payment.status (stored "ref_001" (snd result)) = Some "failed"
     | _ => False
     end.
Proof. vm_compute. repeat split; reflexivity. Qed.

(** * Further properties of the payment routes *)

(** ** What every route keeps *)

Section Respects.

Variable R : Db -> Db -> Prop.
Hypothesis R_refl : forall db, R db db.
Hypothesis R_trans : forall a b c, R a b -> R b c -> R a c.
Hypothesis R_update :
  forall ref u coll others, route_update u ->
    R {| payments := coll; students := others |}
      {| payments := snd (Payment.findOneAndUpdate ref u coll); students := others |}.
Hypothesis R_save :
  forall d coll others, route_draft d ->
    R {| payments := coll; students := others |}
      {| payments := snd (Payment.save d coll); students := others |}.
Hypothesis R_student :
  forall now id u coll others, route_mark u ->
    R {| payments := others; students := coll |}
      {| payments := others; students := snd (Student.findByIdAndUpdate now id u coll) |}.

Lemma respects_ret {A : Type} (a : A) : respects R (ret a).
Proof. intros db. apply R_refl. Qed.

Lemma respects_throw {A : Type} (e : exn) : respects R (@throw A e).
Proof. intros db. apply R_refl. Qed.

Lemma respects_lift {A : Type} (o : outcome A) : respects R (lift o).
Proof. intros db. apply R_refl. Qed.

Lemma respects_lift_students {A : Type} (op : list Student.doc -> outcome A) :
  respects R (lift_students op).
Proof. intros db. apply R_refl. Qed.

Lemma respects_bind {A B : Type} (m : M A) (k : A -> M B) :
  respects R m -> (forall a, respects R (k a)) -> respects R (bind m k).
Proof.
  intros Hm Hk db. unfold bind. specialize (Hm db).
  destruct (m db) as [[a|e|] db']; simpl in *; try exact Hm.
  apply (R_trans _ _ _ Hm). apply Hk.
Qed.

Lemma respects_try_catch {A : Type} (body : M A) (handler : exn -> M A) :
  respects R body -> (forall e, respects R (handler e)) -> respects R (try_catch body handler).
Proof.
  intros Hbody Hhandler db. unfold try_catch. specialize (Hbody db).
  destruct (body db) as [[a|e|] db']; simpl in *; try exact Hbody.
  apply (R_trans _ _ _ Hbody). apply Hhandler.
Qed.

Lemma respects_protect (authorization : option string) (next : M Response) :
  respects R next -> respects R (protect authorization next).
Proof.
  intros Hnext. unfold protect. destruct authorization as [a|]; [|apply respects_ret].
  destruct (negb (String.eqb a "") && String.prefix "Bearer" a);
    [exact Hnext | apply respects_ret].
Qed.

Lemma respects_update (ref : jsval) (u : Payment.update) :
  route_update u -> respects R (on_payments (Payment.findOneAndUpdate ref u)).
Proof.
  intros Hu db. unfold on_payments.
  pose proof (R_update ref u (payments db) (students db) Hu) as H.
  destruct (Payment.findOneAndUpdate ref u (payments db)) as [o coll]. simpl in *.
  rewrite db_eta in H. exact H.
Qed.

Lemma respects_save (d : Payment.draft) :
  route_draft d -> respects R (on_payments (Payment.save d)).
Proof.
  intros Hd db. unfold on_payments.
  pose proof (R_save d (payments db) (students db) Hd) as H.
  destruct (Payment.save d (payments db)) as [o coll]. simpl in *.
  rewrite db_eta in H. exact H.
Qed.

Lemma respects_student (now : Z) (id : jsval) (u : Student.update) :
  route_mark u -> respects R (on_students (Student.findByIdAndUpdate now id u)).
Proof.
  intros Hu db. unfold on_students.
  pose proof (R_student now id u (students db) (payments db) Hu) as H.
  destruct (Student.findByIdAndUpdate now id u (students db)) as [o coll]. simpl in *.

  rewrite db_eta in H. exact H.
Qed.

Lemma respects_failure (message : string) (error : exn) :
  respects R (failure message error).
Proof. intros db. rewrite failure_frame. apply R_refl. Qed.

Ltac respect :=
  repeat first
    [ apply respects_ret
    | apply respects_failure
    | apply respects_throw
    | apply respects_lift
    | apply respects_lift_students
    | apply respects_student; reflexivity
    | apply respects_update; first [left; reflexivity | right; reflexivity]
    | apply respects_save;
      first [left; split; reflexivity | right; reflexivity]
    | apply respects_protect
    | apply respects_bind; [ | intros ]
    | apply respects_try_catch; [ | intros ]
    | match goal with
      | |- respects _ (if ?c then _ else _) => destruct c
      | |- respects _ (match ?x with _ => _ end) => destruct x
      | |- respects _ (let _ := _ in _) => cbv zeta
      end ].

Lemma initiate_v1_respects env axios_post authorization body :
  respects R (PaymentRoute.initiate_payment env axios_post authorization body).
Proof. unfold PaymentRoute.initiate_payment. respect. Qed.

Lemma initiate_v2_respects env axios_post authorization body :
  respects R (PaymentRouteV2.initiate_payment env axios_post authorization body).
Proof. unfold PaymentRouteV2.initiate_payment. respect. Qed.

Lemma verify_v1_respects env axios_get authorization reference :
  respects R (PaymentRoute.verify_payment env axios_get authorization reference).
Proof. unfold PaymentRoute.verify_payment. respect. Qed.

Lemma verify_v2_respects env axios_get authorization reference :
  respects R (PaymentRouteV2.verify_payment env axios_get authorization reference).
Proof. unfold PaymentRouteV2.verify_payment. respect. Qed.

Lemma webhook_v1_respects secret env signature body :
  respects R (PaymentRoute.webhook secret env signature body).
Proof.
  unfold PaymentRoute.webhook, PaymentRoute.record_success, PaymentRoute.record_failed.
  respect.
Qed.

Lemma webhook_v2_respects secret env signature body :
  respects R (PaymentRouteV2.webhook secret env signature body).
Proof.
  unfold PaymentRouteV2.webhook, PaymentRouteV2.record_success,
    PaymentRouteV2.record_failed.
  respect.
Qed.

Lemma run_snd (m : M Response) (db : Db) : snd (run m db) = snd (m db).
Proof. unfold run. destruct (m db) as [[r|e|] db']; reflexivity. Qed.

Lemma serve_respects (v : variant) (secret : string) (env : Env) (q : request) (db : Db) :
  R db (snd (serve v secret env q db)).
Proof.
  destruct q as [axios_post authorization body | [axios_get authorization reference
                                                   | signature body]];
    destruct v; simpl; rewrite run_snd.
  - apply initiate_v1_respects.
  - apply initiate_v2_respects.
  - apply verify_v1_respects.
  - apply verify_v2_respects.
  - apply webhook_v1_respects.
  - apply webhook_v2_respects.
Qed.

Lemma serve_all_respects (v : variant) (secret : string) (qs : list (Env * request)) :
  forall db, R db (serve_all v secret qs db).
Proof.
  induction qs as [|[env q] rest IH]; intros db; simpl; [apply R_refl|].
  apply (R_trans _ _ _ (serve_respects v secret env q db)). apply IH.
Qed.

End Respects.

(** *** Transactions are only appended *)

Lemma payment_update_first_map {B : Type} (key : Payment.doc -> B) (ref : string)
  (f : Payment.doc -> Payment.doc) (coll : list Payment.doc) :
  (forall p, key (f p) = key p) ->
  map key (snd (Payment.update_first ref f coll)) = map key coll.
Proof.
  intros Hf. induction coll as [|p rest IH]; simpl; [reflexivity|].
  destruct (Payment.has_reference ref p); simpl.
  - rewrite Hf. reflexivity.
  - destruct (Payment.update_first ref f rest) as [found rest']. simpl in *.
    rewrite IH. reflexivity.
Qed.

(** What [findOneAndUpdate] leaves in the collection: the collection
    itself, or the collection with its first match rewritten. *)
Lemma findOneAndUpdate_writes (ref : jsval) (u : Payment.update) (coll : list Payment.doc) :
  snd (Payment.findOneAndUpdate ref u coll) = coll
  \/ exists r paid,
      snd (Payment.findOneAndUpdate ref u coll)
      = snd (Payment.update_first r
               (Payment.apply_update (Payment.u_status u) paid (Payment.u_updatedAt u)) coll).
Proof.
  unfold Payment.findOneAndUpdate.
  destruct (filter_path "paystackReference" (cast_String ref)) as [r|e|];
    destruct (match Payment.u_paidAt u with
              | Some v => obind (update_path "paidAt" (cast_Date v)) (fun d => Ok (Some d))
              | None => Ok None
              end) as [paid|e'|]; try (left; reflexivity).
  right. exists r, paid.
  destruct (Payment.update_first r _ coll) as [found coll']. reflexivity.
Qed.

Lemma findOneAndUpdate_map {B : Type} (key : Payment.doc -> B) (ref : jsval)
  (u : Payment.update) (coll : list Payment.doc) :
  (forall st paid now p, key (Payment.apply_update st paid now p) = key p) ->
  map key (snd (Payment.findOneAndUpdate ref u coll)) = map key coll.
Proof.
  intros Hkey. destruct (findOneAndUpdate_writes ref u coll) as [-> | (r & paid & ->)];
    [reflexivity|].
  apply payment_update_first_map. intros p. apply Hkey.
Qed.

(** What [save] leaves in the collection: the collection itself, or the
    collection followed by the validated document, whose keys are new. *)
Lemma save_writes (d : Payment.draft) (coll : list Payment.doc) :
  snd (Payment.save d coll) = coll
  \/ exists p,
      Payment.validate d = Ok p
      /\ existsb (Payment.has_id (Payment._id p)) coll = false
      /\ existsb (Payment.has_reference (Payment.paystackReference p)) coll = false
      /\ snd (Payment.save d coll) = (coll ++ [p])%list.
Proof.
  unfold Payment.save. destruct (Payment.validate d) as [p|e|]; try (left; reflexivity).
  destruct (existsb (Payment.has_id (Payment._id p)) coll) eqn:Hid; [left; reflexivity|].
  destruct (existsb (Payment.has_reference (Payment.paystackReference p)) coll) eqn:Href;
    [left; reflexivity|].
  right. exists p. repeat split; first [assumption | reflexivity].
Qed.

Lemma only_appends_refl (db : Db) : only_appends db db.
Proof. exists []. simpl. rewrite app_nil_r. reflexivity. Qed.

Lemma only_appends_trans (a b c : Db) :
  only_appends a b -> only_appends b c -> only_appends a c.
Proof.
  intros (x & Hx) (y & Hy). exists (x ++ y)%list.
  rewrite Hy, Hx, map_app, app_assoc. reflexivity.
Qed.

(** X1: whatever requests the payment routes of a variant serve, in
    whatever order, the Transactions stored before are all still stored
    afterwards, in the same order and with the same [_id], student,
    reference, amount, currency, semester, academic year, description and
    creation date; the routes only append Transactions and rewrite
    [status], [paidAt] and [updatedAt]. *)
Theorem X1_routes_only_append_transactions
  (v : variant) (secret : string) (qs : list (Env * request)) (db : Db) :
  exists added,
    map frozen (payments (serve_all v secret qs db))
    = (map frozen (payments db) ++ map frozen added)%list.
Proof.
  apply (serve_all_respects only_appends only_appends_refl only_appends_trans).
  - intros ref u coll others _. exists []. simpl. rewrite app_nil_r.
    apply findOneAndUpdate_map. reflexivity.
  - intros d coll others _. destruct (save_writes d coll) as [-> | (p & _ & _ & _ & ->)].
    + apply only_appends_refl.
    + exists [p]. simpl. rewrite map_app. reflexivity.
  - intros now id u coll others _. exists []. simpl. rewrite app_nil_r. reflexivity.
Qed.

(** *** Students are neither created nor removed *)

Lemma student_update_first_map {B : Type} (key : Student.doc -> B) (id : ObjectId)
  (f : Student.doc -> Student.doc) (coll : list Student.doc) :
  (forall s, key (f s) = key s) ->
  map key (Student.update_first id f coll) = map key coll.
Proof.
  intros Hf. induction coll as [|s rest IH]; simpl; [reflexivity|].
  destruct (Student.has_id id s); simpl; [rewrite Hf | rewrite IH]; reflexivity.
Qed.

Lemma findByIdAndUpdate_map {B : Type} (key : Student.doc -> B) (now : Z) (id : jsval)
  (u : Student.update) (coll : list Student.doc) :
  (forall st sem yr entry t s, key (Student.apply_update st sem yr entry t s) = key s) ->
  map key (snd (Student.findByIdAndUpdate now id u coll)) = map key coll.
Proof.
  intros Hkey. unfold Student.findByIdAndUpdate.
  destruct (filter_path "_id" (cast_ObjectId id)) as [i|e|];
    destruct (update_path "lastPaidSemester" (cast_String (Student.u_lastPaidSemester u)))
      as [sem|e1|];
    destruct (update_path "lastPaidAcademicYear"
                (cast_String (Student.u_lastPaidAcademicYear u))) as [yr|e2|];
    try reflexivity.
  apply student_update_first_map. intros s. apply Hkey.
Qed.

(** X2: whatever requests the payment routes serve, the students are the
    same ones afterwards, in the same order and with the same profile: no
    payment route creates or removes a student, and the only fields of a
    student that a payment route writes are those of the payment
    projection and [updatedAt], which the [timestamps] of the schema sets
    at every update. *)
Theorem X2_routes_keep_the_students
  (v : variant) (secret : string) (qs : list (Env * request)) (db : Db) :
  map outside_projection (students (serve_all v secret qs db))
  = map outside_projection (students db).
Proof.
  apply (serve_all_respects same_students).
  - intros x. reflexivity.
  - intros a b c Hab Hbc. unfold same_students in *. rewrite Hbc. exact Hab.
  - intros ref u coll others _. reflexivity.
  - intros d coll others _. reflexivity.
  - intros now id u coll others _. unfold same_students. cbn [students].
    apply findByIdAndUpdate_map. reflexivity.
Qed.

(** *** References and ids stay unique *)

Lemma keeps_refl (I : Db -> Prop) (db : Db) : keeps I db db.
Proof. intros H. exact H. Qed.

Lemma keeps_trans (I : Db -> Prop) (a b c : Db) :
  keeps I a b -> keeps I b c -> keeps I a c.
Proof. intros Hab Hbc H. exact (Hbc (Hab H)). Qed.

Lemma not_In_reference (ref : string) (coll : list Payment.doc) :
  existsb (Payment.has_reference ref) coll = false ->
  ~ In ref (map Payment.paystackReference coll).
Proof.
  induction coll as [|p rest IH]; simpl; [intros _ H; exact H|].
  unfold Payment.has_reference at 1. intros E. apply orb_false_iff in E.
  destruct E as [Hp Hrest]. intros [H | H].
  - rewrite H, String.eqb_refl in Hp. discriminate.
  - exact (IH Hrest H).
Qed.

Lemma not_In_id (id : ObjectId) (coll : list Payment.doc) :
  existsb (Payment.has_id id) coll = false -> ~ In id (map Payment._id coll).
Proof.
  induction coll as [|p rest IH]; simpl; [intros _ H; exact H|].
  unfold Payment.has_id at 1. intros E. apply orb_false_iff in E.
  destruct E as [Hp Hrest]. intros [H | H].
  - rewrite H, String.eqb_refl in Hp. discriminate.
  - exact (IH Hrest H).
Qed.

Lemma NoDup_snoc {A : Type} (l : list A) (x : A) :
  NoDup l -> ~ In x l -> NoDup (l ++ [x]).
Proof.
  intros Hl Hx. induction Hl as [|a l Ha Hl IH]; simpl.
  - constructor; [intros [] | constructor].
  - constructor.
    + intros H. apply in_app_or in H. destruct H as [H | [H | []]].
      * exact (Ha H).
      * apply Hx. left. symmetry. exact H.
    + apply IH. intros H. apply Hx. right. exact H.
Qed.

(** X3: the payment routes keep references and ids unique: when no two
    stored Transactions share a [paystackReference] or an [_id], the same
    holds after any requests served by a variant. *)
Theorem X3_routes_keep_references_unique
  (v : variant) (secret : string) (qs : list (Env * request)) (db : Db) :
  unique_keys db -> unique_keys (serve_all v secret qs db).
Proof.
  apply (serve_all_respects (keeps unique_keys) (keeps_refl _) (keeps_trans _)).
  - intros ref u coll others _ [Href Hid]. unfold unique_keys in *. cbn [payments] in *.
    rewrite !findOneAndUpdate_map by reflexivity. split; assumption.
  - intros d coll others _ [Href Hid]. unfold unique_keys in *. cbn [payments] in *.
    destruct (save_writes d coll) as [-> | (p & _ & Hnew_id & Hnew_ref & ->)];
      [split; assumption|].
    rewrite !map_app. simpl. split; apply NoDup_snoc; try assumption.
    + apply not_In_reference. exact Hnew_ref.
    + apply not_In_id. exact Hnew_id.
  - intros now id u coll others _ H. exact H.
Qed.

Lemma X3_witness :
  unique_keys
    (serve_all V2 Sample.secret
       [(Sample.env, Initiate Sample.gateway_accepts (Some "Bearer token")
                       (JObj (Sample.request 500000)));
        (Sample.env, Notify (Sample.signed (Sample.charge "charge.success" "ref_777"
                                             (Sample.metadata true))))]
       Sample.db0).
Proof.
  apply X3_routes_keep_references_unique.
  split; simpl; repeat constructor; simpl; intuition.
Defined.

(** *** The states of a Transaction *)

Lemma payment_update_first_Forall (P : Payment.doc -> Prop) (ref : string)
  (f : Payment.doc -> Payment.doc) (coll : list Payment.doc) :
  (forall p, P (f p)) -> Forall P coll -> Forall P (snd (Payment.update_first ref f coll)).
Proof.
  intros Hf. induction 1 as [|p rest Hp Hrest IH]; simpl; [constructor|].
  destruct (Payment.has_reference ref p); simpl.
  - constructor; [apply Hf | exact Hrest].
  - destruct (Payment.update_first ref f rest) as [found rest']. simpl in *.
    constructor; assumption.
Qed.

Ltac validated H :=
  unfold Payment.validate in H;
  repeat match type of H with
         | obind ?x _ = Ok _ => destruct x eqn:?; simpl in H; try discriminate H
         end.

(** A validated document has the status and the payment date of its
    draft. *)
Lemma validate_route_draft (d : Payment.draft) (p : Payment.doc) :
  route_draft d -> Payment.validate d = Ok p -> in_state p.
Proof.
  intros Hd Hv. validated Hv. inversion Hv; subst. unfold in_state. simpl.
  destruct Hd as [[Hst Hpaid] | Hst].
  - match goal with
    | H : required_string "status" _ = Ok _ |- _ => rewrite Hst in H; cbv in H; inversion H
    end.
    match goal with
    | H : optional "paidAt" _ = Ok _ |- _ => rewrite Hpaid in H; cbv in H; inversion H
    end.
    left. split; reflexivity.
  - match goal with
    | H : required_string "status" _ = Ok _ |- _ => rewrite Hst in H; cbv in H; inversion H
    end.
    right. left. reflexivity.
Qed.

(** X4: the payment routes keep every Transaction in one of the three
    states of the reconciliation: [pending] with no payment date,
    [success], or [failed].  When all stored Transactions are in these
    states, they all are after any requests served by a variant. *)
Theorem X4_routes_keep_the_three_states
  (v : variant) (secret : string) (qs : list (Env * request)) (db : Db) :
  Forall in_state (payments db) ->
  Forall in_state (payments (serve_all v secret qs db)).
Proof.
  apply (serve_all_respects (keeps all_in_state) (keeps_refl _) (keeps_trans _)).
  - intros ref u coll others Hu H. unfold all_in_state in *. cbn [payments] in *.
    destruct (findOneAndUpdate_writes ref u coll) as [-> | (r & paid & ->)]; [exact H|].
    apply payment_update_first_Forall; [|exact H].
    intros p. unfold in_state. simpl. right. exact Hu.
  - intros d coll others Hd H. unfold all_in_state in *. cbn [payments] in *.
    destruct (save_writes d coll) as [-> | (p & Hv & _ & _ & ->)]; [exact H|].
    apply Forall_app. split; [exact H|]. constructor; [|constructor].
    exact (validate_route_draft d p Hd Hv).
  - intros now id u coll others _ H. exact H.
Qed.

Lemma X4_witness :
  Forall in_state
    (payments
       (serve_all V1 Sample.secret
          [(Sample.env, Initiate Sample.gateway_accepts (Some "Bearer token")
                          (JObj (Sample.request 500000)));
           (Sample.env, Notify (Sample.signed (Sample.charge "charge.failed" "ref_001"
                                                (Sample.metadata true))))]
          Sample.db0)).
Proof.
  apply X4_routes_keep_the_three_states.
  repeat constructor.
Defined.

(** *** Terminal Transactions stay terminal *)

Lemma payment_update_first_find (ref r : string) (f : Payment.doc -> Payment.doc)
  (coll : list Payment.doc) (p : Payment.doc) :
  (forall q, Payment.has_reference r (f q) = Payment.has_reference r q) ->
  find (Payment.has_reference r) coll = Some p ->
  exists p', find (Payment.has_reference r) (snd (Payment.update_first ref f coll)) = Some p'
             /\ (p' = p \/ p' = f p).
Proof.
  intros Hf. induction coll as [|q rest IH]; simpl; [discriminate|].
  destruct (Payment.has_reference ref q) eqn:Hq; simpl.
  - rewrite Hf. destruct (Payment.has_reference r q) eqn:Hr.
    + intros E; inversion E; subst. exists (f p). split; [reflexivity | right; reflexivity].
    + intros E. exists p. split; [exact E | left; reflexivity].
  - destruct (Payment.has_reference r q) eqn:Hr.
    + intros E; inversion E; subst.
      destruct (Payment.update_first ref f rest) as [found rest']. simpl. rewrite Hr.
      exists p. split; [reflexivity | left; reflexivity].
    + intros E. destruct (IH E) as (p' & Hfind & Hp').
      destruct (Payment.update_first ref f rest) as [found rest']. simpl in *. rewrite Hr.
      exists p'. split; assumption.
Qed.

Lemma find_app_found {A : Type} (f : A -> bool) (l tail : list A) (a : A) :
  find f l = Some a -> find f (l ++ tail) = Some a.
Proof.
  induction l as [|b l IH]; simpl; [discriminate|].
  destruct (f b); [intros E; exact E | exact IH].
Qed.

Lemma stays_terminal_refl (db : Db) : stays_terminal db db.
Proof. intros r p Hp. exists p. repeat split; [exact Hp | intros H; exact H]. Qed.

Lemma stays_terminal_trans (a b c : Db) :
  stays_terminal a b -> stays_terminal b c -> stays_terminal a c.
Proof.
  intros Hab Hbc r p Hp.
  destruct (Hab r p Hp) as (p1 & Hp1 & Hid1 & Ht1).
  destruct (Hbc r p1 Hp1) as (p2 & Hp2 & Hid2 & Ht2).
  exists p2. repeat split; [exact Hp2 | congruence | intros H; exact (Ht2 (Ht1 H))].
Qed.

(** X5: under the payment routes a Transaction never leaves the terminal
    states and never disappears: whatever requests a variant serves, a
    reference that was stored is still stored under the same [_id], and
    if its Transaction was in [success] or [failed] it is in [success] or
    [failed] afterwards (possibly the other one); none goes back to
    [pending]. *)
Theorem X5_terminal_transactions_stay_terminal
  (v : variant) (secret : string) (qs : list (Env * request)) (db : Db)
  (r : string) (p : Payment.doc) :
  stored r db = Some p ->
  exists p', stored r (serve_all v secret qs db) = Some p'
             /\ Payment._id p' = Payment._id p
             /\ (terminal p -> terminal p').
Proof.
  revert r p.
  apply (serve_all_respects stays_terminal stays_terminal_refl stays_terminal_trans).
  - intros ref u coll others Hu r p Hp. unfold stored in *. cbn [payments] in *.
    destruct (findOneAndUpdate_writes ref u coll) as [-> | (r0 & paid & ->)].
    + exists p. repeat split; [exact Hp | intros H; exact H].
    + destruct (payment_update_first_find r0 r
                  (Payment.apply_update (Payment.u_status u) paid (Payment.u_updatedAt u))
                  coll p (fun q => eq_refl) Hp) as (p' & Hfind & [-> | ->]).
      * exists p. repeat split; [exact Hfind | intros H; exact H].
      * exists (Payment.apply_update (Payment.u_status u) paid (Payment.u_updatedAt u) p).
        split; [exact Hfind|]. split; [reflexivity | intros _; exact Hu].
  - intros d coll others _ r p Hp. unfold stored in *. cbn [payments] in *.
    destruct (save_writes d coll) as [-> | (q & _ & _ & _ & ->)].
    + exists p. repeat split; [exact Hp | intros H; exact H].
    + exists p. repeat split; [apply find_app_found; exact Hp | intros H; exact H].
  - intros now id u coll others _ r p Hp. exists p. repeat split; [exact Hp | intros H; exact H].
Qed.

Lemma X5_witness :
  let paid := Notify (Sample.signed (Sample.charge "charge.success" "ref_001"
                                       (Sample.metadata true))) in
  let failed := Notify (Sample.signed (Sample.charge "charge.failed" "ref_002"
                                         (Sample.metadata true))) in
  exists p', stored "ref_002"
               (serve_all V1 Sample.secret [(Sample.env, paid); (Scenario.later, failed)]
                  Scenario.db) = Some p'
             /\ Payment._id p' = Payment._id Scenario.paid
             /\ (terminal Scenario.paid -> terminal p').
Proof.
  intros paid failed.
  apply (X5_terminal_transactions_stay_terminal V1 Sample.secret
           [(Sample.env, paid); (Scenario.later, failed)] Scenario.db "ref_002"
           Scenario.paid).
  reflexivity.
Defined.

(** ** The middleware of the private routes *)

(** X6: [initiate-payment] and [verify-payment] answer 401
    [Not authorized, no token] and write nothing when the request has no
    Authorization header or one that does not start with [Bearer],
    whatever the body, the reference and the gateway.  Both variants. *)
Theorem X6_private_routes_refuse_without_bearer
  (v : variant) (env : Env) (axios_post : jsval -> outcome jsval)
  (axios_get : string -> outcome jsval) (authorization : option string)
  (body : jsval) (reference : string) (db : Db) :
  match authorization with
  | Some a => String.prefix "Bearer" a = false
  | None => True
  end ->
  run (initiate_payment_of v env axios_post authorization body) db
    = (Responded (respond 401 (Message "Not authorized, no token")), db)
  /\ run (verify_payment_of v env axios_get authorization reference) db
    = (Responded (respond 401 (Message "Not authorized, no token")), db).
Proof.
  intros Hauth.
  assert (Hprotect : forall next,
             run (protect authorization next) db
             = (Responded (respond 401 (Message "Not authorized, no token")), db)).
  { intros next. unfold protect. destruct authorization as [a|]; [|reflexivity].
    rewrite Hauth, andb_false_r. reflexivity. }
  split; destruct v; apply Hprotect.
Qed.

Lemma X6_witness :
  run (initiate_payment_of V1 Sample.env Sample.gateway_accepts (Some "Basic dXNlcg")
         (JObj (Sample.request 500000))) Sample.db0
    = (Responded (respond 401 (Message "Not authorized, no token")), Sample.db0)
  /\ run (verify_payment_of V1 Sample.env (fun _ => Ok JNull) (Some "Basic dXNlcg")
            "ref_001") Sample.db0
    = (Responded (respond 401 (Message "Not authorized, no token")), Sample.db0).
Proof.
  apply (X6_private_routes_refuse_without_bearer V1 Sample.env Sample.gateway_accepts
           (fun _ => Ok JNull) (Some "Basic dXNlcg") (JObj (Sample.request 500000))
           "ref_001" Sample.db0).
  reflexivity.
Defined.

Lemma prefix_nonempty (a : string) : String.prefix "Bearer" a = true -> a <> "".
Proof. intros H ->. discriminate H. Qed.

(** X7: the middleware never examines the token: two Authorization headers
    that both start with [Bearer] are served alike by [initiate-payment]
    and by [verify-payment], on every body, reference, gateway and
    database.  Both variants. *)
Theorem X7_token_is_never_examined
  (v : variant) (env : Env) (axios_post : jsval -> outcome jsval)
  (axios_get : string -> outcome jsval) (a b : string)
  (body : jsval) (reference : string) (db : Db) :
  String.prefix "Bearer" a = true ->
  String.prefix "Bearer" b = true ->
  run (initiate_payment_of v env axios_post (Some a) body) db
    = run (initiate_payment_of v env axios_post (Some b) body) db
  /\ run (verify_payment_of v env axios_get (Some a) reference) db
    = run (verify_payment_of v env axios_get (Some b) reference) db.
Proof.
  intros Ha Hb.
  assert (Hauth : forall c, String.prefix "Bearer" c = true -> authorized (Some c)).
  { intros c Hc. exists c. repeat split; [exact (prefix_nonempty c Hc) | exact Hc]. }
  split; destruct v; unfold initiate_payment_of, verify_payment_of,
    PaymentRoute.initiate_payment, PaymentRouteV2.initiate_payment,
    PaymentRoute.verify_payment, PaymentRouteV2.verify_payment;
    rewrite (protect_authorized _ _ (Hauth a Ha)), (protect_authorized _ _ (Hauth b Hb));
    reflexivity.
Qed.

Lemma X7_witness :
  run (initiate_payment_of V2 Sample.env Sample.gateway_accepts (Some "Bearer")
         (JObj (Sample.request 500000))) Sample.db0
    = run (initiate_payment_of V2 Sample.env Sample.gateway_accepts
             (Some "Bearer eyJhbGciOiJIUzI1NiJ9") (JObj (Sample.request 500000))) Sample.db0
  /\ run (verify_payment_of V2 Sample.env (fun _ => Ok JNull) (Some "Bearer") "ref_001")
         Sample.db0
    = run (verify_payment_of V2 Sample.env (fun _ => Ok JNull)
             (Some "Bearer eyJhbGciOiJIUzI1NiJ9") "ref_001") Sample.db0.
Proof.
  apply (X7_token_is_never_examined V2 Sample.env Sample.gateway_accepts
           (fun _ => Ok JNull) "Bearer" "Bearer eyJhbGciOiJIUzI1NiJ9"
           (JObj (Sample.request 500000)) "ref_001" Sample.db0); reflexivity.
Defined.

(** ** Client confirmation without a stored record, first variant *)

(** X8: in [Routes/PaymentRoute.js], when the gateway reports success and
    no Transaction is stored under the reference, reading [_id] of the
    [null] result throws: the answer is 500 [Failed to verify payment.]
    and nothing is written, the student is not marked paid. *)
Theorem X8_verify_v1_without_record_writes_nothing
  (env : Env) (axios_get : string -> outcome jsval) (authorization : option string)
  (r : string) (sid : ObjectId) (sem yr : string) (paid : option JsDate) (db : Db) :
  authorized authorization ->
  provider_success sid sem yr paid (axios_get r) ->
  existsb (Payment.has_reference r) (payments db) = false ->
  run (PaymentRoute.verify_payment env axios_get authorization r) db
  = (Responded (respond 500
       (MessageError "Failed to verify payment."
          (TypeError "Cannot read properties of null (reading '_id')"))), db).
Proof.
  intros Hauth (response & data & Hget & Hdata & Hstatus & metadata & student_id
                & Hmeta & Hsid & Hcast & Hsem & Hsem0 & Hyr & Hyr0 & Hpaid) Habsent.
  unfold run, PaymentRoute.verify_payment.
  rewrite (protect_authorized _ _ Hauth).
  unfold try_catch.
  rewrite (bind_lift_Ok _ _ _ _ Hget), (bind_lift_Ok _ _ _ _ Hdata).
  rewrite (status_success_truthy _ Hstatus).
  rewrite (bind_lift_Ok _ _ _ _ Hstatus).
  change (strict_eq_str (JStr "success") "success") with true. cbn [andb].
  rewrite (bind_lift_Ok _ _ _ _ Hmeta).
  rewrite (bind_lift_Ok _ _ _ _ Hsid), (bind_lift_Ok _ _ _ _ Hsem).
  rewrite (bind_lift_Ok _ _ _ _ Hyr).
  unfold bind, on_payments.
  rewrite (findOneAndUpdate_success_absent _ _ _ _ _ Hpaid Habsent).
  cbn. rewrite db_eta. reflexivity.
Qed.

Lemma X8_witness :
  let confirmed := fun _ : string =>
    Ok (JObj [("status", JBool true);
              ("data", JObj [("status", JStr "success");
                             ("paid_at", JStr "2025-06-15T12:00:00.000Z");
                             ("metadata", Sample.metadata true)])]) in
  run (PaymentRoute.verify_payment Sample.env confirmed (Some "Bearer token") "ref_404")
      Sample.db0
  = (Responded (respond 500
       (MessageError "Failed to verify payment."
          (TypeError "Cannot read properties of null (reading '_id')"))), Sample.db0).
Proof.
  intros confirmed.
  apply (X8_verify_v1_without_record_writes_nothing Sample.env confirmed
           (Some "Bearer token") "ref_404" Sample.student_id "Fall" "2025/2026"
           (Some (DateOfString "2025-06-15T12:00:00.000Z")) Sample.db0).
  - exists "Bearer token". repeat split; try reflexivity; discriminate.
  - do 2 eexists. repeat split; try reflexivity.
    do 2 eexists. repeat split; try reflexivity; discriminate.
  - reflexivity.
Defined.

(** ** Initiation: the edges *)

Section InitiateEdges.

Variables (v : variant) (env : Env) (axios_post : jsval -> outcome jsval).
Variables (authorization : option string) (fields : list (string * jsval)) (db : Db).
Variable n : Z.
Hypothesis Hauth : authorized authorization.
Hypothesis Hpresent :
  truthy (lookup_field "amount" fields) && truthy (lookup_field "studentId" fields)
  && truthy (lookup_field "semester" fields) && truthy (lookup_field "academicYear" fields)
  && truthy (lookup_field "email" fields) = true.
Hypothesis Hamount : lookup_field "amount" fields = JNum n.
Hypothesis Hpositive : (0 < n)%Z.

Ltac enter :=
  pose proof (present_guard fields Hpresent) as Hguard;
  pose proof (positive_amount fields n Hamount Hpositive) as Hle;
  destruct v; unfold initiate_payment_of, PaymentRoute.initiate_payment,
    PaymentRouteV2.initiate_payment;
    rewrite (protect_authorized _ _ Hauth);
    cbn [get]; rewrite !(run_bind_lift_Ok _ _ _ _ eq_refl);
    rewrite Hguard;
    rewrite (run_bind_lift_Ok _ _ _ _ Hle);
    unfold run, try_catch, bind, lift_students, on_payments.

(** A student id that is not the text of an ObjectId. *)
Lemma initiate_malformed_student_id :
  cast_ObjectId (lookup_field "studentId" fields) = Invalid ->
  run (initiate_payment_of v env axios_post authorization (JObj fields)) db
  = (Responded (respond 500 (MessageError "Failed to initiate payment." (CastError "_id"))),
     db).
Proof.
  intros Hcast.
  assert (Hfind : Student.findById (lookup_field "studentId" fields) (students db)
                  = Throw (CastError "_id")).
  { unfold Student.findById. rewrite Hcast. reflexivity. }
  enter; rewrite Hfind; reflexivity.
Qed.

Variables (sid : ObjectId) (s : Student.doc).
Hypothesis Hsafe : safe_integer (n * 100) = true.
Hypothesis Hsid : cast_ObjectId (lookup_field "studentId" fields) = Value sid.
Hypothesis Hstudent : student sid db = Some s.

Variable data : jsval.
Hypothesis Hgateway : axios_post (initialize_request v fields n s) = Ok data.


Variables (accepted paystackData : jsval).
Hypothesis Haccepted : get data "status" = Ok accepted.
Hypothesis Haccepted_true : truthy accepted = true.
Hypothesis Hdata : get data "data" = Ok paystackData.


End InitiateEdges.

Section InitiateDuplicate.

Variables (v : variant) (env : Env) (axios_post : jsval -> outcome jsval).
Variables (authorization : option string) (fields : list (string * jsval)) (db : Db).
Variables (n : Z) (sid : ObjectId) (s : Student.doc) (sem yr d : string).
Variables (data accepted paystackData : jsval) (reference : string).
Hypothesis Hauth : authorized authorization.
Hypothesis Hvalid : valid_initiation fields n.
Hypothesis Hsid : cast_ObjectId (lookup_field "studentId" fields) = Value sid.
Hypothesis Hstudent : student sid db = Some s.
Hypothesis Hsem : lookup_field "semester" fields = JStr sem.
Hypothesis Hyr : lookup_field "academicYear" fields = JStr yr.
Hypothesis Hdescription :
  js_or (lookup_field "description" fields)
        (fee_payment_for (lookup_field "semester" fields)
                         (lookup_field "academicYear" fields)) = JStr d.
Hypothesis Hgateway : axios_post (initialize_request v fields n s) = Ok data.
Hypothesis Haccepted : get data "status" = Ok accepted.
Hypothesis Haccepted_true : truthy accepted = true.
Hypothesis Hdata : get data "data" = Ok paystackData.
Hypothesis Hreference : get paystackData "reference" = Ok (JStr reference).
Hypothesis Hreference0 : reference <> "".
Hypothesis Hfresh : existsb (Payment.has_id (new_ObjectId env)) (payments db) = false.
Hypothesis Hstored : existsb (Payment.has_reference reference) (payments db) = true.

Lemma save_duplicate :
  Payment.save
    (Payment.new_ (new_ObjectId env) (Date_now env)
       (pending_payment s (JStr reference) (n * 100) (lookup_field "semester" fields)
          (lookup_field "academicYear" fields) (lookup_field "description" fields)))
    (payments db)
  = (Throw (DuplicateKey "paystackReference"), payments db).
Proof.
  destruct Hvalid as (Hpresent & Hamount & Hpositive & Hsafe).
  assert (Hsem0 : sem <> "").
  { apply truthy_nonempty. rewrite <- Hsem.
    destruct (truthy (lookup_field "amount" fields)),
      (truthy (lookup_field "studentId" fields)),
      (truthy (lookup_field "semester" fields)); simpl in *; congruence. }
  assert (Hyr0 : yr <> "").
  { apply truthy_nonempty. rewrite <- Hyr.
    destruct (truthy (lookup_field "amount" fields)),
      (truthy (lookup_field "studentId" fields)),
      (truthy (lookup_field "semester" fields)),
      (truthy (lookup_field "academicYear" fields)); simpl in *; congruence. }
  assert (Hid : cast_ObjectId (JStr (Student._id s)) = Value sid).
  { rewrite (find_has_id _ _ _ Hstudent). exact (cast_ObjectId_canonical _ _ Hsid). }
  unfold Payment.save, Payment.validate, Payment.new_, pending_payment.
  cbn [Payment.draft_fields Payment.draft_id Payment.f_studentId Payment.f_paystackReference
       Payment.f_amount Payment.f_currency Payment.f_status Payment.f_semester
       Payment.f_academicYear Payment.f_description Payment.f_paidAt Payment.f_createdAt
       Payment.f_updatedAt].
  rewrite Hid, Hdescription, Hsem, Hyr.
  cbn [cast_String cast_Number cast_Date required optional obind Payment.with_default].
  rewrite !Date_now_time.
  rewrite !required_string_nonempty by (assumption || discriminate).
  cbn [required obind Payment._id Payment.paystackReference].
  rewrite Hfresh, Hstored. reflexivity.
Qed.

Lemma initiate_duplicate_reference :
  run (initiate_payment_of v env axios_post authorization (JObj fields)) db
  = (Responded
       match v with
       | V1 => respond 500 (MessageError "Failed to initiate payment."
                              (DuplicateKey "paystackReference"))
       | V2 => respond 409 (MessageError
                 "A payment for this reference already exists or a unique constraint was violated."
                 (DuplicateKey "paystackReference"))
       end, db).
Proof.
  pose proof save_duplicate as Hsave.
  destruct Hvalid as (Hpresent & Hamount & Hpositive & Hsafe).
  pose proof (present_guard fields Hpresent) as Hguard.
  pose proof (positive_amount fields n Hamount Hpositive) as Hle.
  pose proof (found_student fields db sid Hsid s Hstudent) as Hfind.
  pose proof (rounded _ n Hamount Hpositive Hsafe) as Hround.
  pose proof (truthy_field_object _ _ _ Haccepted Haccepted_true) as Htruthy.
  pose proof (nonempty_truthy _ Hreference0) as Href_truthy.
  pose proof Hgateway as Hpost. unfold initialize_request in Hpost.
  destruct v; unfold initiate_payment_of, PaymentRoute.initiate_payment,
    PaymentRouteV2.initiate_payment;
    rewrite (protect_authorized _ _ Hauth);
    cbn [get]; rewrite !(run_bind_lift_Ok _ _ _ _ eq_refl);
    rewrite Hguard;
    rewrite (run_bind_lift_Ok _ _ _ _ Hle);
    unfold run, try_catch, bind, lift_students, on_payments; rewrite Hfind;
    unfold lift; rewrite Hround, Hpost, Htruthy;
    rewrite Haccepted, Haccepted_true, Hdata, Hreference;
    rewrite ?Href_truthy; cbn [negb];
    rewrite Hsave; cbn; rewrite db_eta; reflexivity.
Qed.

End InitiateDuplicate.

(** X9: a valid initiation request whose [studentId] is not the text of
    an ObjectId does not get a 404: the lookup throws a cast error, the
    answer is 500 [Failed to initiate payment.] and nothing is written.
    Both variants. *)
Theorem X9_initiate_with_malformed_student_id
  (v : variant) (env : Env) (axios_post : jsval -> outcome jsval)
  (authorization : option string) (fields : list (string * jsval)) (n : Z) (db : Db) :
  authorized authorization ->
  valid_initiation fields n ->
  cast_ObjectId (lookup_field "studentId" fields) = Invalid ->
  run (initiate_payment_of v env axios_post authorization (JObj fields)) db
  = (Responded (respond 500 (MessageError "Failed to initiate payment." (CastError "_id"))),
     db).
Proof.
  intros Hauth (Hpresent & Hamount & Hpositive & _) Hcast.
  exact (initiate_malformed_student_id v env axios_post authorization fields db n Hauth
           Hpresent Hamount Hpositive Hcast).
Qed.

Lemma X9_witness :
  let fields := [("amount", JNum 500000); ("studentId", JStr "alice");
                 ("semester", JStr "Fall"); ("academicYear", JStr "2025/2026");
                 ("email", JStr "alice@campus.example")] in
  run (initiate_payment_of V1 Sample.env Sample.gateway_accepts (Some "Bearer token")
         (JObj fields)) Sample.db0
  = (Responded (respond 500 (MessageError "Failed to initiate payment." (CastError "_id"))),
     Sample.db0).
Proof.
  intros fields.
  apply (X9_initiate_with_malformed_student_id V1 Sample.env Sample.gateway_accepts
           (Some "Bearer token") fields 500000 Sample.db0).
  - exact sample_authorized.
  - repeat split; try reflexivity.
  - reflexivity.
Defined.


Lemma sample_valid_initiation : valid_initiation (Sample.request 500000) 500000.
Proof. repeat split; reflexivity. Qed.




(** X12: when the gateway answers an initiation with a reference that is
    already stored, the unique index refuses the new document and no
    Transaction is written: the second variant answers 409, the first
    500. *)
Theorem X12_initiate_with_stored_reference
  (v : variant) (env : Env) (axios_post : jsval -> outcome jsval)
  (authorization : option string) (fields : list (string * jsval)) (n : Z)
  (sid : ObjectId) (s : Student.doc) (sem yr d : string)
  (data accepted paystackData : jsval) (reference : string) (db : Db) :
  authorized authorization ->
  valid_initiation fields n ->
  cast_ObjectId (lookup_field "studentId" fields) = Value sid ->
  student sid db = Some s ->
  lookup_field "semester" fields = JStr sem ->
  lookup_field "academicYear" fields = JStr yr ->
  js_or (lookup_field "description" fields)
        (fee_payment_for (lookup_field "semester" fields)
                         (lookup_field "academicYear" fields)) = JStr d ->
  axios_post (initialize_request v fields n s) = Ok data ->
  get data "status" = Ok accepted ->
  truthy accepted = true ->
  get data "data" = Ok paystackData ->
  get paystackData "reference" = Ok (JStr reference) ->
  reference <> "" ->
  existsb (Payment.has_id (new_ObjectId env)) (payments db) = false ->
  existsb (Payment.has_reference reference) (payments db) = true ->
  run (initiate_payment_of v env axios_post authorization (JObj fields)) db
  = (Responded
       match v with
       | V1 => respond 500 (MessageError "Failed to initiate payment."
                              (DuplicateKey "paystackReference"))
       | V2 => respond 409 (MessageError
                 "A payment for this reference already exists or a unique constraint was violated."
                 (DuplicateKey "paystackReference"))
       end, db).
Proof.
  intros Hauth Hvalid Hsid Hs Hsem Hyr Hd Hpost Hacc Htrue Hdata Href Href0 Hfresh Hstored.
  exact (initiate_duplicate_reference v env axios_post authorization fields db n sid s sem
           yr d data accepted paystackData reference Hauth Hvalid Hsid Hs Hsem Hyr Hd Hpost
           Hacc Htrue Hdata Href Href0 Hfresh Hstored).
Qed.

Lemma X12_witness :
  run (initiate_payment_of V2 Sample.env Scenario.gateway_repeats (Some "Bearer token")
         (JObj (Sample.request 500000))) Sample.db0
  = (Responded (respond 409 (MessageError
       "A payment for this reference already exists or a unique constraint was violated."
       (DuplicateKey "paystackReference"))), Sample.db0).
Proof.
  apply (X12_initiate_with_stored_reference V2 Sample.env Scenario.gateway_repeats
           (Some "Bearer token") (Sample.request 500000) 500000 Sample.student_id
           Sample.alice "Fall" "2025/2026" "Fee payment for Fall 2025/2026"
           (JObj [("status", JBool true); ("data", JObj [("reference", JStr "ref_001")])])
           (JBool true) (JObj [("reference", JStr "ref_001")]) "ref_001" Sample.db0
           sample_authorized sample_valid_initiation); try reflexivity.
  discriminate.
Defined.

(** ** The webhook for a reference that is not stored *)

(** X13: a verified [charge.success] event for a reference that is not
    stored makes the webhook create the Transaction in [success] from the
    event (student, reference, amount, currency, term, description and
    [paid_at] of the event, the fresh [_id]), append it, mark the student
    paid with that [_id] and answer 200.  The second variant does so for
    every such event; the first one when the metadata carries a
    description. *)
Theorem X13_webhook_reconstructs_unknown_reference
  (v : variant) (secret : string) (env : Env) (signature : option string) (body : jsval)
  (r : string) (sid : ObjectId) (sem yr : string) (paid : option JsDate)
  (amount : Z) (currency description : string) (db : Db) :
  signature_verifies secret body signature = true ->
  success_event r sid sem yr paid body ->
  priced amount currency description sem yr body ->
  (v = V1 -> described body = true) ->
  r <> "" ->
  existsb (Payment.has_reference r) (payments db) = false ->
  existsb (Payment.has_id (new_ObjectId env)) (payments db) = false ->
  run (webhook_of v secret env signature body) db
  = (Responded (respond 200 Received),
     {| payments := (payments db
                     ++ [reconstructed env sid r amount currency sem yr description paid])%list;
        students := Student.update_first sid
                      (Student.apply_update "paid" (Some sem) (Some yr)
                         (Some (new_ObjectId env)) (Date_now env 3))
                      (students db) |}).
Proof.
  intros Hsig (data & Hev & Hdata & Href & metadata & student_id
               & Hmeta & Hsid & Hcast & Hsem & Hsem0 & Hyr & Hyr0 & Hpaid)
         (data' & metadata' & Hdata' & Hamount & Hcurrency & Hcurrency0 & Hmeta' & Hdesc)
         Hdescribed Hr0 Habsent Hfresh.
  rewrite Hdata in Hdata'. inversion Hdata'; subst data'.
  rewrite Hmeta in Hmeta'. inversion Hmeta'; subst metadata'.
  destruct v; simpl webhook_of.
  - specialize (Hdescribed eq_refl). unfold described in Hdescribed.
    rewrite (get_Ok_get_opt _ _ _ Hdata), (get_Ok_get_opt _ _ _ Hmeta) in Hdescribed.
    unfold js_or in Hdesc. rewrite Hdescribed in Hdesc.
    assert (Hdesc0 : description <> "").
    { apply truthy_nonempty. rewrite <- Hdesc. exact Hdescribed. }
    eapply reconstruction_v1_with_description; eassumption.
  - eapply reconstruction_v2; eassumption.
Qed.

Lemma sample_success_event (r : string) (with_description : bool) :
  success_event r Sample.student_id "Fall" "2025/2026"
    (Some (DateOfString "2025-06-15T12:00:00.000Z"))
    (Sample.charge "charge.success" r (Sample.metadata with_description)).
Proof.
  eexists. repeat split; try reflexivity.
  do 2 eexists. repeat split; try reflexivity; discriminate.
Qed.

Lemma sample_signed (body : jsval) (text : string) :
  JSON_stringify body = Ok (Some text) ->
  signature_verifies Sample.secret body (Sample.sign body) = true.
Proof.
  intros E. unfold signature_verifies, body_hash, Sample.sign. rewrite E. simpl.
  apply String.eqb_refl.
Qed.

Lemma X13_witness :
  let body := Sample.charge "charge.success" "ref_404" (Sample.metadata false) in
  run (webhook_of V2 Sample.secret Sample.env (Sample.sign body) body) Sample.db0
  = (Responded (respond 200 Received),
     {| payments := (payments Sample.db0
                     ++ [reconstructed Sample.env Sample.student_id "ref_404" 50000000 "NGN"
                           "Fall" "2025/2026" "Fee payment for Fall 2025/2026"
                           (Some (DateOfString "2025-06-15T12:00:00.000Z"))])%list;
        students := Student.update_first Sample.student_id
                      (Student.apply_update "paid" (Some "Fall") (Some "2025/2026")
                         (Some (new_ObjectId Sample.env)) (Date_now Sample.env 3))
                      (students Sample.db0) |}).
Proof.
  intros body.
  apply (X13_webhook_reconstructs_unknown_reference V2 Sample.secret Sample.env
           (Sample.sign body) body "ref_404" Sample.student_id "Fall" "2025/2026"
           (Some (DateOfString "2025-06-15T12:00:00.000Z")) 50000000 "NGN"
           "Fee payment for Fall 2025/2026" Sample.db0).
  - exact (sample_signed body _ eq_refl).
  - exact (sample_success_event "ref_404" false).
  - do 2 eexists. repeat split; try reflexivity. discriminate.
  - discriminate.
  - discriminate.
  - reflexivity.
  - reflexivity.
Defined.

(** ** Reports of success that repeat *)

Lemma payment_update_first_twice (ref : string) (f g : Payment.doc -> Payment.doc)
  (coll : list Payment.doc) :
  (forall q, Payment.has_reference ref (f q) = Payment.has_reference ref q) ->
  (forall q, g (f q) = g q) ->
  snd (Payment.update_first ref g (snd (Payment.update_first ref f coll)))
  = snd (Payment.update_first ref g coll).
Proof.
  intros Hf Hgf. induction coll as [|q rest IH]; simpl; [reflexivity|].
  destruct (Payment.has_reference ref q) eqn:Hq; simpl.
  - rewrite Hf, Hq. simpl. rewrite Hgf. reflexivity.
  - destruct (Payment.update_first ref f rest) as [found rest'] eqn:E1. simpl in *.
    rewrite Hq. destruct (Payment.update_first ref g rest') as [found' rest''] eqn:E2.
    destruct (Payment.update_first ref g rest) as [found0 rest0] eqn:E3.
    simpl in *. rewrite IH. reflexivity.
Qed.

Lemma student_update_first_twice (id : ObjectId) (f g : Student.doc -> Student.doc)
  (coll : list Student.doc) :
  (forall q, Student.has_id id (f q) = Student.has_id id q) ->
  (forall q, g (f q) = g q) ->
  Student.update_first id g (Student.update_first id f coll)
  = Student.update_first id g coll.
Proof.
  intros Hf Hgf. induction coll as [|q rest IH]; simpl; [reflexivity|].
  destruct (Student.has_id id q) eqn:Hq; simpl.
  - rewrite Hf, Hq, Hgf. reflexivity.
  - rewrite Hq, IH. reflexivity.
Qed.

Lemma existsb_snoc {A : Type} (f : A -> bool) (l : list A) (x : A) :
  f x = true -> existsb f (l ++ [x]) = true.
Proof.
  intros Hx. rewrite existsb_app. simpl. rewrite Hx. apply orb_true_iff. right. reflexivity.
Qed.

(** [$addToSet] of an entry twice is [$addToSet] of it once. *)
Lemma addToSet_twice (x : option ObjectId) (l : list (option ObjectId)) :
  Student.addToSet x (Student.addToSet x l) = Student.addToSet x l.
Proof.
  unfold Student.addToSet. destruct (existsb (Student.same_entry x) l) eqn:E.
  - rewrite E. reflexivity.
  - rewrite (existsb_snoc _ _ _ (same_entry_refl x)). reflexivity.
Qed.

(** X14: a report of success that follows another one for the same
    stored reference and the same student absorbs it: the database after
    both is the database that the later report alone would have left,
    whichever of the two routes sends each (a retried webhook, or the
    webhook after the client's verification), with whatever term and
    [paid_at] each reports. *)
Theorem X14_later_success_report_absorbs_the_earlier
  (v : variant) (secret : string) (env1 env2 : Env) (t1 t2 : trigger)
  (r : string) (sid : ObjectId) (sem1 yr1 sem2 yr2 : string) (paid1 paid2 : option JsDate)
  (p : Payment.doc) (db : Db) :
  stored r db = Some p ->
  success_trigger secret r sid sem1 yr1 paid1 t1 ->
  success_trigger secret r sid sem2 yr2 paid2 t2 ->
  snd (deliver v secret env2 t2 (snd (deliver v secret env1 t1 db)))
  = snd (deliver v secret env2 t2 db).
Proof.
  intros Hstored H1 H2.
  rewrite (deliver_success_stored v secret env1 t1 r sid sem1 yr1 paid1 p db Hstored H1).
  assert (Hstored1 : stored r (settled r sid sem1 yr1 paid1 env1 p db)
                     = Some (Payment.apply_update "success" (Some paid1) (Date_now env1 0) p)).
  { unfold stored, settled. cbn [payments]. apply stored_after_update. exact Hstored. }
  rewrite (deliver_success_stored v secret env2 t2 r sid sem2 yr2 paid2 _ _ Hstored1 H2).
  rewrite (deliver_success_stored v secret env2 t2 r sid sem2 yr2 paid2 p db Hstored H2).
  unfold settled. cbn [payments students Payment.apply_update Payment._id]. f_equal.
  - apply payment_update_first_twice; intros q; reflexivity.
  - apply student_update_first_twice; intros q; [reflexivity|].
    unfold Student.apply_update. cbn [Student._id Student.profile Student.paymentHistory].
    rewrite addToSet_twice. reflexivity.
Qed.

Lemma sample_confirmed_trigger (r : string) :
  success_trigger Sample.secret r Sample.student_id "Spring" "2025/2026"
    (Some (DateOfString "2025-07-01T08:30:00.000Z"))
    (ClientVerify
       (fun _ => Ok (JObj [("status", JBool true);
                           ("data", JObj [("status", JStr "success");
                                          ("paid_at", JStr "2025-07-01T08:30:00.000Z");
                                          ("metadata", Sample.metadata_for "Spring" true)])]))
       (Some "Bearer token") r).
Proof.
  split; [reflexivity|]. split; [exact sample_authorized|].
  do 2 eexists. repeat split; try reflexivity.
  do 2 eexists. repeat split; try reflexivity; discriminate.
Qed.

Lemma sample_success_trigger (r : string) :
  success_trigger Sample.secret r Sample.student_id "Fall" "2025/2026"
    (Some (DateOfString "2025-06-15T12:00:00.000Z"))
    (Sample.signed (Sample.charge "charge.success" r (Sample.metadata true))).
Proof.
  split; [|exact (sample_success_event r true)].
  unfold Sample.signed, Sample.charge, Sample.charge_at.
  eapply sample_signed. reflexivity.
Qed.

Lemma X14_witness :
  let webhook := Sample.signed (Sample.charge "charge.success" "ref_001"
                                  (Sample.metadata true)) in
  let confirm :=
    ClientVerify
      (fun _ => Ok (JObj [("status", JBool true);
                          ("data", JObj [("status", JStr "success");
                                         ("paid_at", JStr "2025-07-01T08:30:00.000Z");
                                         ("metadata", Sample.metadata_for "Spring" true)])]))
      (Some "Bearer token") "ref_001" in
  snd (deliver V1 Sample.secret Scenario.later confirm
         (snd (deliver V1 Sample.secret Sample.env webhook Sample.db0)))
  = snd (deliver V1 Sample.secret Scenario.later confirm Sample.db0).
Proof.
  intros webhook confirm.
  apply (X14_later_success_report_absorbs_the_earlier V1 Sample.secret Sample.env
           Scenario.later webhook confirm "ref_001" Sample.student_id
           "Fall" "2025/2026" "Spring" "2025/2026"
           (Some (DateOfString "2025-06-15T12:00:00.000Z"))
           (Some (DateOfString "2025-07-01T08:30:00.000Z")) Sample.pending Sample.db0).
  - reflexivity.
  - exact (sample_success_trigger "ref_001").
  - exact (sample_confirmed_trigger "ref_001").
Defined.

(** ** What a report leaves alone *)

Lemma payment_update_first_other (r r' : string) (f : Payment.doc -> Payment.doc)
  (coll : list Payment.doc) :
  r' <> r ->
  (forall q, Payment.has_reference r' (f q) = Payment.has_reference r' q) ->
  find (Payment.has_reference r') (snd (Payment.update_first r f coll))
  = find (Payment.has_reference r') coll.
Proof.
  intros Hne Hf. induction coll as [|q rest IH]; simpl; [reflexivity|].
  destruct (Payment.has_reference r q) eqn:Hq; simpl.
  - rewrite Hf. unfold Payment.has_reference in Hq |- *.
    apply String.eqb_eq in Hq. rewrite Hq.
    destruct (String.eqb_spec r r') as [E|_]; [symmetry in E; contradiction | reflexivity].
  - destruct (Payment.update_first r f rest) as [found rest']. simpl in *.
    rewrite IH. reflexivity.
Qed.

Lemma student_update_first_other (id id' : ObjectId) (f : Student.doc -> Student.doc)
  (coll : list Student.doc) :
  id' <> id ->
  (forall q, Student.has_id id' (f q) = Student.has_id id' q) ->
  find (Student.has_id id') (Student.update_first id f coll)
  = find (Student.has_id id') coll.
Proof.
  intros Hne Hf. induction coll as [|q rest IH]; simpl; [reflexivity|].
  destruct (Student.has_id id q) eqn:Hq; simpl.
  - rewrite Hf. unfold Student.has_id in Hq |- *.
    apply String.eqb_eq in Hq. rewrite Hq.
    destruct (String.eqb_spec id id') as [E|_]; [symmetry in E; contradiction | reflexivity].
  - rewrite IH. reflexivity.
Qed.

(** X15: a report for a stored reference touches that reference and the
    student it names, and nothing else: the Transaction stored under any
    other reference and every other student are afterwards what they
    were.  For a [charge.failed] delivery and for a report of success, by
    either route, in both variants. *)
Theorem X15_report_leaves_other_records_alone
  (v : variant) (secret : string) (env : Env) (t : trigger) (r r' : string)
  (sid sid' : ObjectId) (sem yr : string) (paid : option JsDate)
  (p : Payment.doc) (db : Db) :
  stored r db = Some p ->
  failed_trigger secret r t \/ success_trigger secret r sid sem yr paid t ->
  r' <> r ->
  sid' <> sid ->
  stored r' (snd (deliver v secret env t db)) = stored r' db
  /\ student sid' (snd (deliver v secret env t db)) = student sid' db.
Proof.
  intros Hstored [Ht | Ht] Hr Hsid.
  - rewrite (deliver_failed_stored v secret env t r p db Hstored Ht).
    unfold stored, student, marked_failed. cbn [payments students]. split; [|reflexivity].
    apply payment_update_first_other; [exact Hr | intros q; reflexivity].
  - rewrite (deliver_success_stored v secret env t r sid sem yr paid p db Hstored Ht).
    unfold stored, student, settled. cbn [payments students]. split.
    + apply payment_update_first_other; [exact Hr | intros q; reflexivity].
    + apply student_update_first_other; [exact Hsid | intros q; reflexivity].
Qed.

Lemma X15_witness :
  let report := Sample.signed (Sample.charge "charge.success" "ref_001"
                                 (Sample.metadata true)) in
  stored "ref_002" (snd (deliver V2 Sample.secret Sample.env report Scenario.db))
  = stored "ref_002" Scenario.db
  /\ student Scenario.other_id (snd (deliver V2 Sample.secret Sample.env report Scenario.db))
     = student Scenario.other_id Scenario.db.
Proof.
  intros report.
  apply (X15_report_leaves_other_records_alone V2 Sample.secret Sample.env report
           "ref_001" "ref_002" Sample.student_id Scenario.other_id "Fall" "2025/2026"
           (Some (DateOfString "2025-06-15T12:00:00.000Z")) Sample.pending Scenario.db).
  - reflexivity.
  - right. exact (sample_success_trigger "ref_001").
  - discriminate.
  - discriminate.
Defined.

(** ** A report of success that names no student of the store *)

Lemma student_update_first_absent (id : ObjectId) (f : Student.doc -> Student.doc)
  (coll : list Student.doc) :
  find (Student.has_id id) coll = None -> Student.update_first id f coll = coll.
Proof.
  induction coll as [|q rest IH]; simpl; [reflexivity|].
  destruct (Student.has_id id q); [discriminate|].
  intros E. rewrite (IH E). reflexivity.
Qed.

(** X16: a report of success for a stored reference whose metadata names
    a well-formed student id that no student has is answered 200 like any
    other: the Transaction goes to [success] with the reported [paidAt],
    and no student is written. *)
Theorem X16_success_for_a_student_that_does_not_exist
  (v : variant) (secret : string) (env : Env) (t : trigger) (r : string)
  (sid : ObjectId) (sem yr : string) (paid : option JsDate) (p : Payment.doc) (db : Db) :
  stored r db = Some p ->
  success_trigger secret r sid sem yr paid t ->
  student sid db = None ->
  (exists answer, fst (deliver v secret env t db) = Responded (respond 200 answer))
  /\ stored r (snd (deliver v secret env t db))
     = Some (Payment.apply_update "success" (Some paid) (Date_now env 0) p)
  /\ students (snd (deliver v secret env t db)) = students db.
Proof.
  intros Hstored Ht Hnone. split; [|split].
  - destruct t as [axios_get authorization reference | signature body].
    + destruct Ht as (-> & Hauth & Hanswer). destruct v; simpl.
      * rewrite (success_verify_v1_stored env r sid sem yr paid p db axios_get authorization
                   Hstored Hauth Hanswer). eexists. reflexivity.
      * rewrite (success_verify_v2_stored env r sid sem yr paid p db axios_get authorization
                   Hstored Hauth Hanswer). eexists. reflexivity.
    + destruct Ht as (Hsig & Hevent). destruct v; simpl.
      * rewrite (success_webhook_v1_stored secret env r sid sem yr paid p db Hstored
                   signature body Hsig Hevent). eexists. reflexivity.
      * rewrite (success_webhook_v2_stored secret env r sid sem yr paid p db Hstored
                   signature body Hsig Hevent). eexists. reflexivity.
  - rewrite (deliver_success_stored v secret env t r sid sem yr paid p db Hstored Ht).
    unfold stored, settled. cbn [payments]. apply stored_after_update. exact Hstored.
  - rewrite (deliver_success_stored v secret env t r sid sem yr paid p db Hstored Ht).
    unfold settled. cbn [students]. apply student_update_first_absent. exact Hnone.
Qed.

Lemma X16_witness :
  let report := Sample.signed (Sample.charge "charge.success" "ref_002"
                                 (Sample.metadata true)) in
  let db := {| payments := [Scenario.paid]; students := [Scenario.bob] |} in
  (exists answer,
     fst (deliver V1 Sample.secret Scenario.later report db) = Responded (respond 200 answer))
  /\ stored "ref_002" (snd (deliver V1 Sample.secret Scenario.later report db))
     = Some (Payment.apply_update "success"
               (Some (Some (DateOfString "2025-06-15T12:00:00.000Z")))
               (Date_now Scenario.later 0) Scenario.paid)
  /\ students (snd (deliver V1 Sample.secret Scenario.later report db)) = students db.
Proof.
  intros report db.
  apply (X16_success_for_a_student_that_does_not_exist V1 Sample.secret Scenario.later
           report "ref_002" Sample.student_id "Fall" "2025/2026"
           (Some (DateOfString "2025-06-15T12:00:00.000Z")) Scenario.paid db).
  - reflexivity.
  - exact (sample_success_trigger "ref_002").
  - reflexivity.
Defined.

(** ** A report of success whose student id is not an ObjectId *)

Lemma findByIdAndUpdate_uncastable (now : Z) (student_id : jsval) (sem yr : string)
  (entry : option ObjectId) (coll : list Student.doc) :
  cast_ObjectId student_id = Invalid ->
  Student.findByIdAndUpdate now student_id (mark_paid (JStr sem) (JStr yr) entry) coll
  = (Throw (CastError "_id"), coll).
Proof.
  intros Hcast. unfold Student.findByIdAndUpdate. rewrite Hcast. reflexivity.
Qed.

(** X17: the two writes of the webhook are not one: for a verified
    [charge.success] event on a stored reference whose metadata names the
    student by a text that is not an ObjectId, the Transaction is moved to
    [success] first, the update of the student then throws, and the
    webhook answers 500 [Database update failed] with the Transaction
    left in [success] and no student written.  Both variants. *)
Theorem X17_uncastable_student_id_leaves_transaction_settled
  (v : variant) (secret : string) (env : Env) (signature : option string) (body : jsval)
  (r : string) (paid : option JsDate) (p : Payment.doc) (db : Db) :
  signature_verifies secret body signature = true ->
  misaddressed_event r paid body ->
  stored r db = Some p ->
  run (webhook_of v secret env signature body) db
  = (Responded (respond 500 (ReceivedMessage "Database update failed")),
     {| payments := snd (Payment.update_first r
                           (Payment.apply_update "success" (Some paid) (Date_now env 0))
                           (payments db));
        students := students db |})
  /\ stored r (snd (run (webhook_of v secret env signature body) db))
     = Some (Payment.apply_update "success" (Some paid) (Date_now env 0) p).
Proof.
  intros Hsig (data & metadata & student_id & sem & yr & Hev & Hdata & Href & Hmeta & Hsid
               & Htruthy & Hcast & Hsem & Hsem0 & Hyr & Hyr0 & Hpaid) Hstored.
  assert (Hrun : run (webhook_of v secret env signature body) db
    = (Responded (respond 500 (ReceivedMessage "Database update failed")),
       {| payments := snd (Payment.update_first r
                             (Payment.apply_update "success" (Some paid) (Date_now env 0))
                             (payments db));
          students := students db |})).
  { destruct (signature_verifies_hash _ _ _ Hsig) as (h & Hh & Heq).
    destruct v; unfold webhook_of, run, PaymentRoute.webhook, PaymentRouteV2.webhook.
    - rewrite (bind_lift_Ok _ _ _ _ Hh), Heq.
      rewrite (bind_lift_Ok _ _ _ _ Hev).
      change (strict_eq_str (JStr "charge.success") "charge.success") with true. cbv iota.
      unfold bind at 1. rewrite (bind_lift_Ok _ _ _ _ Hdata).
      rewrite (bind_lift_Ok _ _ _ _ Href), (bind_lift_Ok _ _ _ _ Hmeta).
      rewrite (bind_lift_Ok _ _ _ _ Hsid), (bind_lift_Ok _ _ _ _ Hsem).
      rewrite (bind_lift_Ok _ _ _ _ Hyr).
      unfold try_catch, PaymentRoute.record_success, PaymentRouteV2.record_success, bind,
    on_payments, on_students.
      rewrite (findOneAndUpdate_success_stored _ _ _ _ _ _ Hpaid Hstored).
      cbn [payments students].
      rewrite (findByIdAndUpdate_uncastable _ _ _ _ _ _ Hcast).
      reflexivity.
    - rewrite (bind_lift_Ok _ _ _ _ Hh), Heq.
      rewrite (bind_lift_Ok _ _ _ _ Hev).
      change (strict_eq_str (JStr "charge.success") "charge.success") with true. cbv iota.
      unfold bind at 1. rewrite (bind_lift_Ok _ _ _ _ Hdata).
      rewrite (bind_lift_Ok _ _ _ _ Href), (bind_lift_Ok _ _ _ _ Hmeta).
      cbv zeta.
      rewrite (get_Ok_get_opt _ _ _ Hsid), (get_Ok_get_opt _ _ _ Hsem),
        (get_Ok_get_opt _ _ _ Hyr).
      rewrite Htruthy, (nonempty_truthy _ Hsem0), (nonempty_truthy _ Hyr0).
      cbn [negb orb].
      unfold try_catch, PaymentRoute.record_success, PaymentRouteV2.record_success, bind,
    on_payments, on_students.
      rewrite (findOneAndUpdate_success_stored _ _ _ _ _ _ Hpaid Hstored).
      cbn [payments students].
      rewrite (findByIdAndUpdate_uncastable _ _ _ _ _ _ Hcast).
      reflexivity. }
  split; [exact Hrun|].
  rewrite Hrun. unfold stored. cbn [snd payments]. apply stored_after_update. exact Hstored.
Qed.

Lemma X17_witness :
  let body := Sample.charge "charge.success" "ref_001"
                (JObj [("student_id", JStr "alice"); ("semester", JStr "Fall");
                       ("academic_year", JStr "2025/2026")]) in
  let at_noon := Some (DateOfString "2025-06-15T12:00:00.000Z") in
  run (webhook_of V2 Sample.secret Sample.env (Sample.sign body) body) Sample.db0
  = (Responded (respond 500 (ReceivedMessage "Database update failed")),
     {| payments := snd (Payment.update_first "ref_001"
                           (Payment.apply_update "success" (Some at_noon)
                              (Date_now Sample.env 0))
                           (payments Sample.db0));
        students := students Sample.db0 |})
  /\ stored "ref_001"
       (snd (run (webhook_of V2 Sample.secret Sample.env (Sample.sign body) body) Sample.db0))
     = Some (Payment.apply_update "success" (Some at_noon) (Date_now Sample.env 0)
               Sample.pending).
Proof.
  intros body at_noon.
  apply (X17_uncastable_student_id_leaves_transaction_settled V2 Sample.secret Sample.env
           (Sample.sign body) body "ref_001" at_noon Sample.pending Sample.db0).
  - exact (sample_signed body _ eq_refl).
  - do 5 eexists. repeat split; try reflexivity; discriminate.
  - reflexivity.
Defined.

(** ** What each route never writes *)

Lemma same_transactions_refl (db : Db) : same_transactions db db.
Proof. reflexivity. Qed.

Lemma same_transactions_trans (a b c : Db) :
  same_transactions a b -> same_transactions b c -> same_transactions a c.
Proof. unfold same_transactions. intros Hab Hbc. rewrite Hbc. exact Hab. Qed.

Lemma same_transactions_update (ref : jsval) (u : Payment.update) (coll : list Payment.doc)
  (others : list Student.doc) :
  same_transactions {| payments := coll; students := others |}
    {| payments := snd (Payment.findOneAndUpdate ref u coll); students := others |}.
Proof. unfold same_transactions. cbn [payments]. apply findOneAndUpdate_map. reflexivity. Qed.

Lemma settles_only_refl (db : Db) : settles_only db db.
Proof. split; reflexivity. Qed.

Lemma settles_only_trans (a b c : Db) :
  settles_only a b -> settles_only b c -> settles_only a c.
Proof.
  intros [Hs1 Ht1] [Hs2 Ht2]. split; [congruence|].
  exact (same_transactions_trans a b c Ht1 Ht2).
Qed.

Lemma respects_bind_lift (R : Db -> Db -> Prop) {A B : Type} (o : outcome A) (k : A -> M B) :
  (forall db, R db db) ->
  (forall a, o = Ok a -> respects R (k a)) ->
  respects R (bind (lift o) k).
Proof.
  intros Hrefl Hk db. unfold bind, lift. destruct o as [a|e|]; simpl.
  - apply Hk. reflexivity.
  - apply Hrefl.
  - apply Hrefl.
Qed.

(** The [charge.failed] branch and the end of the webhook. *)
Lemma failed_branch_settles_only (env : Env) (event_type : jsval) (body : jsval) :
  strict_eq_str event_type "charge.success" = false ->
  respects settles_only
    (early <-
       (if strict_eq_str event_type "charge.success" then ret None
        else if strict_eq_str event_type "charge.failed" then
          paystackData <- lift (get body "data") ;;
          reference <- lift (get paystackData "reference") ;;
          try_catch (
            on_payments (Payment.findOneAndUpdate reference (failed_update (Date_now env 0))) ;;;
            ret None)
            (fun dbError =>
               ret (Some (respond 500
                            (ReceivedMessage "Database update failed for failed payment"))))
        else ret None) ;;
     match early with
     | Some response => ret response
     | None => ret (respond 200 Received)
     end).
Proof.
  intros ->.
  apply (respects_bind settles_only settles_only_trans).
  - destruct (strict_eq_str event_type "charge.failed");
      [|apply (respects_ret settles_only settles_only_refl)].
    apply (respects_bind_lift settles_only _ _ settles_only_refl). intros data _.
    apply (respects_bind_lift settles_only _ _ settles_only_refl). intros reference _.
    apply (respects_try_catch settles_only settles_only_trans).
    + apply (respects_bind settles_only settles_only_trans).
      * intros db. unfold on_payments.
        pose proof (same_transactions_update reference (failed_update (Date_now env 0))
                      (payments db) (students db)) as Hsame.
        rewrite db_eta in Hsame.
        destruct (Payment.findOneAndUpdate reference (failed_update (Date_now env 0))
                    (payments db)) as [o coll]. simpl in *.
        split; [reflexivity | exact Hsame].
      * intros _. apply (respects_ret settles_only settles_only_refl).
    + intros e. apply (respects_ret settles_only settles_only_refl).
  - intros [response|]; apply (respects_ret settles_only settles_only_refl).
Qed.

(** X18: only a [charge.success] event makes the webhook write a student
    or create a Transaction: on every other body, with whatever signature,
    the students are afterwards what they were and the Transactions are
    the same ones, in the same order, with none added or removed and at
    most [status], [paidAt] and [updatedAt] rewritten.  Both variants. *)
Theorem X18_only_success_events_reach_the_students
  (v : variant) (secret : string) (env : Env) (signature : option string) (body : jsval)
  (db : Db) :
  strict_eq_str (get_opt body "event") "charge.success" = false ->
  students (snd (run (webhook_of v secret env signature body) db)) = students db
  /\ map frozen (payments (snd (run (webhook_of v secret env signature body) db)))
     = map frozen (payments db).
Proof.
  intros Hevent. rewrite run_snd.
  change (settles_only db (snd (webhook_of v secret env signature body db))).
  revert db. change (respects settles_only (webhook_of v secret env signature body)).
  destruct v; unfold webhook_of, PaymentRoute.webhook, PaymentRouteV2.webhook;
    apply (respects_bind_lift settles_only _ _ settles_only_refl); intros hash _;
    (destruct (loose_eq_header hash signature);
     [|apply (respects_ret settles_only settles_only_refl)]);
    apply (respects_bind_lift settles_only _ _ settles_only_refl); intros event_type E;
    rewrite (get_Ok_get_opt _ _ _ E) in Hevent;
    pose proof (failed_branch_settles_only env event_type body Hevent) as H;
    rewrite Hevent in H |- *; exact H.
Qed.

Lemma X18_witness :
  let body := Sample.charge "charge.failed" "ref_002" (Sample.metadata true) in
  students (snd (run (webhook_of V1 Sample.secret Sample.env (Sample.sign body) body)
                   Scenario.db))
  = students Scenario.db
  /\ map frozen (payments (snd (run (webhook_of V1 Sample.secret Sample.env
                                       (Sample.sign body) body) Scenario.db)))
     = map frozen (payments Scenario.db).
Proof.
  intros body.
  apply (X18_only_success_events_reach_the_students V1 Sample.secret Sample.env
           (Sample.sign body) body Scenario.db).
  reflexivity.
Defined.

(** X19: [verify-payment] never creates a Transaction, whatever the
    gateway answers: the Transactions are afterwards the same ones, in the
    same order, with none added or removed and at most [status], [paidAt]
    and [updatedAt] rewritten.  Unlike the webhook it does not create the
    record of a reference that is not stored.  Both variants. *)
Theorem X19_verify_payment_creates_no_transaction
  (v : variant) (env : Env) (axios_get : string -> outcome jsval)
  (authorization : option string) (reference : string) (db : Db) :
  map frozen (payments (snd (run (verify_payment_of v env axios_get authorization reference)
                               db)))
  = map frozen (payments db).
Proof.
  rewrite run_snd.
  destruct v; unfold verify_payment_of.
  - apply (verify_v1_respects same_transactions same_transactions_refl
             same_transactions_trans).
    + intros ref u coll others _. apply same_transactions_update.
    + intros now id u coll others _. reflexivity.
  - apply (verify_v2_respects same_transactions same_transactions_refl
             same_transactions_trans).
    + intros ref u coll others _. apply same_transactions_update.
    + intros now id u coll others _. reflexivity.
Qed.

Lemma rewrites_nothing_refl (db : Db) : rewrites_nothing db db.
Proof. split; [reflexivity|]. exists []. rewrite app_nil_r. reflexivity. Qed.

Lemma rewrites_nothing_trans (a b c : Db) :
  rewrites_nothing a b -> rewrites_nothing b c -> rewrites_nothing a c.
Proof.
  intros [Hs1 (x & Hx)] [Hs2 (y & Hy)]. split; [congruence|].
  exists (x ++ y)%list. rewrite Hy, Hx, app_assoc. reflexivity.
Qed.

(** X20: [initiate-payment] rewrites nothing that is stored, whatever the
    request and whatever the gateway answers: every student and every
    Transaction stored before is afterwards exactly what it was, and the
    only write is the Transaction it appends.  Both variants. *)
Theorem X20_initiate_payment_rewrites_nothing
  (v : variant) (env : Env) (axios_post : jsval -> outcome jsval)
  (authorization : option string) (body : jsval) (db : Db) :
  students (snd (run (initiate_payment_of v env axios_post authorization body) db))
  = students db
  /\ exists added,
      payments (snd (run (initiate_payment_of v env axios_post authorization body) db))
      = (payments db ++ added)%list.
Proof.
  rewrite run_snd.
  assert (Hsave : forall (d : Payment.draft) (coll : list Payment.doc)
                         (others : list Student.doc),
             route_draft d ->
             rewrites_nothing {| payments := coll; students := others |}
               {| payments := snd (Payment.save d coll); students := others |}).
  { intros d coll others _. split; [reflexivity|]. cbn [payments].
    destruct (save_writes d coll) as [-> | (p & _ & _ & _ & ->)].
    - exists []. rewrite app_nil_r. reflexivity.
    - exists [p]. reflexivity. }
  destruct v; unfold initiate_payment_of.
  - apply (initiate_v1_respects rewrites_nothing rewrites_nothing_refl
             rewrites_nothing_trans Hsave).
  - apply (initiate_v2_respects rewrites_nothing rewrites_nothing_refl
             rewrites_nothing_trans Hsave).
Qed.

(** ** Students only advance *)

Lemma advanced_refl (s : Student.doc) : advanced s s.
Proof.
  split; [reflexivity|]. split; [|intros H; exact H].
  exists []. rewrite app_nil_r. reflexivity.
Qed.

Lemma advanced_trans (a b c : Student.doc) : advanced a b -> advanced b c -> advanced a c.
Proof.
  intros (Hid1 & (x & Hx) & Hp1) (Hid2 & (y & Hy) & Hp2). split; [congruence|]. split.
  - exists (x ++ y)%list. rewrite Hy, Hx, app_assoc. reflexivity.
  - intros H. exact (Hp2 (Hp1 H)).
Qed.

Lemma students_advance_refl (db : Db) : students_advance db db.
Proof.
  unfold students_advance. induction (students db) as [|s rest IH]; constructor.
  - apply advanced_refl.
  - exact IH.
Qed.

Lemma students_advance_trans (a b c : Db) :
  students_advance a b -> students_advance b c -> students_advance a c.
Proof.
  unfold students_advance. generalize (students a) (students b) (students c).
  intros la lb lc Hab. revert lc.
  induction Hab as [|x y la' lb' Hxy Hrest IH]; intros lc Hbc; inversion Hbc; subst;
    constructor.
  - eapply advanced_trans; eassumption.
  - apply IH. assumption.
Qed.

Lemma advanced_mark_paid (sem yr : option string) (entry : option ObjectId) (now : Z)
  (s : Student.doc) :
  advanced s (Student.apply_update "paid" sem yr entry now s).
Proof.
  split; [reflexivity|]. split; [|intros _; reflexivity].
  cbn [Student.apply_update Student.paymentHistory]. unfold Student.addToSet.
  destruct (existsb (Student.same_entry entry) (Student.paymentHistory s)).
  - exists []. rewrite app_nil_r. reflexivity.
  - exists [entry]. reflexivity.
Qed.

Lemma student_update_first_Forall2 (P : Student.doc -> Student.doc -> Prop) (id : ObjectId)
  (f : Student.doc -> Student.doc) (coll : list Student.doc) :
  (forall s, P s s) -> (forall s, P s (f s)) ->
  Forall2 P coll (Student.update_first id f coll).
Proof.
  intros Hrefl Hf. induction coll as [|s rest IH]; simpl; [constructor|].
  destruct (Student.has_id id s); constructor; try apply Hrefl; try apply Hf; try exact IH.
  clear IH. induction rest as [|q rest IH]; constructor; [apply Hrefl | exact IH].
Qed.

(** X21: whatever requests the payment routes serve, every student only
    advances: the payment history afterwards extends the one before
    (no entry is removed or reordered), and a student who was [paid] is
    still [paid]; no route, and in particular no [charge.failed]
    delivery, takes a payment back from a student. *)
Theorem X21_students_only_advance
  (v : variant) (secret : string) (qs : list (Env * request)) (db : Db) :
  Forall2 advanced (students db) (students (serve_all v secret qs db)).
Proof.
  apply (serve_all_respects students_advance students_advance_refl students_advance_trans).
  - intros ref u coll others _.
    exact (students_advance_refl {| payments := coll; students := others |}).
  - intros d coll others _.
    exact (students_advance_refl {| payments := coll; students := others |}).
  - intros now id u coll others Hu. unfold students_advance. cbn [students].
    unfold Student.findByIdAndUpdate. rewrite Hu.
    destruct (filter_path "_id" (cast_ObjectId id)) as [i|e|];
      destruct (update_path "lastPaidSemester" (cast_String (Student.u_lastPaidSemester u)))
        as [sem|e1|];
      destruct (update_path "lastPaidAcademicYear"
                  (cast_String (Student.u_lastPaidAcademicYear u))) as [yr|e2|];
      cbn [snd];
      try (apply (students_advance_refl {| payments := others; students := coll |})).
    apply student_update_first_Forall2; [apply advanced_refl|].
    intros s. apply advanced_mark_paid.
Qed.

(** ** Reconstruction from an event without an amount *)

(** X22: a verified [charge.success] event for a reference that is not
    stored and whose data carries no [amount] creates nothing: the
    [required] validator of the schema refuses the document, the webhook
    answers 500 [Database update failed], and neither a Transaction nor a
    student is written.  Both variants. *)
Theorem X22_reconstruction_needs_the_amount
  (v : variant) (secret : string) (env : Env) (signature : option string) (body : jsval)
  (r : string) (sid : ObjectId) (sem yr : string) (paid : option JsDate) (db : Db) :
  signature_verifies secret body signature = true ->
  success_event r sid sem yr paid body ->
  get_opt (get_opt body "data") "amount" = JUndefined
  \/ get_opt (get_opt body "data") "amount" = JNull ->
  existsb (Payment.has_reference r) (payments db) = false ->
  run (webhook_of v secret env signature body) db
  = (Responded (respond 500 (ReceivedMessage "Database update failed")), db).
Proof.
  intros Hsig (data & Hev & Hdata & Href & metadata & student_id
               & Hmeta & Hsid & Hcast & Hsem & Hsem0 & Hyr & Hyr0 & Hpaid) Hamount Habsent.
  rewrite (get_Ok_get_opt _ _ _ Hdata) in Hamount.
  assert (Hsave : forall description created now coll,
             Payment.save
               (Payment.new_ (new_ObjectId env) now
                  (reconstructed_payment student_id (JStr r) data (JStr sem) (JStr yr)
                     description created (Date_now env 2))) coll
             = (Throw (ValidationError (if String.eqb r "" then "paystackReference"
                                        else "amount")), coll)).
  { intros description created now coll.
    unfold Payment.save, Payment.validate, Payment.new_, reconstructed_payment.
    cbn [Payment.draft_fields Payment.draft_id Payment.f_studentId
         Payment.f_paystackReference Payment.f_amount].
    rewrite Hcast. cbn [required obind cast_String required_string].
    destruct (String.eqb r ""); [reflexivity|]. cbn [obind].
    destruct Hamount as [-> | ->]; reflexivity. }
  destruct (signature_verifies_hash _ _ _ Hsig) as (h & Hh & Heq).
  destruct v; unfold webhook_of, run, PaymentRoute.webhook, PaymentRouteV2.webhook.
  - rewrite (bind_lift_Ok _ _ _ _ Hh), Heq.
    rewrite (bind_lift_Ok _ _ _ _ Hev).
    change (strict_eq_str (JStr "charge.success") "charge.success") with true. cbv iota.
    unfold bind at 1. rewrite (bind_lift_Ok _ _ _ _ Hdata).
    rewrite (bind_lift_Ok _ _ _ _ Href), (bind_lift_Ok _ _ _ _ Hmeta).
    rewrite (bind_lift_Ok _ _ _ _ Hsid), (bind_lift_Ok _ _ _ _ Hsem).
    rewrite (bind_lift_Ok _ _ _ _ Hyr).
    unfold try_catch, PaymentRoute.record_success, PaymentRouteV2.record_success,
    PaymentRoute.record_failed, PaymentRouteV2.record_failed, bind, on_payments.
    rewrite (findOneAndUpdate_success_absent _ _ _ _ _ Hpaid Habsent).
    cbn [payments students].
    destruct (truthy (get_opt metadata "description")).
    + cbv beta iota delta [ret]. cbn [payments students]. rewrite Hsave.
      rewrite db_eta. reflexivity.
    + cbv beta iota delta [throw ret]. rewrite db_eta. reflexivity.
  - rewrite (bind_lift_Ok _ _ _ _ Hh), Heq.
    rewrite (bind_lift_Ok _ _ _ _ Hev).
    change (strict_eq_str (JStr "charge.success") "charge.success") with true. cbv iota.
    unfold bind at 1. rewrite (bind_lift_Ok _ _ _ _ Hdata).
    rewrite (bind_lift_Ok _ _ _ _ Href), (bind_lift_Ok _ _ _ _ Hmeta).
    cbv zeta.
    rewrite (get_Ok_get_opt _ _ _ Hsid), (get_Ok_get_opt _ _ _ Hsem),
      (get_Ok_get_opt _ _ _ Hyr).
    rewrite (cast_ObjectId_truthy _ _ Hcast), (nonempty_truthy _ Hsem0),
      (nonempty_truthy _ Hyr0).
    cbn [negb orb].
    unfold try_catch, PaymentRoute.record_success, PaymentRouteV2.record_success,
    PaymentRoute.record_failed, PaymentRouteV2.record_failed, bind, on_payments.
    rewrite (findOneAndUpdate_success_absent _ _ _ _ _ Hpaid Habsent).
    cbn [payments students]. rewrite Hsave. rewrite db_eta. reflexivity.
Qed.

Lemma X22_witness :
  let body :=
    JObj [("event", JStr "charge.success");
          ("data", JObj [("reference", JStr "ref_404"); ("currency", JStr "NGN");
                         ("paid_at", JStr "2025-06-15T12:00:00.000Z");
                         ("metadata", Sample.metadata true)])] in
  run (webhook_of V2 Sample.secret Sample.env (Sample.sign body) body) Sample.db0
  = (Responded (respond 500 (ReceivedMessage "Database update failed")), Sample.db0).
Proof.
  intros body.
  apply (X22_reconstruction_needs_the_amount V2 Sample.secret Sample.env (Sample.sign body)
           body "ref_404" Sample.student_id "Fall" "2025/2026"
           (Some (DateOfString "2025-06-15T12:00:00.000Z")) Sample.db0).
  - exact (sample_signed body _ eq_refl).
  - eexists. repeat split; try reflexivity.
    do 2 eexists. repeat split; try reflexivity; discriminate.
  - left. reflexivity.
  - reflexivity.
Defined.
